(** * Weenix kernel slice: boot header, mmap/munmap, open, fork and the
      S5FS vnode entry points, as a shallow embedding.

    Sources embedded here:
    - [kernel/boot/boot.S]      the multiboot header, and the C text that
                                follows the boot code there: [do_mmap] and
                                [do_munmap];
    - [kernel/fs/open.c]        [get_empty_fd], [do_open];
    - [kernel/proc/fork.c]      [fork_setup_stack], [do_fork];
    - [kernel/fs/s5fs/s5fs.c]   the [s5fs_*] vnode operations.

    C integers are modelled as [Z]; where the C type's wrap-around matters
    (the assembler's [.long], the [uint32_t] arithmetic of
    [fork_setup_stack]) it is written out.  Pointers to kernel objects are
    keys of finite maps; [NULL] is [None].  Header files of the kernel are
    not part of the sources at hand: the constants they define are fields of
    the classes below, and the subroutines they declare are either class
    operations or models written from the design document. *)

From stdpp Require Import gmap strings list.
From Stdlib Require Import ZArith Lia.
From Stdlib.Strings Require Import Byte.

Local Open Scope Z_scope.

(** ** Results of kernel code

    A kernel routine either returns a value and a new state, stops the
    kernel through [KASSERT]/[panic], or is still running when the fuel of
    the model is used up. *)

Inductive outcome (S A : Type) : Type :=
| Ret (a : A) (s : S)
| Panic (why : string)
| Timeout.

Arguments Ret {S A} a s.
Arguments Panic {S A} why.
Arguments Timeout {S A}.

Definition kern (S A : Type) : Type := S -> outcome S A.

Definition kret {S A} (a : A) : kern S A := fun s => Ret a s.

Definition kbind {S A B} (m : kern S A) (k : A -> kern S B) : kern S B :=
  fun s =>
    match m s with
    | Ret a s' => k a s'
    | Panic why => Panic why
    | Timeout => Timeout
    end.

Definition klift {S A} (f : S -> A * S) : kern S A :=
  fun s => let '(a, s') := f s in Ret a s'.

Definition kmodify {S} (f : S -> S) : kern S unit :=
  fun s => Ret tt (f s).

Definition kget {S A} (f : S -> A) : kern S A :=
  fun s => Ret (f s) s.

Definition kpanic {S A} (why : string) : kern S A := fun _ => Panic why.

Definition KASSERT {S} (b : bool) (why : string) : kern S unit :=
  if b then kret tt else kpanic why.

Declare Scope kern_scope.
Delimit Scope kern_scope with kern.

Notation "x <- m ;; k" := (kbind m (fun x => k))
  (at level 100, m at next level, right associativity) : kern_scope.
Notation "m ;;; k" := (kbind m (fun _ => k))
  (at level 100, right associativity) : kern_scope.

(** C truth value of an integer. *)
Definition truthy (z : Z) : bool := negb (z =? 0).

(** [x & mask] is non-zero. *)
Definition has_flag (x mask : Z) : bool := truthy (Z.land x mask).

(** ** Constants of the absent headers *)

(** [errno.h] *)
Class Errno := {
  EINVAL : Z; EBADF : Z; EACCES : Z; ENOMEM : Z; EMFILE : Z; EISDIR : Z;
  ENAMETOOLONG : Z; ENOTDIR : Z; ENOTEMPTY : Z; ENOSPC : Z; ENOENT : Z;
  EEXIST : Z;
  errno_positive :
    Forall (fun e => 0 < e)
      [EINVAL; EBADF; EACCES; ENOMEM; EMFILE; EISDIR;
       ENAMETOOLONG; ENOTDIR; ENOTEMPTY; ENOSPC; ENOENT; EEXIST];
  errno_distinct :
    NoDup [EINVAL; EBADF; EACCES; ENOMEM; EMFILE; EISDIR;
           ENAMETOOLONG; ENOTDIR; ENOTEMPTY; ENOSPC; ENOENT; EEXIST]
}.

(** The values Weenix gives them. *)
#[export] Instance weenix_errno : Errno.
Proof.
  refine {|
    EINVAL := 22; EBADF := 9; EACCES := 13; ENOMEM := 12; EMFILE := 24;
    EISDIR := 21; ENAMETOOLONG := 36; ENOTDIR := 20; ENOTEMPTY := 39;
    ENOSPC := 28; ENOENT := 2; EEXIST := 17
  |}.
  - repeat constructor; lia.
  - compute_done.
Defined.

(** ** The multiboot header of [boot.S] *)

(** [multiboot.h] *)
Class Multiboot := {
  MULTIBOOT_HEADER_MAGIC : Z;
  MULTIBOOT_PAGE_ALIGN : Z;
  MULTIBOOT_MEMORY_INFO : Z
}.

#[export] Instance multiboot_h : Multiboot := {|
  MULTIBOOT_HEADER_MAGIC := 0x1BADB002;
  MULTIBOOT_PAGE_ALIGN := 1;
  MULTIBOOT_MEMORY_INFO := 2
|}.

(** The assembler directives the header is made of. *)
Inductive directive : Type :=
| dir_section (name : string)
| dir_align (n : Z)
| dir_long (e : Z)
| dir_skip (n : Z).

(** [.long e] emits the low 32 bits of [e]. *)
Definition long (e : Z) : Z := e mod 2 ^ 32.

Section boot_S.
Context `{Multiboot}.

(** [.set FLAGS, MULTIBOOT_PAGE_ALIGN | MULTIBOOT_MEMORY_INFO] *)
Definition FLAGS : Z := Z.lor MULTIBOOT_PAGE_ALIGN MULTIBOOT_MEMORY_INFO.

(** [.set CHECKSUM, -(MULTIBOOT_HEADER_MAGIC + FLAGS)] *)
Definition CHECKSUM : Z := - (MULTIBOOT_HEADER_MAGIC + FLAGS).

(** Lines 14 to 21 of the file: the [.multiboot] section and the switch to
    [.setup], where the code starts. *)
Definition boot_S : list directive :=
  [ dir_section ".multiboot"; dir_align 4;
    dir_long MULTIBOOT_HEADER_MAGIC; dir_long FLAGS; dir_long CHECKSUM;
    dir_section ".setup" ].

End boot_S.

(** The 32-bit words a list of directives puts into section [want].  The
    content of a section made of [.long] only is word aligned, so [.align 4]
    pads nothing; [.skip n] leaves [n / 4] zero words. *)
Fixpoint section_words (want : string) (cur : string) (ds : list directive)
  : list Z :=
  match ds with
  | [] => []
  | dir_section name :: ds' => section_words want name ds'
  | dir_align _ :: ds' => section_words want cur ds'
  | dir_long e :: ds' =>
      if String.eqb cur want
      then long e :: section_words want cur ds'
      else section_words want cur ds'
  | dir_skip n :: ds' =>
      if String.eqb cur want
      then replicate (Z.to_nat (n / 4)) 0 ++ section_words want cur ds'
      else section_words want cur ds'
  end.

Definition multiboot_header `{Multiboot} : list Z :=
  section_words ".multiboot" ".text" boot_S.

(** ** Kernel objects

    The structures of [proc/proc.h], [fs/file.h], [mm/mmobj.h],
    [vm/vmmap.h] and [proc/kthread.h], with the fields the embedded code
    reads or writes.  A pointer to a [file_t], an [mmobj_t] or a vnode is a
    key ([nat]); a process is named by its pid, a thread by its id. *)

(** [mm/page.h], [mm/mman.h], [boot/config.h] *)
Class Mman := {
  PAGE_SIZE : Z;
  USER_MEM_LOW : Z;
  USER_MEM_HIGH : Z;
  MAP_SHARED : Z; MAP_PRIVATE : Z; MAP_FIXED : Z; MAP_ANON : Z;
  PROT_READ : Z; PROT_WRITE : Z;
  VMMAP_DIR_HILO : Z;
  page_size_positive : 0 < PAGE_SIZE
}.

#[export] Instance weenix_mman : Mman.
Proof.
  refine {|
    PAGE_SIZE := 4096;
    USER_MEM_LOW := 0x00400000;
    USER_MEM_HIGH := 0xc0000000;
    MAP_SHARED := 1; MAP_PRIVATE := 2; MAP_FIXED := 4; MAP_ANON := 8;
    PROT_READ := 1; PROT_WRITE := 2;
    VMMAP_DIR_HILO := 2
  |}.
  lia.
Defined.

(** [proc/kthread.h], [main/interrupt.h], [api/exec.h] *)
Class KthreadH := {
  DEFAULT_STACK_SIZE : Z;
  sizeof_regs_t : Z;
  userland_entry : Z
}.

#[export] Instance weenix_kthread_h : KthreadH := {|
  DEFAULT_STACK_SIZE := 56 * 4096;
  sizeof_regs_t := 76;
  userland_entry := 0xc0104000
|}.

(** [fs/file.h], [fs/fcntl.h], [proc/proc.h] *)
Class FileH := {
  NFILES : nat;
  FMODE_READ : Z; FMODE_WRITE : Z; FMODE_APPEND : Z;
  O_RDONLY : Z; O_WRONLY : Z; O_RDWR : Z; O_APPEND : Z
}.

#[export] Instance weenix_file_h : FileH := {|
  NFILES := 32;
  FMODE_READ := 1; FMODE_WRITE := 2; FMODE_APPEND := 4;
  O_RDONLY := 0; O_WRONLY := 1; O_RDWR := 2; O_APPEND := 0x400
|}.

Record file_t := mk_file {
  f_mode : Z;
  f_pos : Z;
  f_refcount : Z;
  f_vnode : option nat
}.

(** The kinds of memory object; the object of a vnode names its vnode. *)
Inductive mmobj_kind :=
| mmo_anon
| mmo_shadow
| mmo_vnode (vn : nat)
| mmo_blockdev.

Record mmobj_t := mk_mmobj {
  mmo_kind : mmobj_kind;
  mmo_refcount : Z;
  mmo_shadowed : option nat
}.

Record vmarea_t := mk_vmarea {
  vma_start : Z;
  vma_end : Z;
  vma_off : Z;
  vma_prot : Z;
  vma_flags : Z;
  vma_obj : option nat
}.

Record regs_t := mk_regs {
  r_eax : Z; r_ebx : Z; r_ecx : Z; r_edx : Z;
  r_esp : Z; r_ebp : Z; r_eip : Z; r_eflags : Z
}.

Record context_t := mk_context {
  c_eip : Z;
  c_esp : Z;
  c_pdptr : nat;
  c_kstack : Z;
  c_kstacksz : Z
}.

(** What a kernel stack holds at an address: a machine word or a whole
    [regs_t] (written by one [memcpy]).  A cell stands for the bytes it
    spans from its address on: four for a word, [sizeof(regs_t)] for a
    [regs_t]. *)
Inductive stack_cell := cell_word (w : Z) | cell_regs (r : regs_t).

Record kthread_t := mk_kthread {
  kt_ctx : context_t;
  kt_kstack : Z;
  kt_proc : Z;
  kt_stackmem : gmap Z stack_cell
}.

Record proc_t := mk_proc {
  p_pid : Z;
  p_comm : string;
  p_threads : list nat;
  p_status : Z;
  p_state : Z;
  p_pagedir : nat;
  p_brk : Z;
  p_start_brk : Z;
  p_cwd : option nat;
  p_files : list (option nat);
  p_vmmap : list vmarea_t
}.

(** Page-table and TLB maintenance the code asks for, in order. *)
Inductive mmu_event :=
| ev_tlb_flush_range (vaddr : Z) (npages : Z)
| ev_tlb_flush_all
| ev_pt_unmap_range (pagedir : nat) (lo hi : Z).

(** The kernel state: [curproc] and [curthr] of [globals.h], the other
    processes, the slab of [file_t], the memory objects, the threads and the
    run queue.  [V] is the state of the VFS below the file table (vnodes,
    the mounted file systems); the code here reaches it only through the
    operations of the classes [Vnode] and [Namev]. *)
Record kstate (V : Type) := mk_kstate {
  curproc : proc_t;
  curthr : nat;
  procs : gmap Z proc_t;
  threads : gmap nat kthread_t;
  runq : list nat;
  files : gmap nat file_t;
  file_slab_free : nat;
  mmobjs : gmap nat mmobj_t;
  next_pagedir : nat;
  next_kstack : Z;
  mmu_log : list mmu_event;
  vfs : V
}.

Arguments mk_kstate {V}.
Arguments curproc {V}.
Arguments curthr {V}.
Arguments procs {V}.
Arguments threads {V}.
Arguments runq {V}.
Arguments files {V}.
Arguments file_slab_free {V}.
Arguments mmobjs {V}.
Arguments next_pagedir {V}.
Arguments next_kstack {V}.
Arguments mmu_log {V}.
Arguments vfs {V}.

(** [fs/stat.h] *)
Class StatH := {
  S_IFMT : Z; S_IFCHR : Z; S_IFDIR : Z; S_IFBLK : Z; S_IFREG : Z
}.

#[export] Instance weenix_stat_h : StatH := {|
  S_IFMT := 0xFF00;
  S_IFCHR := 0x0100; S_IFDIR := 0x0200; S_IFBLK := 0x0400; S_IFREG := 0x0800
|}.

Definition S_ISCHR `{StatH} (m : Z) : bool := Z.land m S_IFMT =? S_IFCHR.
Definition S_ISDIR `{StatH} (m : Z) : bool := Z.land m S_IFMT =? S_IFDIR.
Definition S_ISBLK `{StatH} (m : Z) : bool := Z.land m S_IFMT =? S_IFBLK.

(** [fs/vnode.h]: the vnode cache and the fields of a vnode, over the state
    [V] of the layer that owns the vnodes.  [vget] takes the inode number
    (there is one file system). *)
Class Vnode (V : Type) := {
  vget : Z -> V -> nat * V;
  vref : nat -> V -> V;
  vput : nat -> V -> V;
  vn_mode : nat -> V -> Z;
  vn_devid : nat -> V -> Z;
  vn_refcount : nat -> V -> Z
}.

(** [fs/namev.c], which is not among the sources: the status of
    [open_namev], the vnode it stored through its third argument and the
    state it leaves. *)
Class Namev (V : Type) := {
  open_namev : string -> Z -> V -> Z * option nat * V
}.

Section kstate_updates.
Context {V : Type}.

Definition with_curproc (f : proc_t -> proc_t) (k : kstate V) : kstate V :=
  mk_kstate (f (curproc k)) (curthr k) (procs k) (threads k) (runq k)
    (files k) (file_slab_free k) (mmobjs k) (next_pagedir k) (next_kstack k)
    (mmu_log k) (vfs k).

Definition with_procs (f : gmap Z proc_t -> gmap Z proc_t) (k : kstate V)
  : kstate V :=
  mk_kstate (curproc k) (curthr k) (f (procs k)) (threads k) (runq k)
    (files k) (file_slab_free k) (mmobjs k) (next_pagedir k) (next_kstack k)
    (mmu_log k) (vfs k).

Definition with_threads (f : gmap nat kthread_t -> gmap nat kthread_t)
  (k : kstate V) : kstate V :=
  mk_kstate (curproc k) (curthr k) (procs k) (f (threads k)) (runq k)
    (files k) (file_slab_free k) (mmobjs k) (next_pagedir k) (next_kstack k)
    (mmu_log k) (vfs k).

Definition with_runq (f : list nat -> list nat) (k : kstate V) : kstate V :=
  mk_kstate (curproc k) (curthr k) (procs k) (threads k) (f (runq k))
    (files k) (file_slab_free k) (mmobjs k) (next_pagedir k) (next_kstack k)
    (mmu_log k) (vfs k).

Definition with_files (f : gmap nat file_t -> gmap nat file_t)
  (k : kstate V) : kstate V :=
  mk_kstate (curproc k) (curthr k) (procs k) (threads k) (runq k)
    (f (files k)) (file_slab_free k) (mmobjs k) (next_pagedir k)
    (next_kstack k) (mmu_log k) (vfs k).

Definition with_file_slab_free (f : nat -> nat) (k : kstate V) : kstate V :=
  mk_kstate (curproc k) (curthr k) (procs k) (threads k) (runq k)
    (files k) (f (file_slab_free k)) (mmobjs k) (next_pagedir k)
    (next_kstack k) (mmu_log k) (vfs k).

Definition with_mmobjs (f : gmap nat mmobj_t -> gmap nat mmobj_t)
  (k : kstate V) : kstate V :=
  mk_kstate (curproc k) (curthr k) (procs k) (threads k) (runq k)
    (files k) (file_slab_free k) (f (mmobjs k)) (next_pagedir k)
    (next_kstack k) (mmu_log k) (vfs k).

Definition with_next_pagedir (f : nat -> nat) (k : kstate V) : kstate V :=
  mk_kstate (curproc k) (curthr k) (procs k) (threads k) (runq k)
    (files k) (file_slab_free k) (mmobjs k) (f (next_pagedir k))
    (next_kstack k) (mmu_log k) (vfs k).

Definition with_next_kstack (f : Z -> Z) (k : kstate V) : kstate V :=
  mk_kstate (curproc k) (curthr k) (procs k) (threads k) (runq k)
    (files k) (file_slab_free k) (mmobjs k) (next_pagedir k)
    (f (next_kstack k)) (mmu_log k) (vfs k).

Definition with_mmu_log (f : list mmu_event -> list mmu_event)
  (k : kstate V) : kstate V :=
  mk_kstate (curproc k) (curthr k) (procs k) (threads k) (runq k)
    (files k) (file_slab_free k) (mmobjs k) (next_pagedir k) (next_kstack k)
    (f (mmu_log k)) (vfs k).

Definition with_vfs (f : V -> V) (k : kstate V) : kstate V :=
  mk_kstate (curproc k) (curthr k) (procs k) (threads k) (runq k)
    (files k) (file_slab_free k) (mmobjs k) (next_pagedir k) (next_kstack k)
    (mmu_log k) (f (vfs k)).

End kstate_updates.

Definition set_p_files (fs : list (option nat)) (p : proc_t) : proc_t :=
  mk_proc (p_pid p) (p_comm p) (p_threads p) (p_status p) (p_state p)
    (p_pagedir p) (p_brk p) (p_start_brk p) (p_cwd p) fs (p_vmmap p).

Definition set_p_vmmap (m : list vmarea_t) (p : proc_t) : proc_t :=
  mk_proc (p_pid p) (p_comm p) (p_threads p) (p_status p) (p_state p)
    (p_pagedir p) (p_brk p) (p_start_brk p) (p_cwd p) (p_files p) m.

Definition set_vma_obj (o : option nat) (a : vmarea_t) : vmarea_t :=
  mk_vmarea (vma_start a) (vma_end a) (vma_off a) (vma_prot a) (vma_flags a) o.

Definition set_f_mode (m : Z) (f : file_t) : file_t :=
  mk_file m (f_pos f) (f_refcount f) (f_vnode f).

Definition set_f_refcount (n : Z) (f : file_t) : file_t :=
  mk_file (f_mode f) (f_pos f) n (f_vnode f).

Definition set_f_vnode (v : option nat) (f : file_t) : file_t :=
  mk_file (f_mode f) (f_pos f) (f_refcount f) v.

Definition set_mmo_refcount (n : Z) (o : mmobj_t) : mmobj_t :=
  mk_mmobj (mmo_kind o) n (mmo_shadowed o).

Definition set_mmo_shadowed (b : option nat) (o : mmobj_t) : mmobj_t :=
  mk_mmobj (mmo_kind o) (mmo_refcount o) b.

(** ** The file table: [fs/file.c], [fs/vfs_syscall.c], [fs/open.c] *)

Section file_table.
Context {V : Type} `{!Vnode V, !Namev V, !StatH, !Errno, !FileH}.

Local Open Scope kern_scope.

(** Modelled from the spec: [fref] of [fs/file.c], which is not among the
    sources.  "Duplicate the file-descriptor table (ref-count each open
    file)": one more reference on an open file; an empty slot has none to
    count. *)
Definition fref (f : option nat) (k : kstate V) : kstate V :=
  match f with
  | Some a =>
      with_files (alter (fun fl => set_f_refcount (f_refcount fl + 1) fl) a) k
  | None => k
  end.

(** Modelled from the spec: [fget] of [fs/file.c], which is not among the
    sources.  [fget(-1)] hands out "a fresh file object" with one reference,
    or [NULL] when the slab is exhausted ([ENOMEM]); [fget(fd)] "resolves
    [fd]" in the table of the current process and takes a reference. *)
Definition fget (fd : Z) : kern (kstate V) (option nat) :=
  fun k =>
    if fd =? -1 then
      match file_slab_free k with
      | O => Ret None k
      | S n =>
          let a := fresh (dom (files k)) in
          Ret (Some a)
            (with_file_slab_free (fun _ => n)
               (with_files (insert a (mk_file 0 0 1 None)) k))
      end
    else if (fd <? 0) || (Z.of_nat NFILES <=? fd) then Ret None k
    else
      match p_files (curproc k) !! Z.to_nat fd with
      | Some (Some a) => Ret (Some a) (fref (Some a) k)
      | _ => Ret None k
      end.

(** Modelled from the spec: [fput] of [fs/file.c], which is not among the
    sources.  "The file released": one reference less; with the last one
    the vnode of the file, if it has one, is [vput] and the [file_t] goes
    back to the slab. *)
Definition fput (a : nat) (k : kstate V) : kstate V :=
  match files k !! a with
  | None => k
  | Some fl =>
      if f_refcount fl - 1 =? 0 then
        let k1 :=
          match f_vnode fl with
          | Some v => with_vfs (vput v) k
          | None => k
          end in
        with_file_slab_free S (with_files (delete a) k1)
      else
        with_files (insert a (set_f_refcount (f_refcount fl - 1) fl)) k
  end.

(** Modelled from the spec: [do_close] of [fs/vfs_syscall.c], which is not
    among the sources.  [close(fd)]: "the slot is cleared and the file
    released"; a descriptor that is not open is [EBADF]. *)
Definition do_close (fd : Z) : kern (kstate V) Z :=
  fun k =>
    if (fd <? 0) || (Z.of_nat NFILES <=? fd) then Ret (- EBADF) k
    else
      match p_files (curproc k) !! Z.to_nat fd with
      | Some (Some a) =>
          let k1 :=
            with_curproc
              (fun p => set_p_files (<[Z.to_nat fd := None]> (p_files p)) p)
              k in
          Ret 0 (fput a k1)
      | _ => Ret (- EBADF) k
      end.

(** [get_empty_fd]: the [for] loop over [fd = 0 .. NFILES - 1], [n] slots
    still to visit.  The table of a process has [NFILES] slots; a slot the
    list does not have is never reported as empty. *)
Fixpoint get_empty_fd_from (n : nat) (fd : Z) (tbl : list (option nat)) : Z :=
  match n with
  | O => - EMFILE
  | S n' =>
      match tbl !! Z.to_nat fd with
      | Some None => fd
      | _ => get_empty_fd_from n' (fd + 1) tbl
      end
  end.

Definition get_empty_fd (p : proc_t) : Z :=
  get_empty_fd_from NFILES 0 (p_files p).

(** [f->f_mode] of the file at [a]. *)
Definition file_mode (a : nat) (k : kstate V) : Z :=
  match files k !! a with Some fl => f_mode fl | None => 0 end.

Definition store_p_files (fd : Z) (f : option nat) : kern (kstate V) unit :=
  kmodify (with_curproc
             (fun p => set_p_files (<[Z.to_nat fd := f]> (p_files p)) p)).

Definition store_f_mode (a : nat) (m : Z) : kern (kstate V) unit :=
  kmodify (with_files (alter (set_f_mode m) a)).

Definition store_f_vnode (a : nat) (v : option nat) : kern (kstate V) unit :=
  kmodify (with_files (alter (set_f_vnode v) a)).

(** The second half of [do_open], from the call of [open_namev] on. *)
Definition do_open_resolve (filename : string) (oflags : Z) (new_fd : Z)
  (f : nat) : kern (kstate V) Z :=
  r <- klift (fun k =>
         let '(status, result, v') := open_namev filename oflags (vfs k) in
         ((status, result), with_vfs (fun _ => v') k));;
  let '(status, result) := r in
  if truthy status then
    _ <- do_close new_fd;;
    store_p_files new_fd None;;;
    kret status
  else
    match result with
    | None => kpanic "KASSERT(result)"
    | Some vn =>
        mode <- kget (fun k => vn_mode vn (vfs k));;
        fmode <- kget (file_mode f);;
        if S_ISDIR mode && has_flag fmode FMODE_WRITE then
          _ <- do_close new_fd;;
          kmodify (with_vfs (vput vn));;;
          kret (- EISDIR)
        else
          store_f_vnode f (Some vn);;;
          kret new_fd
    end.

(** The [if]/[else if] chain on [oflags & 3]: the mode to store, or
    nothing when the flags are invalid. *)
Definition open_mode (oflags : Z) : option Z :=
  if Z.land oflags 3 =? O_RDONLY then Some FMODE_READ
  else if Z.land oflags 3 =? O_WRONLY then Some FMODE_WRITE
  else if Z.land oflags 3 =? O_RDWR then Some (Z.lor FMODE_WRITE FMODE_READ)
  else None.

Definition do_open (filename : string) (oflags : Z) : kern (kstate V) Z :=
  new_fd <- kget (fun k => get_empty_fd (curproc k));;
  if new_fd =? - EMFILE then kret (- EMFILE)
  else
    fo <- fget (-1);;
    match fo with
    | None => kret (- ENOMEM)
    | Some f =>
        store_p_files new_fd (Some f);;;
        match open_mode oflags with
        | Some m =>
            store_f_mode f m;;;
            (if has_flag oflags O_APPEND
             then fm <- kget (file_mode f);;
                  store_f_mode f (Z.lor fm FMODE_APPEND)
             else kret tt);;;
            do_open_resolve filename oflags new_fd f
        | None =>
            _ <- do_close new_fd;;
            kret (- EINVAL)
        end
    end.

End file_table.

(** ** The address space: [vm/vmmap.c] (absent) and the C text of [boot.S] *)

(** [PAGE_ALIGNED(x)] of [mm/page.h]: no bits below the page size. *)
Definition PAGE_ALIGNED `{Mman} (x : Z) : bool := x mod PAGE_SIZE =? 0.

(** [ADDR_TO_PN(x)] of [mm/page.h]. *)
Definition ADDR_TO_PN `{Mman} (x : Z) : Z := x / PAGE_SIZE.

(** The cast [(uint32_t)x]. *)
Definition uint32 (x : Z) : Z := x mod 2 ^ 32.

(** [vmmap_map] of [vm/vmmap.c], which is not among the sources: its
    status, what it stored through its last argument ([None] when it stored
    nothing there, [Some None] for a null pointer, [Some (Some a)] for a
    pointer to the area [a]) and the state it leaves. *)
Class Vmmap (V : Type) := {
  vmmap_map :
    option nat -> Z -> Z -> Z -> Z -> Z -> Z ->
    kstate V -> Z * option (option vmarea_t) * kstate V
}.

Section vmmap.
Context {V : Type}.

Definition mmobj_ref (o : option nat) (objs : gmap nat mmobj_t)
  : gmap nat mmobj_t :=
  match o with
  | Some a => alter (fun m => set_mmo_refcount (mmo_refcount m + 1) m) a objs
  | None => objs
  end.

Definition mmobj_put (o : option nat) (objs : gmap nat mmobj_t)
  : gmap nat mmobj_t :=
  match o with
  | Some a => alter (fun m => set_mmo_refcount (mmo_refcount m - 1) m) a objs
  | None => objs
  end.

(** Modelled from the spec: [vmmap_remove] of [vm/vmmap.c], which is not
    among the sources.  "For every overlapping area, split, truncate, or
    delete as needed so the exact range becomes unmapped; unref the affected
    memory objects".  The range is [lo, hi) in pages; an area that is cut in
    two is cited twice afterwards, a deleted one no more. *)
Fixpoint vmmap_remove_areas (lo hi : Z) (m : list vmarea_t)
  (objs : gmap nat mmobj_t) : list vmarea_t * gmap nat mmobj_t :=
  match m with
  | [] => ([], objs)
  | a :: m' =>
      if (vma_start a <? lo) && (hi <? vma_end a) then
        let low := mk_vmarea (vma_start a) lo (vma_off a) (vma_prot a)
                     (vma_flags a) (vma_obj a) in
        let high := mk_vmarea hi (vma_end a) (vma_off a + (hi - vma_start a))
                      (vma_prot a) (vma_flags a) (vma_obj a) in
        let '(r, objs') :=
          vmmap_remove_areas lo hi m' (mmobj_ref (vma_obj a) objs) in
        (low :: high :: r, objs')
      else if (vma_start a <? lo) && (lo <? vma_end a) then
        let low := mk_vmarea (vma_start a) lo (vma_off a) (vma_prot a)
                     (vma_flags a) (vma_obj a) in
        let '(r, objs') := vmmap_remove_areas lo hi m' objs in
        (low :: r, objs')
      else if (lo <=? vma_start a) && (vma_start a <? hi)
              && (hi <? vma_end a) then
        let high := mk_vmarea hi (vma_end a) (vma_off a + (hi - vma_start a))
                      (vma_prot a) (vma_flags a) (vma_obj a) in
        let '(r, objs') := vmmap_remove_areas lo hi m' objs in
        (high :: r, objs')
      else if (lo <=? vma_start a) && (vma_end a <=? hi) then
        vmmap_remove_areas lo hi m' (mmobj_put (vma_obj a) objs)
      else
        let '(r, objs') := vmmap_remove_areas lo hi m' objs in
        (a :: r, objs')
  end.

(** Modelled from the spec: [vmmap_remove(curproc->p_vmmap, lopage,
    npages)] of [vm/vmmap.c], on the address space of the current process;
    the design document gives it no failure of its own, its status is 0. *)
Definition vmmap_remove (lopage npages : Z) : kern (kstate V) Z :=
  fun k =>
    let '(m, objs) :=
      vmmap_remove_areas lopage (lopage + npages) (p_vmmap (curproc k))
        (mmobjs k) in
    Ret 0 (with_mmobjs (fun _ => objs) (with_curproc (set_p_vmmap m) k)).

(** Modelled from the spec: [vmmap_lookup], "find area containing page N". *)
Definition vmmap_lookup (m : list vmarea_t) (pn : Z) : option vmarea_t :=
  List.find (fun a => (vma_start a <=? pn) && (pn <? vma_end a)) m.

Definition tlb_flush_range (vaddr npages : Z) : kern (kstate V) unit :=
  kmodify (with_mmu_log (fun l => l ++ [ev_tlb_flush_range vaddr npages])).

End vmmap.

(** Modelled from the spec: the user range in pages,
    "[USER_LOW_PAGE, USER_HIGH_PAGE)". *)
Definition USER_LOW_PAGE `{Mman} : Z := ADDR_TO_PN USER_MEM_LOW.
Definition USER_HIGH_PAGE `{Mman} : Z := ADDR_TO_PN USER_MEM_HIGH.

Section vmmap_map.
Context {V : Type} `{!Errno, !Mman}.

(** Modelled from the spec: a hole, no area of [m] has a page in
    [lo, hi). *)
Definition vmmap_is_range_empty (m : list vmarea_t) (lo hi : Z) : bool :=
  forallb (fun a => (vma_end a <=? lo) || (hi <=? vma_start a)) m.

(** Modelled from the spec: [vmmap_find_range], "search for a hole of
    [npages] in the given direction": the highest hole of the user range
    for [VMMAP_DIR_HILO], the lowest for the other direction.  The highest
    hole ends at the top of the range or at the start of an area, the
    lowest starts at the bottom or at the end of an area. *)
Definition vmmap_find_range (m : list vmarea_t) (npages dir : Z)
  : option Z :=
  let hilo := dir =? VMMAP_DIR_HILO in
  let candidates :=
    if hilo
    then (USER_HIGH_PAGE - npages) :: map (fun a => vma_start a - npages) m
    else USER_LOW_PAGE :: map vma_end m in
  let holes :=
    List.filter
      (fun c => (USER_LOW_PAGE <=? c) && (c + npages <=? USER_HIGH_PAGE)
                && vmmap_is_range_empty m c (c + npages))
      candidates in
  match holes with
  | [] => None
  | c :: rest => Some (foldr (if hilo then Z.max else Z.min) c rest)
  end.

(** Modelled from the spec: "insert the area, maintaining ordering". *)
Fixpoint vmmap_insert (a : vmarea_t) (m : list vmarea_t) : list vmarea_t :=
  match m with
  | [] => [a]
  | b :: m' =>
      if vma_start a <? vma_start b then a :: b :: m'
      else b :: vmmap_insert a m'
  end.

(** Modelled from the spec: [o] is "the vnode's mmobj". *)
Definition is_mmo_vnode (vn : nat) (o : mmobj_t) : bool :=
  match mmo_kind o with
  | mmo_vnode v => Nat.eqb v vn
  | _ => false
  end.

(** Modelled from the spec: "construct the memory object: for [MAP_ANON] a
    fresh anonymous object; for a vnode, obtain the vnode's mmobj and ref
    it.  For [MAP_PRIVATE] interpose a shadow object; for [MAP_SHARED] use
    the object directly."  The result is the object of the area. *)
Definition vmmap_map_object (vn : option nat) (flags : Z)
  (objs : gmap nat mmobj_t) : nat * gmap nat mmobj_t :=
  let '(obj, objs1) :=
    match (if has_flag flags MAP_ANON then None else vn) with
    | Some v =>
        match List.find (fun e => is_mmo_vnode v e.2) (map_to_list objs) with
        | Some e => (e.1, mmobj_ref (Some e.1) objs)
        | None =>
            let a := fresh (dom objs) in
            (a, <[a := mk_mmobj (mmo_vnode v) 1 None]> objs)
        end
    | None =>
        let a := fresh (dom objs) in
        (a, <[a := mk_mmobj mmo_anon 1 None]> objs)
    end in
  if has_flag flags MAP_PRIVATE then
    let s := fresh (dom objs1) in
    (s, <[s := mk_mmobj mmo_shadow 1 (Some obj)]> objs1)
  else (obj, objs1).

(** Modelled from the spec: [vmmap_map] on the address space of the current
    process.  "If [pageno_hint] is nonzero, map at exactly that page range;
    fail with EINVAL if it is outside [USER_LOW_PAGE, USER_HIGH_PAGE), and
    otherwise evict any overlapping areas.  Otherwise search for a hole of
    [npages] in the given direction; return ENOMEM on exhaustion."  Then
    the memory object is made and the area inserted and stored through the
    last argument; a call that fails stores nothing there. *)
Definition model_vmmap_map (vn : option nat)
  (lopage npages prot flags off dir : Z) (k : kstate V)
  : Z * option (option vmarea_t) * kstate V :=
  let m := p_vmmap (curproc k) in
  let place :=
    if negb (lopage =? 0) then
      if (lopage <? USER_LOW_PAGE) || (USER_HIGH_PAGE <? lopage + npages)
      then inl (- EINVAL)
      else inr (lopage, vmmap_remove_areas lopage (lopage + npages) m
                          (mmobjs k))
    else
      match vmmap_find_range m npages dir with
      | Some start => inr (start, (m, mmobjs k))
      | None => inl (- ENOMEM)
      end in
  match place with
  | inl status => (status, None, k)
  | inr (start, (m1, objs1)) =>
      let '(obj, objs2) := vmmap_map_object vn flags objs1 in
      let a := mk_vmarea start (start + npages) off prot flags (Some obj) in
      (0, Some (Some a),
       with_mmobjs (fun _ => objs2)
         (with_curproc (set_p_vmmap (vmmap_insert a m1)) k))
  end.

End vmmap_map.

Section mmap.
Context {V : Type} `{!Vnode V, !Vmmap V, !Errno, !FileH, !Mman}.

Local Open Scope kern_scope.

(** The three argument checks that open [do_mmap]. *)
Definition mmap_misaligned (addr len off : Z) : bool :=
  negb (PAGE_ALIGNED addr) || negb (PAGE_ALIGNED len)
  || negb (PAGE_ALIGNED off) || negb (truthy len).

Definition mmap_addr_outside (addr : Z) : bool :=
  truthy addr && ((addr <? USER_MEM_LOW) || (USER_MEM_HIGH <=? addr)).

Definition mmap_bad_sharing (flags : Z) : bool :=
  (has_flag flags MAP_PRIVATE && has_flag flags MAP_SHARED)
  || (negb (has_flag flags MAP_PRIVATE) && negb (has_flag flags MAP_SHARED)).

(** The permission test on the file of a mapping that is not anonymous. *)
Definition mmap_file_denied (fmode prot flags : Z) : bool :=
  negb (has_flag fmode FMODE_READ)
  || (has_flag flags MAP_SHARED && has_flag prot PROT_WRITE
      && negb (has_flag fmode FMODE_WRITE))
  || (has_flag prot PROT_WRITE && (fmode =? FMODE_APPEND)).

(** [do_mmap] from the call of [vmmap_map] on.  The local [new_area] is
    declared without a value: [junk] is what it holds before the call (a
    null pointer, or a pointer, read as an area), and what it still holds
    when [vmmap_map] stores nothing through it.  The value stored through
    [ret] comes second in the result. *)
Definition do_mmap_map (junk : option vmarea_t) (addr len prot flags off : Z)
  (file : option nat) : kern (kstate V) (Z * option Z) :=
  vn <- kget (fun k =>
          match file with
          | Some a => match files k !! a with
                      | Some fl => f_vnode fl
                      | None => None
                      end
          | None => None
          end);;
  r <- klift (fun k =>
         let '(status, stored, k') :=
           vmmap_map vn (ADDR_TO_PN addr) (len / PAGE_SIZE) prot flags off
             VMMAP_DIR_HILO k in
         ((status, stored), k'));;
  let '(status, stored) := r in
  let new_area := default junk stored in
  (match new_area with
   | Some a => tlb_flush_range (vma_start a) (len / PAGE_SIZE)
   | None => kret tt
   end);;;
  if truthy status then kret (status, None)
  else
    match new_area with
    | Some a => kret (status, Some (vma_start a))
    | None => kpanic "new_area->vma_start: NULL"
    end.

Definition do_mmap (junk : option vmarea_t) (addr len prot flags fd off : Z)
  : kern (kstate V) (Z * option Z) :=
  if mmap_misaligned addr len off then kret (- EINVAL, None)
  else if mmap_addr_outside addr then kret (- EINVAL, None)
  else if mmap_bad_sharing flags then kret (- EINVAL, None)
  else if has_flag flags MAP_ANON then
    do_mmap_map junk addr len prot flags off None
  else
    fo <- fget fd;;
    match fo with
    | None => kret (- EBADF, None)
    | Some f =>
        fmode <- kget (file_mode f);;
        if mmap_file_denied fmode prot flags then
          kmodify (fput f);;;
          kret (- EACCES, None)
        else do_mmap_map junk addr len prot flags off (Some f)
    end.

Definition do_munmap (addr len : Z) : kern (kstate V) Z :=
  if negb (PAGE_ALIGNED addr) || negb (PAGE_ALIGNED len) || negb (truthy len)
  then kret (- EINVAL)
  else if (addr <? USER_MEM_LOW) || (USER_MEM_HIGH <=? addr)
  then kret (- EINVAL)
  else
    status <- vmmap_remove (uint32 addr) (len / PAGE_SIZE);;
    tlb_flush_range (uint32 addr) (len / PAGE_SIZE);;;
    kret status.

End mmap.

(** ** [proc/fork.c] *)

Section fork.
Context {V : Type} `{!Vnode V, !Errno, !FileH, !Mman, !KthreadH}.

Local Open Scope kern_scope.

(** Modelled from the spec: the pid [proc_create] gives out is "fresh": here
    the one after the largest in use. *)
Definition fresh_pid (k : kstate V) : Z :=
  1 + foldr Z.max (p_pid (curproc k)) (elements (dom (procs k))).

(** Modelled from the spec: [pt_create_pagedir] of [mm/pagetable.c], which
    is not among the sources: "new page directory". *)
Definition pt_create_pagedir : kern (kstate V) (option nat) :=
  fun k => Ret (Some (next_pagedir k)) (with_next_pagedir S k).

(** Modelled from the spec: [proc_create] of [proc/proc.c], which is not
    among the sources.  "Create a new process (fresh pid, empty thread list,
    new page directory)"; the new process is entered in the process table
    and its pid (the pointer [new_proc] of the code) returned. *)
Definition proc_create (name : string) : kern (kstate V) (option Z) :=
  pd <- pt_create_pagedir;;
  match pd with
  | None => kret None
  | Some d =>
      pid <- kget fresh_pid;;
      kmodify (with_procs
                 (insert pid
                    (mk_proc pid name [] 0 0 d 0 0 None
                       (replicate NFILES None) [])));;;
      kret (Some pid)
  end.

(** Modelled from the spec: [vmmap_clone] of [vm/vmmap.c], which is not
    among the sources.  "Deep copy of the vma list; for each vma its
    [vma_obj] is retained by incrementing the referenced object's
    ref-count." *)
Definition vmmap_clone (m : list vmarea_t) : kern (kstate V) (list vmarea_t) :=
  fun k =>
    Ret m
      (with_mmobjs
         (fun objs => foldl (fun o a => mmobj_ref (vma_obj a) o) objs m) k).

(** Modelled from the spec: [shadow_create] of [vm/shadow.c], which is not
    among the sources: "a fresh shadow object", one reference, nothing
    below it yet. *)
Definition shadow_create : kern (kstate V) nat :=
  fun k =>
    let a := fresh (dom (mmobjs k)) in
    Ret a (with_mmobjs (insert a (mk_mmobj mmo_shadow 1 None)) k).

(** Modelled from the spec: [kthread_clone] of [proc/kthread.c], which is
    not among the sources.  "Clone the current thread: allocate a kernel
    stack"; the context is copied.  [NULL] when there is no such thread. *)
Definition kthread_clone (t : nat) : kern (kstate V) (option nat) :=
  fun k =>
    match threads k !! t with
    | None => Ret None k
    | Some th =>
        let t' := fresh (dom (threads k)) in
        let th' := mk_kthread (kt_ctx th) (next_kstack k) (kt_proc th) ∅ in
        Ret (Some t')
          (with_next_kstack (fun a => a + DEFAULT_STACK_SIZE)
             (with_threads (insert t' th') k))
    end.

(** The fields of the new process, which lives in the process table. *)
Definition new_proc_update (pid : Z) (f : proc_t -> proc_t)
  : kern (kstate V) unit :=
  kmodify (with_procs (alter f pid)).

Definition new_proc_vmmap (pid : Z) (k : kstate V) : list vmarea_t :=
  match procs k !! pid with Some p => p_vmmap p | None => [] end.

Definition new_thr_update (t : nat) (f : kthread_t -> kthread_t)
  : kern (kstate V) unit :=
  kmodify (with_threads (alter f t)).

(** [fork_setup_stack]: the new stack pointer and what is written on the
    stack, in [uint32_t] arithmetic. *)
Definition fork_setup_stack (regs : regs_t) (kstack : Z)
  (mem : gmap Z stack_cell) : Z * gmap Z stack_cell :=
  let esp :=
    uint32 (uint32 (uint32 kstack + DEFAULT_STACK_SIZE)
            - uint32 (sizeof_regs_t + 12)) in
  let mem1 := <[uint32 (esp + 4) := cell_word (uint32 (esp + 8))]> mem in
  let mem2 := <[uint32 (esp + 8) := cell_regs regs]> mem1 in
  (esp, mem2).

(** *** The list of areas of a [vmmap]

    [vmm_list] is a circular doubly linked list with the list head as
    sentinel.  A link of a map with [n] areas is a position on the ring
    [0 .. n]: 0 is the head [&vmm_list], [i + 1] the [vma_plink] of the
    [i]-th area. *)
Definition l_next (n : nat) (link : nat) : nat :=
  if (link <? n)%nat then S link else O.

Definition l_prev (n : nat) (link : nat) : nat :=
  match link with
  | O => n
  | S j => j
  end.

(** [list_item(link, vmarea_t, vma_plink)]: the index of the area whose
    link this is; the head is the link of no area. *)
Definition list_item (link : nat) : option nat :=
  match link with
  | O => None
  | S j => Some j
  end.

(** The body of the loop of [do_fork] for the parent area [i] and the child
    area [j]. *)
Definition fork_shadow_body (child : Z) (i j : nat) : kern (kstate V) unit :=
  vma <- kget (fun k => p_vmmap (curproc k) !! i);;
  vma2 <- kget (fun k => new_proc_vmmap child k !! j);;
  match vma, vma2 with
  | Some a, Some _ =>
      if has_flag (vma_flags a) MAP_PRIVATE then
        shadow <- shadow_create;;
        shadow2 <- shadow_create;;
        kmodify (with_mmobjs (alter (set_mmo_shadowed (vma_obj a)) shadow));;;
        kmodify (with_mmobjs (alter (set_mmo_shadowed (vma_obj a)) shadow2));;;
        kmodify (with_curproc
                   (fun p => set_p_vmmap
                               (alter (set_vma_obj (Some shadow)) i (p_vmmap p))
                               p));;;
        new_proc_update child
          (fun p => set_p_vmmap
                      (alter (set_vma_obj (Some shadow2)) j (p_vmmap p)) p)
      else kret tt
  | _, _ => kpanic "vmarea out of the list"
  end.

(** The [for] loop of [do_fork]: the guard, the body, the step.  The
    lengths of both lists do not change in the loop. *)
Fixpoint fork_shadow_loop (fuel : nat) (child : Z) (link link2 : nat)
  : kern (kstate V) unit :=
  fun k =>
    let n := length (p_vmmap (curproc k)) in
    let n2 := length (new_proc_vmmap child k) in
    if negb (link =? l_next n O)%nat && negb (link2 =? l_next n2 O)%nat then
      match fuel with
      | O => Timeout
      | S fuel' =>
          match list_item link, list_item link2 with
          | Some i, Some j =>
              (fork_shadow_body child i j;;;
               fork_shadow_loop fuel' child (l_next n link) (l_next n2 link2)) k
          | _, _ => Panic "list_item of the list head"
          end
      end
    else Ret tt k.

Definition fork_shadow_objects (fuel : nat) (child : Z)
  : kern (kstate V) unit :=
  fun k =>
    let n := length (p_vmmap (curproc k)) in
    let n2 := length (new_proc_vmmap child k) in
    fork_shadow_loop fuel child (l_next n O) (l_prev n2 O) k.

(** [for (int i = 0; i < NFILES; ++i) fref(new_proc->p_files[i]);] *)
Definition fork_fref_files (tbl : list (option nat)) (k : kstate V)
  : kstate V :=
  foldl (fun k f => fref f k) k (take NFILES tbl).

(** [do_fork]; [fuel] bounds the loop over the areas.  The [memcpy] of the
    descriptor table is the copy of its [NFILES] slots.  It asks for
    [sizeof(file_t) * NFILES] bytes, though, more than the table has: the
    bytes it writes behind the slots, into the fields that follow the
    table in [proc_t] ([proc/proc.h] is not among the sources) and past
    the structure, are not modelled. *)
Definition do_fork (fuel : nat) (regs : regs_t) : kern (kstate V) Z :=
  np <- proc_create "";;
  match np with
  | None => kpanic "KASSERT(new_proc)"
  | Some new_proc =>
      cur <- kget curproc;;
      m <- vmmap_clone (p_vmmap cur);;
      pd <- pt_create_pagedir;;
      match pd with
      | None => kpanic "KASSERT(new_proc->p_pagedir)"
      | Some d =>
          new_proc_update new_proc
            (fun p => mk_proc (p_pid p) (p_comm cur) (p_threads p)
                        (p_status cur) (p_state cur) d (p_brk cur)
                        (p_start_brk cur) (p_cwd cur) (p_files cur) m);;;
          kmodify (fork_fref_files (p_files cur));;;
          (match p_cwd cur with
           | Some v => kmodify (with_vfs (vref v))
           | None => kpanic "vref(NULL)"
           end);;;
          fork_shadow_objects fuel new_proc;;;
          kmodify (with_mmu_log
                     (fun l => l ++ [ev_pt_unmap_range (p_pagedir cur)
                                       USER_MEM_LOW USER_MEM_HIGH;
                                     ev_tlb_flush_all]));;;
          ct <- kget curthr;;
          nt <- kthread_clone ct;;
          match nt with
          | None => kpanic "KASSERT(new_thr)"
          | Some new_thr =>
              new_proc_update new_proc
                (fun p => mk_proc (p_pid p) (p_comm p)
                            (p_threads p ++ [new_thr]) (p_status p)
                            (p_state p) (p_pagedir p) (p_brk p)
                            (p_start_brk p) (p_cwd p) (p_files p)
                            (p_vmmap p));;;
              new_thr_update new_thr
                (fun t =>
                   let '(esp, mem) :=
                     fork_setup_stack regs (kt_kstack t) (kt_stackmem t) in
                   mk_kthread
                     (mk_context userland_entry esp d
                        (uint32 (kt_kstack t + DEFAULT_STACK_SIZE))
                        DEFAULT_STACK_SIZE)
                     (kt_kstack t) new_proc mem);;;
              kmodify (with_runq (fun q => q ++ [new_thr]));;;
              kret 0
          end
      end
  end.

(** What the first return to user mode of thread [t] loads into [eax], the
    register a system call returns its value in: [userland_entry] is entered
    with the stack of [fork_setup_stack], whose argument points at the
    [regs_t] copied there. *)
Definition first_user_eax (t : kthread_t) : option Z :=
  match kt_stackmem t !! uint32 (c_esp (kt_ctx t) + 4) with
  | Some (cell_word argp) =>
      match kt_stackmem t !! argp with
      | Some (cell_regs r) => Some (r_eax r)
      | _ => None
      end
  | _ => None
  end.

End fork.

(** ** [fs/s5fs/s5fs.c] *)

(** [fs/s5fs/s5fs.h], [fs/s5fs/s5fs_subr.h], [fs/dirent.h] *)
Class S5fsH `{Mman} := {
  S5_NAME_LEN : Z;
  S5_BLOCK_SIZE : Z;
  S5_NDIRECT_BLOCKS : Z;
  S5_NIDIRECT_BLOCKS : Z;
  S5_TYPE_FREE : Z; S5_TYPE_DATA : Z; S5_TYPE_DIR : Z;
  S5_TYPE_CHR : Z; S5_TYPE_BLK : Z;
  sizeof_dirent_t : Z;
  s5_block_is_page : S5_BLOCK_SIZE = PAGE_SIZE;
  sizeof_dirent_positive : 0 < sizeof_dirent_t
}.

#[export] Instance weenix_s5fs_h : S5fsH.
Proof.
  refine {|
    S5_NAME_LEN := 28;
    S5_BLOCK_SIZE := 4096;
    S5_NDIRECT_BLOCKS := 28;
    S5_NIDIRECT_BLOCKS := 1024;
    S5_TYPE_FREE := 0x0; S5_TYPE_DATA := 0x1; S5_TYPE_DIR := 0x2;
    S5_TYPE_CHR := 0x4; S5_TYPE_BLK := 0x8;
    sizeof_dirent_t := 32
  |}.
  - reflexivity.
  - lia.
Defined.

(** A directory entry as [s5fs_readdir] hands it to its caller. *)
Record dirent_t := mk_dirent {
  d_ino : Z;
  d_off : Z;
  d_name : string
}.

(** [proc/kmutex.h]: [kmutex_lock] gives no state when the caller sleeps on
    the mutex for ever. *)
Class Kmutex (V : Type) := {
  kmutex_lock : nat -> V -> option V;
  kmutex_unlock : nat -> V -> V
}.

(** [fs/s5fs/s5fs_subr.h]: the subroutines of [s5fs_subr.c], which is not
    among the sources, over the state [V] of the file system.  A vnode is
    named by its pointer ([nat]).  [s5_read_file] is used on directories
    with a [dirent_t] as buffer: it takes the buffer as it is and gives back
    the buffer as it leaves it. *)
Class S5Subr (V : Type) := {
  s5_seek_to_block : nat -> Z -> Z -> V -> Z * V;
  s5_read_file : nat -> Z -> dirent_t -> Z -> V -> Z * dirent_t * V;
  s5_alloc_inode : Z -> Z -> V -> Z * V;
  s5_link : nat -> nat -> string -> Z -> V -> Z * V;
  s5_find_dirent : nat -> string -> Z -> V -> Z * V;
  s5_remove_dirent : nat -> string -> Z -> V -> Z * V
}.

(** [drivers/blockdev.h]: [vnode->vn_bdev->bd_ops->read_block] and
    [write_block] for the device of a vnode; the buffer goes in and comes
    out. *)
Class Blockdev (V : Type) := {
  read_block : nat -> list byte -> Z -> Z -> V -> Z * list byte * V;
  write_block : nat -> list byte -> Z -> Z -> V -> Z * V
}.

(** [memset(buf, c, n)] on a buffer: its first [n] bytes become [c]. *)
Definition memset (buf : list byte) (c : byte) (n : Z) : list byte :=
  replicate (Nat.min (Z.to_nat n) (length buf)) c ++ drop (Z.to_nat n) buf.

(** [name_match(fname, name, namelen)] of [s5fs.h]:
    [strlen(fname) == namelen && !strncmp(fname, name, namelen)]. *)
Definition name_match (fname name : string) (namelen : Z) : bool :=
  (Z.of_nat (String.length fname) =? namelen)
  && String.eqb fname (String.substring 0 (Z.to_nat namelen) name).

Section s5fs.
Context {V : Type}.
Context `{!Vnode V, !Kmutex V, !S5Subr V, !Blockdev V}.
Context `{!Errno, !StatH, !Mman, !S5fsH}.

Local Open Scope kern_scope.

Definition lock (vn : nat) : kern V unit :=
  fun s =>
    match kmutex_lock vn s with
    | Some s' => Ret tt s'
    | None => Timeout
    end.

Definition unlock (vn : nat) : kern V unit := kmodify (kmutex_unlock vn).

(** The vnode stored through [result] comes second in the result. *)
Definition s5fs_create (dir : nat) (name : string) (namelen : Z)
  : kern V (Z * option nat) :=
  if S5_NAME_LEN <? namelen then kret (- ENAMETOOLONG, None)
  else
    lock dir;;;
    devid <- kget (vn_devid dir);;
    ino <- klift (s5_alloc_inode S5_TYPE_DATA devid);;
    if ino <? 0 then
      unlock dir;;;
      kret (ino, None)
    else
      vnode <- klift (vget ino);;
      status <- klift (s5_link dir vnode name namelen);;
      unlock dir;;;
      rc <- kget (vn_refcount vnode);;
      KASSERT (rc =? 1) "vnode->vn_refcount == 1";;;
      kret (status, Some vnode).

Definition s5fs_mknod (dir : nat) (name : string) (namelen : Z) (mode : Z)
  (devid : Z) : kern V Z :=
  if S5_NAME_LEN <? namelen then kret (- ENAMETOOLONG)
  else
    lock dir;;;
    type <- (if S_ISCHR mode then kret S5_TYPE_CHR
             else if S_ISBLK mode then kret S5_TYPE_BLK
             else kpanic "Invalid mode!");;
    ino <- klift (s5_alloc_inode type devid);;
    if ino <? 0 then
      unlock dir;;;
      kret ino
    else
      vnode <- klift (vget ino);;
      status <- klift (s5_link dir vnode name namelen);;
      unlock dir;;;
      kret status.

Definition s5fs_lookup (base : nat) (name : string) (namelen : Z)
  : kern V (Z * option nat) :=
  if S5_NAME_LEN <? namelen then kret (- ENAMETOOLONG, None)
  else
    lock base;;;
    ino <- klift (s5_find_dirent base name namelen);;
    if ino <? 0 then
      unlock base;;;
      kret (ino, None)
    else
      vnode <- klift (vget ino);;
      unlock base;;;
      kret (0, Some vnode).

Definition s5fs_link (src dir : nat) (name : string) (namelen : Z)
  : kern V Z :=
  if S5_NAME_LEN <? namelen then kret (- ENAMETOOLONG)
  else
    lock src;;;
    lock dir;;;
    status <- klift (s5_link dir src name namelen);;
    unlock src;;;
    unlock dir;;;
    kret status.

Definition s5fs_unlink (dir : nat) (name : string) (namelen : Z) : kern V Z :=
  if S5_NAME_LEN <? namelen then kret (- ENAMETOOLONG)
  else
    lock dir;;;
    status <- klift (s5_remove_dirent dir name namelen);;
    unlock dir;;;
    kret status.

Definition s5fs_mkdir (dir : nat) (name : string) (namelen : Z) : kern V Z :=
  if S5_NAME_LEN <? namelen then kret (- ENAMETOOLONG)
  else
    lock dir;;;
    devid <- kget (vn_devid dir);;
    ino <- klift (s5_alloc_inode S5_TYPE_DIR devid);;
    if ino <? 0 then
      unlock dir;;;
      kret ino
    else
      new_dir <- klift (vget ino);;
      status <- klift (s5_link dir new_dir name namelen);;
      if truthy status then
        kmodify (vput new_dir);;;
        unlock dir;;;
        kret status
      else
        status <- klift (s5_link new_dir new_dir "." 1);;
        if truthy status then
          unlock dir;;;
          kret status
        else
          status <- klift (s5_link new_dir dir ".." 2);;
          if truthy status then
            unlock dir;;;
            kret status
          else
            unlock dir;;;
            rc <- kget (vn_refcount new_dir);;
            KASSERT (rc =? 2) "new_dir->vn_refcount == 2";;;
            kret status.

(** The status and the buffer [d] as the call leaves it. *)
Definition s5fs_readdir (vnode : nat) (offset : Z) (d : dirent_t)
  : kern V (Z * dirent_t) :=
  lock vnode;;;
  r <- klift (fun s =>
         let '(status, d', s') :=
           s5_read_file vnode offset d sizeof_dirent_t s in
         ((status, d'), s'));;
  unlock vnode;;;
  kret r.

(** The emptiness loop of [s5fs_rmdir], entered with [offset] and [entry]
    as the first [s5fs_readdir] left them.  [Some r]: the function returns
    [r] from inside the loop; [None]: the loop is left. *)
Fixpoint s5fs_rmdir_scan (fuel : nat) (parent vn : nat) (offset : Z)
  (entry : dirent_t) : kern V (option Z) :=
  if truthy offset then
    match fuel with
    | O => fun _ => Timeout
    | S fuel' =>
        if String.eqb (d_name entry) "." || String.eqb (d_name entry) ".."
        then
          r <- s5fs_readdir vn offset entry;;
          s5fs_rmdir_scan fuel' parent vn offset (snd r)
        else if negb (String.eqb (d_name entry) "") then
          kmodify (vput vn);;;
          unlock parent;;;
          kret (Some (- ENOTEMPTY))
        else
          r <- s5fs_readdir vn offset entry;;
          s5fs_rmdir_scan fuel' parent vn offset (snd r)
    end
  else kret None.

(** [junk] is what the uninitialised [entry] holds on entry. *)
Definition s5fs_rmdir (fuel : nat) (junk : dirent_t) (parent : nat)
  (name : string) (namelen : Z) : kern V Z :=
  if S5_NAME_LEN <? namelen then kret (- ENAMETOOLONG)
  else
    KASSERT (negb (name_match "." name namelen)
             && negb (name_match ".." name namelen))
      "!name_match(., name, namelen) && !name_match(.., name, namelen)";;;
    lock parent;;;
    ino <- klift (s5_find_dirent parent name namelen);;
    if ino <? 0 then
      unlock parent;;;
      kret ino
    else
      vn <- klift (vget ino);;
      pmode <- kget (vn_mode parent);;
      if negb (S_ISDIR pmode) then
        kmodify (vput vn);;;
        unlock parent;;;
        kret (- ENOTDIR)
      else
        r <- s5fs_readdir vn 0 junk;;
        found <- s5fs_rmdir_scan fuel parent vn (fst r) (snd r);;
        match found with
        | Some ret => kret ret
        | None =>
            status <- klift (s5_remove_dirent vn ".." 2);;
            if truthy status then
              unlock parent;;;
              kret status
            else
              status <- klift (s5_remove_dirent parent name namelen);;
              unlock parent;;;
              kret status
        end.

(** [pagebuf] is the address of the page buffer, [page] what it holds; the
    result is the status and the buffer as the call leaves it. *)
Definition s5fs_fillpage (vnode : nat) (offset : Z) (pagebuf : Z)
  (page : list byte) : kern V (Z * list byte) :=
  KASSERT (PAGE_ALIGNED pagebuf) "PAGE_ALIGNED(pagebuf)";;;
  lock vnode;;;
  block_no <- klift (s5_seek_to_block vnode offset 0);;
  if block_no <? 0 then
    unlock vnode;;;
    kret (block_no, page)
  else
    r <- (if truthy block_no then
            klift (fun s =>
                     let '(status, buf, s') :=
                       read_block vnode page block_no 1 s in
                     ((status, buf), s'))
          else kret (0, memset page x00 S5_BLOCK_SIZE));;
    unlock vnode;;;
    kret r.

Definition s5fs_dirtypage (vnode : nat) (offset : Z) : kern V Z :=
  lock vnode;;;
  status <- klift (s5_seek_to_block vnode offset 0);;
  if status <=? 0 then
    unlock vnode;;;
    kret status
  else
    status <- klift (s5_seek_to_block vnode offset 1);;
    unlock vnode;;;
    kret status.

Definition s5fs_cleanpage (vnode : nat) (offset : Z) (pagebuf : Z)
  (page : list byte) : kern V Z :=
  KASSERT (PAGE_ALIGNED pagebuf) "PAGE_ALIGNED(pagebuf)";;;
  lock vnode;;;
  block_no <- klift (s5_seek_to_block vnode offset 1);;
  if block_no <=? 0 then
    unlock vnode;;;
    kret block_no
  else
    status <- klift (write_block vnode page block_no 1);;
    unlock vnode;;;
    kret status.

End s5fs.

(** ** A model of the absent S5FS subroutines

    [s5fs_subr.c], [fs/vnode.c] and [proc/kmutex.c] are not among the
    sources, and [s5fs_read_vnode], [s5fs_delete_vnode] and
    [s5fs_query_vnode] are stubs in [s5fs.c].  The model below follows the
    design document: inodes with direct and indirect block pointers, a free
    list of blocks and of inodes, directories as sequences of fixed-size
    entries, one live vnode per inode, a mutex per vnode. *)

Record s5_inode_t := mk_inode {
  s5_type : Z;
  s5_size : Z;
  s5_linkcount : Z;
  s5_direct_blocks : list Z;
  s5_indirect_block : Z
}.

Inductive lock_event := ev_lock (vn : nat) | ev_unlock (vn : nat).

(** The file system with its in-core side: the inodes by number, the
    entries of each directory, the block numbers held by each indirect
    block, the free lists of the superblock, the data blocks of the device,
    the live vnodes with their reference counts (the vnode of inode [i] is
    at address [i]), the mutexes that are held, and every lock and unlock so
    far. *)
Record s5fs_t := mk_s5fs {
  s5_inodes : gmap Z s5_inode_t;
  s5_dirents : gmap Z (list dirent_t);
  s5_indirect : gmap Z (list Z);
  s5_free_blocks : list Z;
  s5_free_inodes : list Z;
  s5_disk : gmap Z (list byte);
  s5_vnodes : gmap nat Z;
  s5_locked : gset nat;
  s5_lock_log : list lock_event
}.

Definition with_s5_inodes (f : gmap Z s5_inode_t -> gmap Z s5_inode_t)
  (s : s5fs_t) : s5fs_t :=
  mk_s5fs
    (f (s5_inodes s)) (s5_dirents s) (s5_indirect s) (s5_free_blocks s)
    (s5_free_inodes s) (s5_disk s) (s5_vnodes s) (s5_locked s)
    (s5_lock_log s).


Definition with_s5_dirents
  (f : gmap Z (list dirent_t) -> gmap Z (list dirent_t))
  (s : s5fs_t) : s5fs_t :=
  mk_s5fs
    (s5_inodes s) (f (s5_dirents s)) (s5_indirect s) (s5_free_blocks s)
    (s5_free_inodes s) (s5_disk s) (s5_vnodes s) (s5_locked s)
    (s5_lock_log s).

Definition with_s5_indirect (f : gmap Z (list Z) -> gmap Z (list Z))
  (s : s5fs_t) : s5fs_t :=
  mk_s5fs
    (s5_inodes s) (s5_dirents s) (f (s5_indirect s)) (s5_free_blocks s)
    (s5_free_inodes s) (s5_disk s) (s5_vnodes s) (s5_locked s)
    (s5_lock_log s).

Definition with_s5_free_blocks (f : list Z -> list Z) (s : s5fs_t) : s5fs_t :=
  mk_s5fs
    (s5_inodes s) (s5_dirents s) (s5_indirect s) (f (s5_free_blocks s))
    (s5_free_inodes s) (s5_disk s) (s5_vnodes s) (s5_locked s)
    (s5_lock_log s).

Definition with_s5_free_inodes (f : list Z -> list Z) (s : s5fs_t) : s5fs_t :=
  mk_s5fs
    (s5_inodes s) (s5_dirents s) (s5_indirect s) (s5_free_blocks s)
    (f (s5_free_inodes s)) (s5_disk s) (s5_vnodes s) (s5_locked s)
    (s5_lock_log s).

Definition with_s5_disk (f : gmap Z (list byte) -> gmap Z (list byte))
  (s : s5fs_t) : s5fs_t :=
  mk_s5fs
    (s5_inodes s) (s5_dirents s) (s5_indirect s) (s5_free_blocks s)
    (s5_free_inodes s) (f (s5_disk s)) (s5_vnodes s) (s5_locked s)
    (s5_lock_log s).

Definition with_s5_vnodes (f : gmap nat Z -> gmap nat Z)
  (s : s5fs_t) : s5fs_t :=
  mk_s5fs
    (s5_inodes s) (s5_dirents s) (s5_indirect s) (s5_free_blocks s)
    (s5_free_inodes s) (s5_disk s) (f (s5_vnodes s)) (s5_locked s)
    (s5_lock_log s).

Definition with_s5_locked (f : gset nat -> gset nat) (s : s5fs_t) : s5fs_t :=
  mk_s5fs
    (s5_inodes s) (s5_dirents s) (s5_indirect s) (s5_free_blocks s)
    (s5_free_inodes s) (s5_disk s) (s5_vnodes s) (f (s5_locked s))
    (s5_lock_log s).

Definition with_s5_lock_log (f : list lock_event -> list lock_event)
  (s : s5fs_t) : s5fs_t :=
  mk_s5fs
    (s5_inodes s) (s5_dirents s) (s5_indirect s) (s5_free_blocks s)
    (s5_free_inodes s) (s5_disk s) (s5_vnodes s) (s5_locked s)
    (f (s5_lock_log s)).


Definition set_s5_linkcount (n : Z) (i : s5_inode_t) : s5_inode_t :=
  mk_inode (s5_type i) (s5_size i) n (s5_direct_blocks i) (s5_indirect_block i).

Definition set_s5_size (n : Z) (i : s5_inode_t) : s5_inode_t :=
  mk_inode (s5_type i) n (s5_linkcount i) (s5_direct_blocks i)
    (s5_indirect_block i).

Definition set_s5_direct_blocks (d : list Z) (i : s5_inode_t) : s5_inode_t :=
  mk_inode (s5_type i) (s5_size i) (s5_linkcount i) d (s5_indirect_block i).

Definition set_s5_indirect_block (b : Z) (i : s5_inode_t) : s5_inode_t :=
  mk_inode (s5_type i) (s5_size i) (s5_linkcount i) (s5_direct_blocks i) b.

Definition bump_linkcount (d : Z) (ino : Z) (s : s5fs_t) : s5fs_t :=
  with_s5_inodes
    (alter (fun i => set_s5_linkcount (s5_linkcount i + d) i) ino) s.

Section s5fs_model.
Context `{!Errno, !StatH, !Mman, !S5fsH}.

(** Modelled from the spec: the mutex of a vnode, "a blocking mutex".
    Locking a mutex that is held never returns: nobody else runs to release
    it. *)
Definition model_kmutex_lock (vn : nat) (s : s5fs_t) : option s5fs_t :=
  if bool_decide (vn ∈ s5_locked s) then None
  else Some (with_s5_lock_log (fun l => l ++ [ev_lock vn])
               (with_s5_locked (fun h => {[vn]} ∪ h) s)).

(** Modelled from the spec: the release of the mutex of a vnode. *)
Definition model_kmutex_unlock (vn : nat) (s : s5fs_t) : s5fs_t :=
  with_s5_lock_log (fun l => l ++ [ev_unlock vn])
    (with_s5_locked (fun h => h ∖ {[vn]}) s).

(** Modelled from the spec: [vget], "returns the unique in-memory vnode for
    (fs, ino), creating it via [fs.read_vnode] on miss; increments
    ref-count"; a live vnode counts as one link of its inode. *)
Definition model_vget (ino : Z) (s : s5fs_t) : nat * s5fs_t :=
  let vn := Z.to_nat ino in
  match s5_vnodes s !! vn with
  | Some rc => (vn, with_s5_vnodes (insert vn (rc + 1)) s)
  | None => (vn, bump_linkcount 1 ino (with_s5_vnodes (insert vn 1) s))
  end.

(** Modelled from the spec: [vref], one more reference on a live vnode. *)
Definition model_vref (vn : nat) (s : s5fs_t) : s5fs_t :=
  with_s5_vnodes (alter (fun rc => rc + 1) vn) s.

(** Modelled from the spec: [s5_free_inode], "push the inode back onto the
    free list". *)
Definition model_free_inode (ino : Z) (s : s5fs_t) : s5fs_t :=
  with_s5_free_inodes (cons ino)
    (with_s5_dirents (delete ino)
       (with_s5_inodes
          (insert ino (mk_inode S5_TYPE_FREE 0 0
                         (replicate (Z.to_nat S5_NDIRECT_BLOCKS) 0) 0)) s)).

Definition linkcount_of (ino : Z) (s : s5fs_t) : Z :=
  match s5_inodes s !! ino with
  | Some i => s5_linkcount i
  | None => 0
  end.

(** Modelled from the spec: [vput], "decrements ref-count; on drop, calls
    [fs.delete_vnode]": the link of the vnode goes, and with the last link
    the inode is freed. *)
Definition model_vput (vn : nat) (s : s5fs_t) : s5fs_t :=
  match s5_vnodes s !! vn with
  | None => s
  | Some rc =>
      if rc - 1 =? 0 then
        let s1 := bump_linkcount (-1) (Z.of_nat vn)
                    (with_s5_vnodes (delete vn) s) in
        if linkcount_of (Z.of_nat vn) s1 =? 0
        then model_free_inode (Z.of_nat vn) s1
        else s1
      else with_s5_vnodes (insert vn (rc - 1)) s
  end.

(** Modelled from the spec: the mode of a vnode is that of its inode's
    type, "mode (regular/dir/chr/blk)". *)
Definition model_vn_mode (vn : nat) (s : s5fs_t) : Z :=
  match s5_inodes s !! Z.of_nat vn with
  | Some i =>
      if s5_type i =? S5_TYPE_DIR then S_IFDIR
      else if s5_type i =? S5_TYPE_DATA then S_IFREG
      else if s5_type i =? S5_TYPE_CHR then S_IFCHR
      else if s5_type i =? S5_TYPE_BLK then S_IFBLK
      else 0
  | None => 0
  end.

(** Modelled from the spec: the device id of a vnode, "for device inodes a
    devid in place of the indirect pointer". *)
Definition model_vn_devid (vn : nat) (s : s5fs_t) : Z :=
  match s5_inodes s !! Z.of_nat vn with
  | Some i =>
      if (s5_type i =? S5_TYPE_CHR) || (s5_type i =? S5_TYPE_BLK)
      then s5_indirect_block i else 0
  | None => 0
  end.

(** Modelled from the spec: the reference count of a vnode; a vnode that
    is not live has none. *)
Definition model_vn_refcount (vn : nat) (s : s5fs_t) : Z :=
  match s5_vnodes s !! vn with
  | Some rc => rc
  | None => 0
  end.

(** Modelled from the spec: [s5_alloc_inode], "pop an inode from the
    superblock's free-inode list; initialize type, linkcount=0, length=0;
    for chr/blk inodes store devid in the indirect-pointer slot". *)
Definition model_alloc_inode (type devid : Z) (s : s5fs_t) : Z * s5fs_t :=
  match s5_free_inodes s with
  | [] => (- ENOSPC, s)
  | ino :: rest =>
      let ind :=
        if (type =? S5_TYPE_CHR) || (type =? S5_TYPE_BLK) then devid else 0 in
      (ino,
       with_s5_free_inodes (fun _ => rest)
         (with_s5_dirents (delete ino)
            (with_s5_inodes
               (insert ino (mk_inode type 0 0
                              (replicate (Z.to_nat S5_NDIRECT_BLOCKS) 0) ind))
               s)))
  end.

Definition dirents_of (ino : Z) (s : s5fs_t) : list dirent_t :=
  match s5_dirents s !! ino with
  | Some es => es
  | None => []
  end.

(** Modelled from the spec: [s5_find_dirent], "linear scan of directory
    entries"; the inode number of the first entry of that name, or
    [-ENOENT]. *)
Definition model_find_dirent (dir : nat) (name : string) (namelen : Z)
  (s : s5fs_t) : Z * s5fs_t :=
  match List.find (fun e => name_match (d_name e) name namelen)
          (dirents_of (Z.of_nat dir) s) with
  | Some e => (d_ino e, s)
  | None => (- ENOENT, s)
  end.

(** Modelled from the spec: [s5_link], "directory-entry management; link
    increments target link count"; "by convention [.] does not contribute
    to the link count". *)
Definition model_link (dir target : nat) (name : string) (namelen : Z)
  (s : s5fs_t) : Z * s5fs_t :=
  if 0 <=? fst (model_find_dirent dir name namelen s) then (- EEXIST, s)
  else
    let e := mk_dirent (Z.of_nat target) 0
               (String.substring 0 (Z.to_nat namelen) name) in
    let s1 :=
      with_s5_dirents
        (insert (Z.of_nat dir) (dirents_of (Z.of_nat dir) s ++ [e])) s in
    let s2 :=
      with_s5_inodes
        (alter (fun i => set_s5_size (s5_size i + sizeof_dirent_t) i)
           (Z.of_nat dir)) s1 in
    (0, if bool_decide (dir = target) then s2
        else bump_linkcount 1 (Z.of_nat target) s2).

(** The entries without the first one of that name. *)
Fixpoint drop_dirent (name : string) (namelen : Z) (es : list dirent_t)
  : list dirent_t :=
  match es with
  | [] => []
  | e :: es' =>
      if name_match (d_name e) name namelen then es'
      else e :: drop_dirent name namelen es'
  end.

(** Modelled from the spec: [s5_remove_dirent], "remove decrements and
    frees the inode when it reaches zero and no vnode references remain". *)
Definition model_remove_dirent (dir : nat) (name : string) (namelen : Z)
  (s : s5fs_t) : Z * s5fs_t :=
  let ino := fst (model_find_dirent dir name namelen s) in
  if ino <? 0 then (ino, s)
  else
    let s1 :=
      with_s5_dirents
        (insert (Z.of_nat dir)
           (drop_dirent name namelen (dirents_of (Z.of_nat dir) s))) s in
    let s2 :=
      with_s5_inodes
        (alter (fun i => set_s5_size (s5_size i - sizeof_dirent_t) i)
           (Z.of_nat dir)) s1 in
    let s3 :=
      if ino =? Z.of_nat dir then s2 else bump_linkcount (-1) ino s2 in
    (0, if linkcount_of ino s3 =? 0 then model_free_inode ino s3 else s3).

(** Modelled from the spec: [s5_read_file] on a directory, read into a
    [dirent_t]: "directory entries are fixed-size records"; a read of one
    record's length at the boundary of a record gives that record and its
    length, a read at or after the end gives 0 bytes and leaves the buffer
    alone.  Other offsets and lengths are outside of this model and read
    nothing. *)
Definition model_read_file (vn : nat) (offset : Z) (buf : dirent_t) (len : Z)
  (s : s5fs_t) : Z * dirent_t * s5fs_t :=
  if (len =? sizeof_dirent_t) && (0 <=? offset)
     && (offset mod sizeof_dirent_t =? 0) then
    match dirents_of (Z.of_nat vn) s !! Z.to_nat (offset / sizeof_dirent_t) with
    | Some e => (sizeof_dirent_t, e, s)
    | None => (0, buf, s)
    end
  else (0, buf, s).

Definition take_free_block (s : s5fs_t) : option (Z * s5fs_t) :=
  match s5_free_blocks s with
  | [] => None
  | b :: rest => Some (b, with_s5_free_blocks (fun _ => rest) s)
  end.

Definition indirect_table (b : Z) (s : s5fs_t) : list Z :=
  match s5_indirect s !! b with
  | Some t => t
  | None => replicate (Z.to_nat S5_NIDIRECT_BLOCKS) 0
  end.

(** Modelled from the spec: [s5_seek_to_block], "translates a byte offset
    into a disk block number.  If [alloc] and the inode's slot is zero
    (sparse), allocate a free block (from the superblock's free list),
    install it (in the direct table or the indirect block, allocating the
    indirect block if absent).  Returns 0 for a sparse hole when
    [alloc=false], negative on failure ([ENOSPC])."  An offset past the
    largest file is a failure too. *)
Definition model_seek_to_block (vn : nat) (offset : Z) (alloc : Z)
  (s : s5fs_t) : Z * s5fs_t :=
  let ino := Z.of_nat vn in
  let idx := offset / S5_BLOCK_SIZE in
  match s5_inodes s !! ino with
  | None => (- EINVAL, s)
  | Some i =>
      if (idx <? 0) || (S5_NDIRECT_BLOCKS + S5_NIDIRECT_BLOCKS <=? idx)
      then (- EINVAL, s)
      else if idx <? S5_NDIRECT_BLOCKS then
        let slot := default 0 (s5_direct_blocks i !! Z.to_nat idx) in
        if (slot =? 0) && truthy alloc then
          match take_free_block s with
          | None => (- ENOSPC, s)
          | Some (b, s1) =>
              (b, with_s5_inodes
                    (insert ino
                       (set_s5_direct_blocks
                          (<[Z.to_nat idx := b]> (s5_direct_blocks i)) i)) s1)
          end
        else (slot, s)
      else
        let k := Z.to_nat (idx - S5_NDIRECT_BLOCKS) in
        if s5_indirect_block i =? 0 then
          if truthy alloc then
            match take_free_block s with
            | None => (- ENOSPC, s)
            | Some (ib, s1) =>
                match take_free_block s1 with
                | None => (- ENOSPC, s)
                | Some (b, s2) =>
                    (b, with_s5_indirect
                          (insert ib (<[k := b]> (indirect_table ib s2)))
                          (with_s5_inodes
                             (insert ino (set_s5_indirect_block ib i)) s2))
                end
            end
          else (0, s)
        else
          let ib := s5_indirect_block i in
          let slot := default 0 (indirect_table ib s !! k) in
          if (slot =? 0) && truthy alloc then
            match take_free_block s with
            | None => (- ENOSPC, s)
            | Some (b, s1) =>
                (b, with_s5_indirect
                      (insert ib (<[k := b]> (indirect_table ib s1))) s1)
            end
          else (slot, s)
  end.

(** Modelled from the spec: the block device, "an abstract
    [read_block]/[write_block] capability"; [count] blocks from block
    [block_no] on; a block never written reads as zeros. *)
Definition model_read_block (vn : nat) (buf : list byte) (block_no count : Z)
  (s : s5fs_t) : Z * list byte * s5fs_t :=
  let data :=
    match s5_disk s !! block_no with
    | Some d => d
    | None => replicate (Z.to_nat S5_BLOCK_SIZE) x00
    end in
  (0, data ++ drop (length data) buf, s).

(** Modelled from the spec: [write_block] of the same device, for one
    block. *)
Definition model_write_block (vn : nat) (buf : list byte) (block_no count : Z)
  (s : s5fs_t) : Z * s5fs_t :=
  (0, with_s5_disk (insert block_no (take (Z.to_nat S5_BLOCK_SIZE) buf)) s).

#[export] Instance model_vnode : Vnode s5fs_t := {|
  vget := model_vget;
  vref := model_vref;
  vput := model_vput;
  vn_mode := model_vn_mode;
  vn_devid := model_vn_devid;
  vn_refcount := model_vn_refcount
|}.

#[export] Instance model_kmutex : Kmutex s5fs_t := {|
  kmutex_lock := model_kmutex_lock;
  kmutex_unlock := model_kmutex_unlock
|}.

#[export] Instance model_s5_subr : S5Subr s5fs_t := {|
  s5_seek_to_block := model_seek_to_block;
  s5_read_file := model_read_file;
  s5_alloc_inode := model_alloc_inode;
  s5_link := model_link;
  s5_find_dirent := model_find_dirent;
  s5_remove_dirent := model_remove_dirent
|}.

#[export] Instance model_blockdev : Blockdev s5fs_t := {|
  read_block := model_read_block;
  write_block := model_write_block
|}.

End s5fs_model.

(** ** Environments for the closed examples

    [do_open], [do_mmap] and [do_fork] are stated over any layer below the
    file table.  The examples run them over a flat name space: every name
    is that of one vnode, a vnode has a mode and a reference count. *)

Record flat_vfs := mk_flat_vfs {
  fv_names : gmap string nat;
  fv_modes : gmap nat Z;
  fv_refs : gmap nat Z
}.

Definition flat_ref (d : Z) (vn : nat) (v : flat_vfs) : flat_vfs :=
  mk_flat_vfs (fv_names v) (fv_modes v)
    (alter (fun rc => rc + d) vn (fv_refs v)).

#[export] Instance flat_vnode : Vnode flat_vfs := {|
  vget := fun ino v => (Z.to_nat ino, flat_ref 1 (Z.to_nat ino) v);
  vref := flat_ref 1;
  vput := flat_ref (-1);
  vn_mode := fun vn v => default 0 (fv_modes v !! vn);
  vn_devid := fun _ _ => 0;
  vn_refcount := fun vn v => default 0 (fv_refs v !! vn)
|}.

(** A name resolves to its vnode, which gains a reference; a name that is
    not there is [-ENOENT]. *)
#[export] Instance flat_namev `{Errno} : Namev flat_vfs := {|
  open_namev := fun name _ v =>
    match fv_names v !! name with
    | Some vn => (0, Some vn, flat_ref 1 vn v)
    | None => (- ENOENT, None, v)
    end
|}.

(** The address space of the design document. *)
#[export] Instance model_vmmap `{Errno} `{Mman} : Vmmap flat_vfs := {|
  vmmap_map := model_vmmap_map
|}.

(** What may lie behind an uninitialised pointer to an area. *)
Definition example_junk_area : vmarea_t := mk_vmarea 0xdecaf 0 0 0 0 None.

(** The init process, pid 1, next to the idle process, pid 0: one private
    anonymous area of four pages at the bottom of the user range, backed by
    the anonymous object at address 10; descriptor 0 open on the file at
    address 3, which is the directory [/]. *)
Definition example_area : vmarea_t :=
  mk_vmarea 0x400 0x404 0 3 2 (Some 10%nat).

Definition example_init : proc_t :=
  mk_proc 1 "init" [1%nat] 0 0 1 0 0 (Some 7%nat)
    (Some 3%nat :: replicate 31 None) [example_area].

Definition example_idle : proc_t :=
  mk_proc 0 "idle" [0%nat] 0 0 0 0 0 None (replicate 32 None) [].

Definition example_thread (pid : Z) (kstack : Z) : kthread_t :=
  mk_kthread (mk_context 0 0 0 (kstack + 56 * 4096) (56 * 4096)) kstack pid ∅.

Definition example_vfs : flat_vfs :=
  mk_flat_vfs {[ "/" := 7%nat; "/etc/passwd" := 8%nat ]}
    {[ 7%nat := 0x0200; 8%nat := 0x0800 ]}
    {[ 7%nat := 2; 8%nat := 0 ]}.

Definition example_kstate : kstate flat_vfs :=
  mk_kstate example_init 1
    {[ 0 := example_idle ]}
    {[ 0%nat := example_thread 0 0xc0200000;
       1%nat := example_thread 1 0xc0300000 ]}
    []
    {[ 3%nat := mk_file 1 0 1 (Some 7%nat) ]}
    4
    {[ 10%nat := mk_mmobj mmo_anon 1 None ]}
    2 0xc0400000 [] example_vfs.

(** The same with every descriptor of the process open on that file, so
    that [do_fork] finds no empty slot to [fref]. *)
Definition example_fork_kstate : kstate flat_vfs :=
  with_files (fun _ => {[ 3%nat := mk_file 1 0 32 (Some 7%nat) ]})
    (with_curproc (set_p_files (replicate 32 (Some 3%nat))) example_kstate).

(** The user registers of a thread on entry to the kernel; [eax] holds 7. *)
Definition example_regs : regs_t :=
  mk_regs 7 0 0 0 0xbffff000 0xbffff010 0x08048100 0x202.

(** A file system with the root directory (inode 1, held by its vnode) and
    the directory [d] in it (inode 2), which holds the file [f] (inode 3,
    whose first block is block 7 and whose second block is a hole). *)
Definition example_dir_inode (entries : Z) (links : Z) : s5_inode_t :=
  mk_inode 0x2 (32 * entries) links (replicate 28 0) 0.

Definition example_s5fs (log : list lock_event) : s5fs_t :=
  mk_s5fs
    {[ 1 := example_dir_inode 3 3;
       2 := example_dir_inode 3 1;
       3 := mk_inode 0x1 8192 1 (7 :: replicate 27 0) 0 ]}
    {[ 1 := [mk_dirent 1 0 "."; mk_dirent 1 0 ".."; mk_dirent 2 0 "d"];
       2 := [mk_dirent 2 0 "."; mk_dirent 1 0 ".."; mk_dirent 3 0 "f"] ]}
    ∅ [20; 21] [4; 5] ∅ {[ 1%nat := 1 ]} ∅ log.

(** The same with [d] empty: nothing but [.] and [..] in it. *)
Definition example_s5fs_empty_d (log : list lock_event) : s5fs_t :=
  mk_s5fs
    {[ 1 := example_dir_inode 3 3;
       2 := example_dir_inode 2 1 ]}
    {[ 1 := [mk_dirent 1 0 "."; mk_dirent 1 0 ".."; mk_dirent 2 0 "d"];
       2 := [mk_dirent 2 0 "."; mk_dirent 1 0 ".."] ]}
    ∅ [20; 21] [3; 4; 5] ∅ {[ 1%nat := 1 ]} ∅ log.

Definition example_junk : dirent_t := mk_dirent 0 0 "".

(** [example_s5fs] inside [s5fs_rmdir] of [d]: the parent locked, the vnode
    of [d] live. *)
Definition example_s5fs_in_rmdir (log : list lock_event) : s5fs_t :=
  mk_s5fs
    {[ 1 := example_dir_inode 3 3;
       2 := example_dir_inode 3 2;
       3 := mk_inode 0x1 8192 1 (7 :: replicate 27 0) 0 ]}
    {[ 1 := [mk_dirent 1 0 "."; mk_dirent 1 0 ".."; mk_dirent 2 0 "d"];
       2 := [mk_dirent 2 0 "."; mk_dirent 1 0 ".."; mk_dirent 3 0 "f"] ]}
    ∅ [20; 21] [4; 5] ∅ {[ 1%nat := 1; 2%nat := 1 ]} {[ 1%nat ]} log.

Definition example_s5fs_empty_d_in_rmdir (log : list lock_event) : s5fs_t :=
  mk_s5fs
    {[ 1 := example_dir_inode 3 3;
       2 := example_dir_inode 2 2 ]}
    {[ 1 := [mk_dirent 1 0 "."; mk_dirent 1 0 ".."; mk_dirent 2 0 "d"];
       2 := [mk_dirent 2 0 "."; mk_dirent 1 0 ".."] ]}
    ∅ [20; 21] [3; 4; 5] ∅ {[ 1%nat := 1; 2%nat := 1 ]} {[ 1%nat ]} log.

(** [example_s5fs] with the mutex of vnode 3 held. *)
Definition example_s5fs_locked_3 : s5fs_t :=
  mk_s5fs
    {[ 1 := example_dir_inode 3 3;
       2 := example_dir_inode 3 1;
       3 := mk_inode 0x1 8192 1 (7 :: replicate 27 0) 0 ]}
    {[ 1 := [mk_dirent 1 0 "."; mk_dirent 1 0 ".."; mk_dirent 2 0 "d"];
       2 := [mk_dirent 2 0 "."; mk_dirent 1 0 ".."; mk_dirent 3 0 "f"] ]}
    ∅ [20; 21] [4; 5] ∅ {[ 1%nat := 1 ]} {[ 3%nat ]} [ev_lock 3].

(** A name of 29 characters. *)
Definition example_long_name : string := "a-name-of-twenty-nine-letters".

(** A page of [0xff] bytes. *)
Definition example_page : list byte := replicate 4096 xff.

(** ** Vocabulary of the statements *)

(** An area that [vmmap_remove_areas lo hi] keeps as it is. *)
Definition clear_of (lo hi : Z) (a : vmarea_t) : Prop :=
  ((vma_start a <? lo) && (hi <? vma_end a) = false)
  /\ ((vma_start a <? lo) && (lo <? vma_end a) = false)
  /\ ((lo <=? vma_start a) && (vma_start a <? hi) && (hi <? vma_end a)
      = false)
  /\ ((lo <=? vma_start a) && (vma_end a <=? hi) = false).

(** Page [pn] lies in area [a]. *)
Definition covers (pn : Z) (a : vmarea_t) : bool :=
  (vma_start a <=? pn) && (pn <? vma_end a).

(** The arguments the three checks at the head of [do_mmap] turn down. *)
Definition mmap_rejects `{Mman} (addr len off flags : Z) : Prop :=
  addr mod PAGE_SIZE <> 0 \/ len mod PAGE_SIZE <> 0
  \/ off mod PAGE_SIZE <> 0 \/ len = 0
  \/ (addr <> 0 /\ (addr < USER_MEM_LOW \/ USER_MEM_HIGH <= addr))
  \/ (Z.land flags MAP_PRIVATE <> 0 /\ Z.land flags MAP_SHARED <> 0)
  \/ (Z.land flags MAP_PRIVATE = 0 /\ Z.land flags MAP_SHARED = 0).

(** The arguments the design document has [do_mmap] turn down: as above,
    but with the whole range [addr, addr + len) required to lie in
    [USER_MEM_LOW, USER_MEM_HIGH). *)
Definition spec_mmap_rejects `{Mman} (addr len off flags : Z) : Prop :=
  addr mod PAGE_SIZE <> 0 \/ len mod PAGE_SIZE <> 0
  \/ off mod PAGE_SIZE <> 0 \/ len = 0
  \/ (addr <> 0 /\ ~ (USER_MEM_LOW <= addr /\ addr + len <= USER_MEM_HIGH))
  \/ (Z.land flags MAP_PRIVATE <> 0 /\ Z.land flags MAP_SHARED <> 0)
  \/ (Z.land flags MAP_PRIVATE = 0 /\ Z.land flags MAP_SHARED = 0).

(** The mapping is anonymous, or [fd] resolves to a file whose mode allows
    it: the calls for which [do_mmap] gets as far as [vmmap_map]. *)
Definition mmap_file_granted {V : Type} `{!Vnode V, !FileH, !Mman}
  (prot flags fd : Z) (st : kstate V) : Prop :=
  has_flag flags MAP_ANON = true
  \/ exists f s1,
       fget fd st = Ret (Some f) s1
       /\ mmap_file_denied (file_mode f s1) prot flags = false.

(** Modelled from the spec: the one failure with [EINVAL] the design
    document gives [vmmap_map], "if [pageno_hint] is nonzero ... fail with
    EINVAL if it is outside [USER_LOW_PAGE, USER_HIGH_PAGE)". *)
Definition vmmap_map_checks_range {V : Type} `{!Vmmap V, !Errno, !Mman}
  : Prop :=
  forall vn lopage npages prot flags off dir (k : kstate V),
    (vmmap_map vn lopage npages prot flags off dir k).1.1 = - EINVAL
    <-> lopage <> 0
        /\ ~ (USER_LOW_PAGE <= lopage
              /\ lopage + npages <= USER_HIGH_PAGE).

Definition returns_EINVAL `{Errno} {V : Type}
  (o : outcome (kstate V) (Z * option Z)) : Prop :=
  exists r s, o = Ret (- EINVAL, r) s.

(** The state [k] with the file at [a] allocated from the slab (which has
    [n] objects left), in mode [m], and stored in slot [fd]. *)
Definition opened {V : Type} (k : kstate V) (a : nat) (fd : Z) (m : Z)
  (n : nat) : kstate V :=
  mk_kstate
    (set_p_files (<[Z.to_nat fd := Some a]> (p_files (curproc k))) (curproc k))
    (curthr k) (procs k) (threads k) (runq k)
    (<[a := mk_file m 0 1 None]> (files k)) n (mmobjs k) (next_pagedir k)
    (next_kstack k) (mmu_log k) (vfs k).

(** What a failed [do_open] may leave below the file table: [x] is [v]
    itself, or what [open_namev] made of [v], with the vnode it handed out
    put back. *)
Definition namev_undone {V : Type} `{!Vnode V, !Namev V} (filename : string)
  (oflags : Z) (v x : V) : Prop :=
  x = v
  \/ exists status result v',
       open_namev filename oflags v = (status, result, v')
       /\ ((status <> 0 /\ x = v')
           \/ exists vn, status = 0 /\ result = Some vn /\ x = vput vn v').

(** ** The rest of [open.c], [fork.c] and [s5fs.c]

    The objects the statements about [do_open] and [do_fork] name. *)

Section results.
Context {V : Type} `{!Vnode V, !Errno, !FileH, !Mman, !KthreadH}.

(** The mode [do_open] gives the file: that of the access flags, with
    [FMODE_APPEND] or-ed in for [O_APPEND]. *)
Definition open_file_mode (oflags m : Z) : Z :=
  if has_flag oflags O_APPEND then Z.lor m FMODE_APPEND else m.

(** The process [do_fork] makes for the caller, whose thread will be [t]. *)
Definition forked_proc (k : kstate V) (t : nat) : proc_t :=
  let cur := curproc k in
  mk_proc (fresh_pid k) (p_comm cur) [t] (p_status cur) (p_state cur)
    (S (next_pagedir k)) (p_brk cur) (p_start_brk cur) (p_cwd cur)
    (p_files cur) (p_vmmap cur).

(** Its thread, for the user registers [regs] of the caller. *)
Definition forked_thread (k : kstate V) (regs : regs_t) : kthread_t :=
  let '(esp, mem) := fork_setup_stack regs (next_kstack k) ∅ in
  mk_kthread
    (mk_context userland_entry esp (S (next_pagedir k))
       (uint32 (next_kstack k + DEFAULT_STACK_SIZE)) DEFAULT_STACK_SIZE)
    (next_kstack k) (fresh_pid k) mem.

(** The [file_t] objects after one more reference on each open file of
    the table [tbl], slot by slot. *)
Definition fref_all (tbl : list (option nat)) (fs : gmap nat file_t)
  : gmap nat file_t :=
  foldl (fun fs f =>
           match f with
           | Some a =>
               alter (fun fl => set_f_refcount (f_refcount fl + 1) fl) a fs
           | None => fs
           end) fs tbl.

End results.

(** The discipline the comments of [s5fs.c] lay down: the mutexes are taken
    and released in the [s5fs_*] entry points, the subroutines below (and
    the vnode cache and the block device) leave them alone.  [held] is the
    set of vnodes whose mutex is held; a mutex is not taken twice. *)
Class MutexDiscipline (V : Type)
  `{!Vnode V, !Kmutex V, !S5Subr V, !Blockdev V} := {
  held : V -> gset nat;
  held_lock : forall vn s s',
    kmutex_lock vn s = Some s' ->
    (vn ∉ held s) /\ held s' = {[vn]} ∪ held s;
  held_unlock : forall vn s, held (kmutex_unlock vn s) = held s ∖ {[vn]};
  held_vget : forall ino s, held (vget ino s).2 = held s;
  held_vput : forall vn s, held (vput vn s) = held s;
  held_seek : forall vn off alloc s,
    held (s5_seek_to_block vn off alloc s).2 = held s;
  held_read_file : forall vn off d len s,
    held (s5_read_file vn off d len s).2 = held s;
  held_alloc_inode : forall type devid s,
    held (s5_alloc_inode type devid s).2 = held s;
  held_link : forall dir vn name namelen s,
    held (s5_link dir vn name namelen s).2 = held s;
  held_find_dirent : forall dir name namelen s,
    held (s5_find_dirent dir name namelen s).2 = held s;
  held_remove_dirent : forall dir name namelen s,
    held (s5_remove_dirent dir name namelen s).2 = held s;
  held_read_block : forall vn buf b n s,
    held (read_block vn buf b n s).2 = held s;
  held_write_block : forall vn buf b n s,
    held (write_block vn buf b n s).2 = held s
}.

(** A run that, if it returns, holds the mutexes it held at the start. *)
Definition keeps_held {V A : Type}
  `{!Vnode V, !Kmutex V, !S5Subr V, !Blockdev V, !MutexDiscipline V}
  (m : kern V A) (s : V) : Prop :=
  match m s with
  | Ret _ s' => held s' = held s
  | _ => True
  end.

#[export] Instance model_mutex_discipline
  `{!Errno, !StatH, !Mman, !S5fsH} : MutexDiscipline s5fs_t.
Proof.
  refine {| held := s5_locked |}.
  - intros vn s s'. simpl. unfold model_kmutex_lock.
    destruct (bool_decide (vn ∈ s5_locked s)) eqn:E; [discriminate |].
    intros [= <-]. apply bool_decide_eq_false in E. split; [assumption |].
    reflexivity.
  - reflexivity.
  - intros ino s. simpl. unfold model_vget.
    now destruct (s5_vnodes s !! Z.to_nat ino).
  - intros vn s. simpl. unfold model_vput.
    destruct (s5_vnodes s !! vn); [| reflexivity].
    destruct (_ =? 0); [| reflexivity].
    now destruct (linkcount_of _ _ =? 0).
  - intros vn off alloc s. simpl. unfold model_seek_to_block, take_free_block.
    repeat (case_match; simplify_eq; try reflexivity).
  - intros vn off d len s. simpl. unfold model_read_file.
    repeat (case_match; try reflexivity).
  - intros type devid s. simpl. unfold model_alloc_inode.
    now destruct (s5_free_inodes s).
  - intros dir vn name namelen s. simpl. unfold model_link.
    repeat (case_match; try reflexivity).
  - intros dir name namelen s. simpl. unfold model_find_dirent.
    now destruct (List.find _ _).
  - intros dir name namelen s. simpl. unfold model_remove_dirent.
    repeat (case_match; try reflexivity).
  - reflexivity.
  - reflexivity.
Defined.

(** [triple P m Q]: run from a state whose held mutexes satisfy [P], [m]
    returns, if it does, a value and held mutexes that satisfy [Q]. *)
Definition triple {V A : Type}
  `{!Vnode V, !Kmutex V, !S5Subr V, !Blockdev V, !MutexDiscipline V}
  (P : gset nat -> Prop) (m : kern V A) (Q : A -> gset nat -> Prop) : Prop :=
  forall s, P (held s) ->
    match m s with
    | Ret a s' => Q a (held s')
    | _ => True
    end.

(** The superblock, [s5_super_t] of [fs/s5fs/s5fs.h]: the fields
    [s5_check_super] reads, all of them [uint32_t]. *)
Record s5_super_t := mk_super {
  s5s_magic : Z;
  s5s_free_inode : Z;
  s5s_num_inodes : Z;
  s5s_root_inode : Z;
  s5s_version : Z
}.

(** [fs/s5fs/s5fs.h]: the magic number and the version of the format. *)
Class S5SuperH := {
  S5_MAGIC : Z;
  S5_CURRENT_VERSION : Z
}.

(** [S5_MAGIC] is [071177] in octal. *)
#[export] Instance weenix_s5_super_h : S5SuperH := {|
  S5_MAGIC := 0x727f;
  S5_CURRENT_VERSION := 3
|}.

(** [s5_check_super]: -1 for a corrupt superblock, 0 for a good one. *)
Definition s5_check_super `{S5SuperH} (super : s5_super_t) : Z :=
  if negb ((s5s_magic super =? S5_MAGIC)
           && ((s5s_free_inode super <? s5s_num_inodes super)
               || (s5s_free_inode super =? uint32 (-1)))
           && (s5s_root_inode super <? s5s_num_inodes super))
  then -1
  else if negb (s5s_version super =? S5_CURRENT_VERSION) then -1
  else 0.

(** [struct stat] of [fs/stat.h]: the fields [s5fs_stat] or the comment
    above it names. *)
Record stat_t := mk_stat {
  st_mode : Z;
  st_ino : Z;
  st_nlink : Z;
  st_size : Z;
  st_blksize : Z;
  st_blocks : Z
}.

(** [s5_inode_blocks] of [s5fs_subr.c], which is not among the sources, and
    [EFAULT] of [errno.h]. *)
Class S5Stat (V : Type) := {
  s5_inode_blocks : nat -> V -> Z;
  EFAULT : Z
}.

Section s5fs_stat.
Context {V : Type} `{!Vnode V, !Kmutex V, !S5Stat V, !Mman, !S5fsH}.

Local Open Scope kern_scope.

(** [ss] is what the pointer [ss] points at, [None] for [NULL]; the result
    is the status and the [struct stat] as the call leaves it. *)
Definition s5fs_stat (vnode : nat) (ss : option stat_t)
  : kern V (Z * option stat_t) :=
  match ss with
  | None => kret (- EFAULT, None)
  | Some st =>
      lock vnode;;;
      mode <- kget (vn_mode vnode);;
      blocks <- kget (s5_inode_blocks vnode);;
      unlock vnode;;;
      kret (0, Some (mk_stat mode mode (st_nlink st) (st_size st)
                       S5_BLOCK_SIZE blocks))
  end.

End s5fs_stat.

(** Modelled from the spec: [s5_inode_blocks], the blocks an inode holds,
    "one data block plus possibly one indirect block" for one block of
    data: the direct pointers that are set, the indirect block if there is
    one, and the pointers set in it. *)
Definition model_inode_blocks (vn : nat) (s : s5fs_t) : Z :=
  let set_pointers l := Z.of_nat (length (filter (fun b => b <> 0) l)) in
  match s5_inodes s !! Z.of_nat vn with
  | Some i =>
      set_pointers (s5_direct_blocks i)
      + (if s5_indirect_block i =? 0 then 0
         else 1 + set_pointers
                    (default [] (s5_indirect s !! s5_indirect_block i)))
  | None => 0
  end.

#[export] Instance model_s5_stat : S5Stat s5fs_t := {|
  s5_inode_blocks := model_inode_blocks;
  EFAULT := 14
|}.

(** A superblock with an empty free list of inodes, and what a caller's
    [struct stat] may hold before the call. *)
Definition example_super : s5_super_t :=
  mk_super S5_MAGIC (uint32 (-1)) 64 0 S5_CURRENT_VERSION.

Definition example_stat : stat_t := mk_stat 0 0 5 77 0 0.

(** * Properties *)

(** ** The multiboot header *)

Section boot_facts.
Context `{Multiboot}.

Lemma long_land_ones (e : Z) : long e = Z.land e (Z.ones 32).
Proof. unfold long. now rewrite Z.land_ones by lia. Qed.

Lemma long_lor_has_left (a b : Z) :
  Z.land (long (Z.lor a b)) (long a) = long a.
Proof.
  rewrite !long_land_ones. apply Z.bits_inj'. intros n Hn.
  rewrite !Z.land_spec, Z.lor_spec.
  destruct (Z.testbit a n), (Z.testbit b n), (Z.testbit (Z.ones 32) n);
    reflexivity.
Qed.

Lemma long_lor_has_right (a b : Z) :
  Z.land (long (Z.lor a b)) (long b) = long b.
Proof. rewrite Z.lor_comm. apply long_lor_has_left. Qed.

Lemma long_sum_with_negation (a b : Z) :
  (long a + long b + long (- (a + b))) mod 2 ^ 32 = 0.
Proof.
  unfold long.
  rewrite Z.add_mod_idemp_r by lia.
  rewrite <- Z.add_assoc, Z.add_mod_idemp_l by lia.
  rewrite (Z.add_comm (b mod 2 ^ 32)), Z.add_assoc, Z.add_mod_idemp_r by lia.
  replace (a + - (a + b) + b) with 0 by lia. reflexivity.
Qed.

(** C9.  The directives of [boot.S] open with the section [.multiboot],
    which holds exactly three 32-bit words: the magic number, the flags
    word [MULTIBOOT_PAGE_ALIGN | MULTIBOOT_MEMORY_INFO] (both requests are
    set in it), and a checksum that makes the three words add up to zero
    modulo 2^32. *)
Theorem multiboot_header_layout :
  head boot_S = Some (dir_section ".multiboot")
  /\ exists magic flags checksum,
       multiboot_header = [magic; flags; checksum]
       /\ magic = long MULTIBOOT_HEADER_MAGIC
       /\ flags = long (Z.lor MULTIBOOT_PAGE_ALIGN MULTIBOOT_MEMORY_INFO)
       /\ Z.land flags (long MULTIBOOT_PAGE_ALIGN) = long MULTIBOOT_PAGE_ALIGN
       /\ Z.land flags (long MULTIBOOT_MEMORY_INFO) = long MULTIBOOT_MEMORY_INFO
       /\ (magic + flags + checksum) mod 2 ^ 32 = 0.
Proof.
  split; [reflexivity |].
  exists (long MULTIBOOT_HEADER_MAGIC), (long FLAGS), (long CHECKSUM).
  unfold FLAGS, CHECKSUM.
  repeat split.
  - apply long_lor_has_left.
  - apply long_lor_has_right.
  - apply long_sum_with_negation.
Qed.

End boot_facts.

(** With the constants of [multiboot.h]. *)
Example multiboot_header_run :
  multiboot_header = [0x1BADB002; 0x00000003; 0xE4524FFB].
Proof. reflexivity. Qed.

(** ** Running kernel code step by step *)

Lemma kbind_ext {S A B} (m : kern S A) (k1 k2 : A -> kern S B) s :
  (forall a s', k1 a s' = k2 a s') -> kbind m k1 s = kbind m k2 s.
Proof. intros E. unfold kbind. destruct (m s); [apply E | reflexivity ..]. Qed.

Lemma kbind_head {S A B} (m1 m2 : kern S A) (k : A -> kern S B) s :
  m1 s = m2 s -> kbind m1 k s = kbind m2 k s.
Proof. unfold kbind. now intros ->. Qed.

Lemma kbind_Ret {S A B} (m : kern S A) (k : A -> kern S B) s b s' :
  kbind m k s = Ret b s' -> exists a s1, m s = Ret a s1 /\ k a s1 = Ret b s'.
Proof.
  unfold kbind. destruct (m s) as [a s1 | |]; [eauto | discriminate ..].
Qed.

Lemma kbind_Timeout {S A B} (m : kern S A) (k : A -> kern S B) s :
  m s = Timeout -> kbind m k s = Timeout.
Proof. unfold kbind. now intros ->. Qed.

Lemma kbind_step {S A B} (m : kern S A) (k : A -> kern S B) s a s1 :
  m s = Ret a s1 -> kbind m k s = k a s1.
Proof. unfold kbind. now intros ->. Qed.

Lemma kbind_to {S A B} (m : kern S A) (k : A -> kern S B) s a s1 o :
  m s = Ret a s1 -> k a s1 = o -> kbind m k s = o.
Proof. unfold kbind. now intros -> ->. Qed.

(** Decide the test of the next conditional by computation. *)
Ltac eval_if :=
  lazymatch goal with
  | |- context [if ?c then _ else _] =>
      let v := eval vm_compute in c in
      change c with v; cbv beta iota
  end.

(** Run the first action of a sequence on a closed state. *)
Ltac kstep :=
  eapply kbind_to; [vm_compute; reflexivity |]; cbv beta iota.

(** ** Error numbers *)

Section errno_facts.
Context `{Errno}.

Lemma errno_EINVAL_pos : 0 < EINVAL.
Proof.
  pose proof errno_positive as P. rewrite Forall_forall in P.
  apply P. set_solver.
Qed.

Lemma errno_EMFILE_pos : 0 < EMFILE.
Proof.
  pose proof errno_positive as P. rewrite Forall_forall in P.
  apply P. set_solver.
Qed.

Lemma errno_EINVAL_not_EBADF : EINVAL <> EBADF.
Proof.
  pose proof errno_distinct as D. apply NoDup_cons in D as [D _].
  intros E. apply D. rewrite E. set_solver.
Qed.

Lemma errno_EINVAL_not_EACCES : EINVAL <> EACCES.
Proof.
  pose proof errno_distinct as D. apply NoDup_cons in D as [D _].
  intros E. apply D. rewrite E. set_solver.
Qed.

End errno_facts.

(** ** [vmmap_remove] and [do_munmap] *)

Section vmmap_facts.

Lemma vmmap_remove_areas_clear lo hi m objs :
  Forall (clear_of lo hi) m -> vmmap_remove_areas lo hi m objs = (m, objs).
Proof.
  induction 1 as [| a m (H1 & H2 & H3 & H4) _ IH]; simpl; [reflexivity |].
  rewrite H1, H2, H3, H4, IH. reflexivity.
Qed.

(** Uses the induction hypothesis [IH] on every recursive call in sight. *)
Ltac use_IH IH :=
  repeat lazymatch goal with
  | E : vmmap_remove_areas _ _ _ ?o = _ |- _ =>
      let X := fresh in
      pose proof (IH o) as X; rewrite E in X; simpl in X; clear E
  end.

Lemma vmmap_remove_areas_clears lo hi m objs :
  lo <= hi -> Forall (clear_of lo hi) (vmmap_remove_areas lo hi m objs).1.
Proof.
  intros Hle. revert objs. induction m as [| a m IH]; intros objs; simpl.
  - constructor.
  - repeat case_match; simpl; use_IH IH; try apply IH;
      repeat (apply Forall_cons; split); try assumption;
      unfold clear_of; simpl; lia.
Qed.

Lemma vmmap_lookup_None m pn :
  vmmap_lookup m pn = None <-> Forall (fun a => covers pn a = false) m.
Proof.
  unfold vmmap_lookup. induction m as [| a m IH]; simpl.
  - split; [constructor | reflexivity].
  - fold (covers pn a). destruct (covers pn a) eqn:E.
    + split; [discriminate |].
      intros F. apply Forall_cons in F as [F _]. congruence.
    + rewrite IH. split; [intros; constructor; assumption |].
      intros F. now apply Forall_cons in F as [_ F].
Qed.

Lemma vmmap_remove_areas_keeps_unmapped lo hi m objs pn :
  lo <= hi ->
  Forall (fun a => covers pn a = false) m ->
  Forall (fun a => covers pn a = false) (vmmap_remove_areas lo hi m objs).1.
Proof.
  intros Hle F. revert objs.
  induction F as [| a m Ha _ IH]; intros objs; simpl.
  - constructor.
  - unfold covers in Ha.
    repeat case_match; simpl; use_IH IH; try apply IH;
      repeat (apply Forall_cons; split); try assumption;
      unfold covers; simpl; lia.
Qed.

End vmmap_facts.

Section mmap_facts.
Context {V : Type} `{!Vnode V, !Vmmap V, !Errno, !FileH, !Mman}.

(** C8.  [do_munmap] of a page-aligned, non-empty range inside the user
    range returns 0, whatever is mapped there, and so does a second call
    on the same range, which changes neither the areas nor the memory
    objects any more; a page that was unmapped before the call is unmapped
    after it. *)
Theorem do_munmap_idempotent (addr len : Z) (st : kstate V) :
  addr mod PAGE_SIZE = 0 -> len mod PAGE_SIZE = 0 -> 0 < len ->
  USER_MEM_LOW <= addr -> addr + len <= USER_MEM_HIGH ->
  exists st1 st2,
    do_munmap addr len st = Ret 0 st1
    /\ do_munmap addr len st1 = Ret 0 st2
    /\ p_vmmap (curproc st2) = p_vmmap (curproc st1)
    /\ mmobjs st2 = mmobjs st1
    /\ forall pn,
         vmmap_lookup (p_vmmap (curproc st)) pn = None ->
         vmmap_lookup (p_vmmap (curproc st1)) pn = None.
Proof.
  intros Ha Hl Hpos Hlo Hhi.
  assert (Hnp : 0 <= len / PAGE_SIZE)
    by (apply Z.div_pos; [lia | apply page_size_positive]).
  assert (Hchk1 : negb (PAGE_ALIGNED addr) || negb (PAGE_ALIGNED len)
                  || negb (truthy len) = false).
  { unfold PAGE_ALIGNED, truthy. rewrite Ha, Hl. simpl.
    destruct (len =? 0) eqn:E; [lia | reflexivity]. }
  assert (Hchk2 : (addr <? USER_MEM_LOW) || (USER_MEM_HIGH <=? addr) = false)
    by lia.
  unfold do_munmap. rewrite Hchk1, Hchk2.
  unfold kbind, vmmap_remove, tlb_flush_range, kmodify, kret.
  set (lo := uint32 addr). set (hi := lo + len / PAGE_SIZE).
  assert (Hle : lo <= hi) by (unfold hi; lia).
  destruct (vmmap_remove_areas lo hi (p_vmmap (curproc st)) (mmobjs st))
    as [m1 o1] eqn:E1.
  eexists _, _. split; [reflexivity |]. simpl.
  assert (Hclear : Forall (clear_of lo hi) m1).
  { pose proof (vmmap_remove_areas_clears lo hi (p_vmmap (curproc st))
                  (mmobjs st) Hle) as C.
    now rewrite E1 in C. }
  rewrite (vmmap_remove_areas_clear _ _ _ _ Hclear).
  split; [reflexivity |]. simpl.
  split; [reflexivity |]. split; [reflexivity |].
  intros pn Hpn. apply vmmap_lookup_None. apply vmmap_lookup_None in Hpn.
  pose proof (vmmap_remove_areas_keeps_unmapped lo hi _ (mmobjs st) pn Hle Hpn)
    as K.
  now rewrite E1 in K.
Qed.

(** X9: [do_munmap] hands the address itself, not its page number, to
    [vmmap_remove].  Where the user range in pages ends before the first
    user address (as with the kernel's constants), an address space whose
    areas lie in the user range therefore keeps all of them. *)
Remark do_munmap_keeps_user_areas (addr len : Z) (st st' : kstate V) (r : Z) :
  0 <= USER_MEM_LOW -> USER_MEM_HIGH / PAGE_SIZE <= USER_MEM_LOW ->
  Forall (fun a => vma_start a < vma_end a
                   /\ vma_end a <= USER_MEM_HIGH / PAGE_SIZE)
    (p_vmmap (curproc st)) ->
  0 <= len -> addr < 2 ^ 32 ->
  do_munmap addr len st = Ret r st' ->
  p_vmmap (curproc st') = p_vmmap (curproc st).
Proof.
  intros Hlow Hgap Hareas Hlen Haddr. unfold do_munmap.
  destruct (negb (PAGE_ALIGNED addr) || _ || _);
    [intros E; now inversion E |].
  destruct ((addr <? USER_MEM_LOW) || (USER_MEM_HIGH <=? addr)) eqn:Hrange;
    [intros E; now inversion E |].
  assert (Hnp : 0 <= len / PAGE_SIZE)
    by (apply Z.div_pos; [lia | apply page_size_positive]).
  assert (Hu : uint32 addr = addr)
    by (unfold uint32; apply Z.mod_small; lia).
  rewrite Hu.
  unfold kbind, vmmap_remove, tlb_flush_range, kmodify, kret.
  rewrite vmmap_remove_areas_clear.
  - intros E. now inversion E.
  - eapply Forall_impl; [exact Hareas |].
    intros a [Hne Hend]. unfold clear_of. lia.
Qed.

End mmap_facts.

Lemma do_munmap_idempotent_witness :
  exists st1 st2,
    do_munmap 0x400000 0x4000 example_kstate = Ret 0 st1
    /\ do_munmap 0x400000 0x4000 st1 = Ret 0 st2
    /\ p_vmmap (curproc st2) = p_vmmap (curproc st1)
    /\ mmobjs st2 = mmobjs st1
    /\ forall pn,
         vmmap_lookup (p_vmmap (curproc example_kstate)) pn = None ->
         vmmap_lookup (p_vmmap (curproc st1)) pn = None.
Proof.
  apply (do_munmap_idempotent 0x400000 0x4000 example_kstate);
    [reflexivity | reflexivity | reflexivity | discriminate | discriminate].
Defined.

(** ** [do_mmap] *)

Section do_mmap_facts.
Context {V : Type} `{!Vnode V, !Vmmap V, !Errno, !FileH, !Mman}.

Lemma mmap_rejects_checks addr len off flags :
  mmap_rejects addr len off flags <->
  mmap_misaligned addr len off || mmap_addr_outside addr
  || mmap_bad_sharing flags = true.
Proof.
  unfold mmap_rejects, mmap_misaligned, mmap_addr_outside, mmap_bad_sharing,
    has_flag, truthy, PAGE_ALIGNED.
  lia.
Qed.

Lemma do_mmap_map_status junk addr len prot flags off file (st : kstate V)
  status r st' :
  do_mmap_map junk addr len prot flags off file st = Ret (status, r) st' ->
  exists vn stored k',
    vmmap_map vn (ADDR_TO_PN addr) (len / PAGE_SIZE) prot flags off
      VMMAP_DIR_HILO st = (status, stored, k').
Proof.
  intros Hret.
  unfold do_mmap_map, kbind, kget, klift, kret, kpanic in Hret.
  match type of Hret with
  | context [vmmap_map ?vn _ _ _ _ _ _ ?k] =>
      destruct (vmmap_map vn (ADDR_TO_PN addr) (len / PAGE_SIZE) prot flags
                  off VMMAP_DIR_HILO k) as [[status' stored] k'] eqn:E;
      exists vn, stored, k'
  end.
  assert (status' = status) as ->; [| exact E].
  destruct (default junk stored) as [a |]; simpl in Hret;
    unfold tlb_flush_range, kmodify, kret in Hret;
    destruct (truthy status'); try discriminate Hret;
    now inversion Hret.
Qed.

Lemma do_mmap_map_fails junk addr len prot flags off file (st : kstate V)
  vn status stored k' :
  (match file with
   | Some a => match files st !! a with
               | Some fl => f_vnode fl
               | None => None
               end
   | None => None
   end) = vn ->
  vmmap_map vn (ADDR_TO_PN addr) (len / PAGE_SIZE) prot flags off
    VMMAP_DIR_HILO st = (status, stored, k') ->
  status <> 0 ->
  exists st',
    do_mmap_map junk addr len prot flags off file st
    = Ret (status, None) st'.
Proof.
  intros Hvn Hmap Hst.
  unfold do_mmap_map, kbind, kget, klift. rewrite Hvn, Hmap.
  replace (truthy status) with true by (unfold truthy; lia).
  destruct (default junk stored) as [a |]; simpl;
    unfold tlb_flush_range, kmodify, kret; eexists; reflexivity.
Qed.

Lemma user_range_in_pages addr len :
  PAGE_SIZE <= USER_MEM_LOW ->
  addr mod PAGE_SIZE = 0 -> len mod PAGE_SIZE = 0 ->
  USER_MEM_LOW <= addr ->
  (ADDR_TO_PN addr <> 0
   /\ ~ (USER_LOW_PAGE <= ADDR_TO_PN addr
         /\ ADDR_TO_PN addr + len / PAGE_SIZE <= USER_HIGH_PAGE))
  <-> ~ (addr + len <= USER_MEM_HIGH).
Proof.
  intros Hlow Ha Hl Hge. pose proof page_size_positive as Hp.
  unfold USER_LOW_PAGE, USER_HIGH_PAGE, ADDR_TO_PN.
  apply Z.div_exact in Ha; [| lia]. apply Z.div_exact in Hl; [| lia].
  assert (Hpn : 1 <= addr / PAGE_SIZE).
  { apply Z.div_le_lower_bound; lia. }
  assert (Hmono : USER_MEM_LOW / PAGE_SIZE <= addr / PAGE_SIZE)
    by (apply Z.div_le_mono; lia).
  assert (Hsum : addr + len
                 = PAGE_SIZE * (addr / PAGE_SIZE + len / PAGE_SIZE)) by lia.
  assert (Hfloor : addr / PAGE_SIZE + len / PAGE_SIZE
                   <= USER_MEM_HIGH / PAGE_SIZE
                   <-> addr + len <= USER_MEM_HIGH).
  { rewrite Hsum. split.
    - intros Hle. etransitivity;
        [apply Z.mul_le_mono_nonneg_l; [lia | exact Hle] |].
      apply Z.mul_div_le. lia.
    - intros Hle. apply Z.div_le_lower_bound; lia. }
  split.
  - intros [_ Hout] Hin. apply Hout. split; [exact Hmono | now apply Hfloor].
  - intros Hout. split; [lia |]. intros [_ Hin]. apply Hout. now apply Hfloor.
Qed.

(** C5, as amended.  With a [vmmap_map] that makes the range check of the
    design document, and a user range that starts above page 0, [do_mmap]
    returns [-EINVAL] exactly when [addr], [len] or [off] is not page
    aligned, [len] is zero, [addr] is nonzero and itself outside
    [USER_MEM_LOW, USER_MEM_HIGH), the flags hold both or neither of
    [MAP_PRIVATE] and [MAP_SHARED], or, once the descriptor checks have let
    the call through to [vmmap_map], [addr] is nonzero and the range
    [addr, addr + len) is not contained in [USER_MEM_LOW, USER_MEM_HIGH).
    In the first four cases nothing is looked up and nothing changed. *)
Theorem do_mmap_EINVAL (junk : option vmarea_t)
  (addr len prot flags fd off : Z) (st : kstate V) :
  vmmap_map_checks_range ->
  PAGE_SIZE <= USER_MEM_LOW ->
  (returns_EINVAL (do_mmap junk addr len prot flags fd off st)
   <-> mmap_rejects addr len off flags
       \/ (mmap_file_granted prot flags fd st
           /\ addr <> 0
           /\ ~ (USER_MEM_LOW <= addr /\ addr + len <= USER_MEM_HIGH)))
  /\ (mmap_rejects addr len off flags ->
      do_mmap junk addr len prot flags fd off st = Ret (- EINVAL, None) st).
Proof.
  intros Hlaw Hlow.
  assert (Hhead : mmap_rejects addr len off flags ->
            do_mmap junk addr len prot flags fd off st
            = Ret (- EINVAL, None) st).
  { rewrite mmap_rejects_checks. unfold do_mmap. intros R.
    destruct (mmap_misaligned addr len off); [reflexivity |].
    destruct (mmap_addr_outside addr); [reflexivity |].
    destruct (mmap_bad_sharing flags); [reflexivity | discriminate]. }
  split; [| exact Hhead].
  destruct (decide (mmap_rejects addr len off flags)) as [R | R].
  { split; [now left |]. intros _. rewrite (Hhead R). now exists None, st. }
  pose proof R as Rchecks. rewrite mmap_rejects_checks in Rchecks.
  assert (Hal : addr mod PAGE_SIZE = 0 /\ len mod PAGE_SIZE = 0
                /\ (addr <> 0 -> USER_MEM_LOW <= addr)).
  { unfold mmap_rejects in R. lia. }
  destruct Hal as (Ha & Hl & Hge).
  assert (Hrange : forall vn k,
            (vmmap_map vn (ADDR_TO_PN addr) (len / PAGE_SIZE) prot flags off
               VMMAP_DIR_HILO k).1.1 = - EINVAL
            <-> addr <> 0 /\ ~ (addr + len <= USER_MEM_HIGH)).
  { intros vn k. unfold vmmap_map_checks_range in Hlaw. rewrite Hlaw.
    destruct (decide (addr = 0)) as [-> | Hnz].
    - unfold ADDR_TO_PN. rewrite Z.div_0_l by (pose proof page_size_positive; lia).
      split; intros [Hn _]; contradiction.
    - rewrite (user_range_in_pages addr len Hlow Ha Hl (Hge Hnz)). tauto. }
  pose proof errno_EINVAL_pos as Hpos.
  pose proof errno_EINVAL_not_EBADF. pose proof errno_EINVAL_not_EACCES.
  unfold do_mmap.
  destruct (mmap_misaligned addr len off); [now destruct Rchecks |].
  destruct (mmap_addr_outside addr); [now destruct Rchecks |].
  destruct (mmap_bad_sharing flags); [now destruct Rchecks |].
  clear Rchecks. unfold mmap_file_granted.
  destruct (has_flag flags MAP_ANON) eqn:Hanon.
  - split.
    + intros (r & st' & E). right.
      apply do_mmap_map_status in E as (vn & stored & k' & E).
      pose proof (proj1 (Hrange vn st)) as Hr. rewrite E in Hr.
      destruct (Hr eq_refl) as [Hnz Hout].
      split; [now left |]. split; [exact Hnz | tauto].
    + intros [C | (_ & Hnz & Hout)]; [contradiction |].
      destruct (vmmap_map None (ADDR_TO_PN addr) (len / PAGE_SIZE) prot flags
                  off VMMAP_DIR_HILO st) as [[status stored] k'] eqn:E.
      pose proof (proj2 (Hrange None st)) as Hr. rewrite E in Hr.
      simpl in Hr. rewrite Hr in E by (split; [exact Hnz | tauto]).
      destruct (do_mmap_map_fails junk addr len prot flags off None st None
                  (- EINVAL) stored k' eq_refl E) as [st' Hst']; [lia |].
      now exists None, st'.
  - unfold kbind at 1.
    destruct (fget fd st) as [[f |] s1 | |] eqn:F.
    + unfold kbind at 1, kget.
      destruct (mmap_file_denied (file_mode f s1) prot flags) eqn:Hden.
      * split.
        -- unfold kbind, kmodify, kret. intros (r & st' & E).
           inversion E. lia.
        -- intros [C | ([C | (f' & s' & [= <- <-] & C)] & _)];
             [contradiction | discriminate | congruence].
      * split.
        -- intros (r & st' & E). right.
           apply do_mmap_map_status in E as (vn & stored & k' & E).
           pose proof (proj1 (Hrange vn s1)) as Hr. rewrite E in Hr.
           destruct (Hr eq_refl) as [Hnz Hout].
           split; [right; now exists f, s1 |].
           split; [exact Hnz | tauto].
        -- intros [C | (_ & Hnz & Hout)]; [contradiction |].
           match goal with
           | |- returns_EINVAL (do_mmap_map _ _ _ _ _ _ ?file _) =>
               set (fl := file)
           end.
           set (vn := match files s1 !! f with
                      | Some fl => f_vnode fl
                      | None => None
                      end).
           destruct (vmmap_map vn (ADDR_TO_PN addr) (len / PAGE_SIZE) prot
                       flags off VMMAP_DIR_HILO s1)
             as [[status stored] k'] eqn:E.
           pose proof (proj2 (Hrange vn s1)) as Hr. rewrite E in Hr.
           simpl in Hr. rewrite Hr in E by (split; [exact Hnz | tauto]).
           destruct (do_mmap_map_fails junk addr len prot flags off (Some f)
                       s1 vn (- EINVAL) stored k' eq_refl E) as [st' Hst'];
             [lia |].
           now exists None, st'.
    + split.
      * unfold kret. intros (r & st' & E). inversion E. lia.
      * intros [C | ([C | (f' & s' & C & _)] & _)];
          [contradiction | discriminate | discriminate].
    + split; [intros (r & st' & E); discriminate |].
      intros [C | ([C | (f' & s' & C & _)] & _)];
        [contradiction | discriminate | discriminate].
    + split; [intros (r & st' & E); discriminate |].
      intros [C | ([C | (f' & s' & C & _)] & _)];
        [contradiction | discriminate | discriminate].
Qed.

End do_mmap_facts.

(** ** The [vmmap_map] of the design document *)

Section vmmap_map_facts.
Context {V : Type} `{!Errno, !Mman}.

Lemma model_vmmap_map_EINVAL vn lopage npages prot flags off dir
  (k : kstate V) :
  (model_vmmap_map vn lopage npages prot flags off dir k).1.1 = - EINVAL
  <-> lopage <> 0
      /\ ~ (USER_LOW_PAGE <= lopage /\ lopage + npages <= USER_HIGH_PAGE).
Proof.
  pose proof errno_EINVAL_pos as Hpos.
  assert (Hne : ENOMEM <> EINVAL).
  { pose proof errno_distinct as D. apply NoDup_cons in D as [D _].
    intros E. apply D. rewrite <- E. set_solver. }
  unfold model_vmmap_map.
  destruct (lopage =? 0) eqn:Hz; simpl.
  - destruct (vmmap_find_range _ _ _); simpl.
    + destruct (vmmap_map_object _ _ _). simpl. lia.
    + lia.
  - destruct ((lopage <? USER_LOW_PAGE)
              || (USER_HIGH_PAGE <? lopage + npages)) eqn:Hout; simpl.
    + lia.
    + destruct (vmmap_remove_areas _ _ _ _).
      destruct (vmmap_map_object _ _ _). simpl. lia.
Qed.

End vmmap_map_facts.

(** [mmap(USER_MEM_HIGH - PAGE_SIZE, 2 * PAGE_SIZE, PROT_READ,
    MAP_PRIVATE | MAP_ANON, -1, 0)], with the [vmmap_map] of the design
    document: the range is turned down by [vmmap_map]. *)
Lemma do_mmap_EINVAL_witness :
  vmmap_map_checks_range (V := flat_vfs)
  /\ returns_EINVAL
       (do_mmap None (0xc0000000 - 4096) 8192 1 10 (-1) 0 example_kstate)
  /\ do_mmap None 0 1 1 9 (-1) 0 example_kstate
     = Ret (- EINVAL, None) example_kstate.
Proof.
  assert (L : vmmap_map_checks_range (V := flat_vfs)).
  { intros vn lopage npages prot flags off dir k.
    apply model_vmmap_map_EINVAL. }
  split; [exact L |].
  destruct (do_mmap_EINVAL None (0xc0000000 - 4096) 8192 1 10 (-1) 0
              example_kstate L) as [W _]; [discriminate |].
  destruct (do_mmap_EINVAL None 0 1 1 9 (-1) 0 example_kstate L)
    as [_ W']; [discriminate |].
  split.
  - apply W. right. split; [left; reflexivity |].
    split; [discriminate |]. intros [_ C]. revert C. vm_compute.
    intros C. apply C. reflexivity.
  - apply W'. right. left. discriminate.
Defined.

(** C5 fails as stated: a private mapping of descriptor 5, which is not
    open, over the two pages that start one page below [USER_MEM_HIGH].
    The range sticks out of the user range, yet the result is [-EBADF]. *)
Lemma do_mmap_range_end_unchecked :
  ~ (returns_EINVAL
       (do_mmap None (0xc0000000 - 4096) 8192 1 2 5 0 example_kstate)
     <-> spec_mmap_rejects (0xc0000000 - 4096) 8192 0 2).
Proof.
  intros [_ C].
  destruct C as (r & s & E).
  - unfold spec_mmap_rejects. simpl. lia.
  - vm_compute in E. discriminate E.
Qed.

(** What the code does there. *)
Example do_mmap_past_user_range_run :
  do_mmap None (0xc0000000 - 4096) 8192 1 2 5 0 example_kstate
  = Ret (- EBADF, None) example_kstate.
Proof. vm_compute. reflexivity. Qed.

(** An anonymous private page anywhere: [vmmap_map] of the design document
    places it in the highest hole, the last page of the user range. *)
Example do_mmap_highest_hole_run :
  exists st',
    do_mmap None 0 4096 1 10 (-1) 0 example_kstate = Ret (0, Some 0xbffff) st'
    /\ vmmap_lookup (p_vmmap (curproc st')) 0xbffff
       = Some (mk_vmarea 0xbffff 0xc0000 0 1 10 (Some 12%nat))
    /\ mmu_log st' = [ev_tlb_flush_range 0xbffff 1].
Proof. eexists. vm_compute. repeat split. Qed.

(** ** [do_open] *)

Section open_facts.
Context {V : Type} `{!Vnode V, !Namev V, !StatH, !Errno, !FileH}.

Lemma get_empty_fd_from_spec n fd tbl :
  0 <= fd ->
  get_empty_fd_from n fd tbl = - EMFILE
  \/ (fd <= get_empty_fd_from n fd tbl < fd + Z.of_nat n
      /\ tbl !! Z.to_nat (get_empty_fd_from n fd tbl) = Some None).
Proof.
  revert fd. induction n as [| n IH]; intros fd Hfd; simpl; [now left |].
  destruct (tbl !! Z.to_nat fd) as [[a |] |] eqn:E.
  - destruct (IH (fd + 1)) as [-> | [? ?]];
      [lia | now left | right; split; [lia | assumption]].
  - right. split; [lia | assumption].
  - destruct (IH (fd + 1)) as [-> | [? ?]];
      [lia | now left | right; split; [lia | assumption]].
Qed.

Lemma with_vfs_same (k : kstate V) : with_vfs (fun _ => vfs k) k = k.
Proof. now destruct k. Qed.

Lemma with_vfs_opened f (k : kstate V) a fd m n :
  with_vfs f (opened k a fd m n) = opened (with_vfs f k) a fd m n.
Proof. reflexivity. Qed.

Lemma store_f_mode_opened (k : kstate V) a fd m m' n :
  store_f_mode a m' (opened k a fd m n) = Ret tt (opened k a fd m' n).
Proof.
  unfold store_f_mode, kmodify, with_files, opened. simpl.
  now rewrite alter_insert_eq.
Qed.

Lemma file_mode_opened (k : kstate V) a fd m n :
  file_mode a (opened k a fd m n) = m.
Proof. unfold file_mode, opened. simpl. now rewrite lookup_insert_eq. Qed.

Lemma do_close_opened (k : kstate V) a fd m n :
  0 <= fd < Z.of_nat NFILES ->
  p_files (curproc k) !! Z.to_nat fd = Some None ->
  files k !! a = None ->
  file_slab_free k = S n ->
  do_close fd (opened k a fd m n) = Ret 0 k.
Proof.
  intros Hfd Hslot Hfree Hslab. unfold do_close.
  replace ((fd <? 0) || (Z.of_nat NFILES <=? fd)) with false by lia.
  assert (Hlen : (Z.to_nat fd < length (p_files (curproc k)))%nat)
    by (eapply lookup_lt_Some; eassumption).
  unfold opened at 1. simpl.
  rewrite list_lookup_insert_eq by assumption.
  f_equal. unfold fput, opened. simpl.
  rewrite lookup_insert_eq. simpl.
  unfold with_file_slab_free, with_files, with_curproc, set_p_files. simpl.
  rewrite delete_insert_eq, delete_id by assumption.
  rewrite list_insert_insert_eq, list_insert_id by assumption.
  destruct k as [[] ? ? ? ? ? ? ? ? ? ? ?]. simpl in *. now subst.
Qed.


Lemma do_open_resolve_opened filename oflags (k : kstate V) a fd m n :
  0 <= fd < Z.of_nat NFILES ->
  p_files (curproc k) !! Z.to_nat fd = Some None ->
  files k !! a = None ->
  file_slab_free k = S n ->
  match do_open_resolve filename oflags fd a (opened k a fd m n) with
  | Ret ret st' =>
      ret < 0 ->
      exists x, st' = with_vfs (fun _ => x) k
                /\ namev_undone filename oflags (vfs k) x
  | Panic _ => exists v', open_namev filename oflags (vfs k) = (0, None, v')
  | Timeout => False
  end.
Proof.
  intros Hfd Hslot Hfree Hslab.
  unfold do_open_resolve, kbind at 1, klift.
  change (vfs (opened k a fd m n)) with (vfs k).
  destruct (open_namev filename oflags (vfs k)) as [[status result] v'] eqn:E.
  rewrite with_vfs_opened.
  destruct (truthy status) eqn:T; unfold truthy in T.
  - unfold kbind.
    rewrite do_close_opened by assumption.
    unfold store_p_files, kmodify, kret. intros _.
    exists v'. split.
    + unfold with_curproc, set_p_files, with_vfs. simpl.
      rewrite list_insert_id by assumption.
      now destruct k as [[] ? ? ? ? ? ? ? ? ? ? ?].
    + right. exists status, result, v'. split; [exact E |].
      left. split; [lia | reflexivity].
  - assert (status = 0) as -> by lia.
    destruct result as [vn |]; [| unfold kpanic; now exists v'].
    unfold kbind at 1, kget. unfold kbind at 1.
    rewrite file_mode_opened.
    destruct (S_ISDIR _ && has_flag m FMODE_WRITE).
    + unfold kbind. rewrite do_close_opened by assumption.
      unfold kmodify, kret. intros _.
      exists (vput vn v'). split; [reflexivity |].
      right. exists 0, (Some vn), v'. split; [exact E |].
      right. now exists vn.
    + unfold kbind, store_f_vnode, kmodify, kret. lia.
Qed.

(** C6.  A call of [do_open] that returns a negative value leaves the
    kernel state as it was, the descriptor table, the [file_t] objects and
    the slab included, but for what [open_namev] itself did below the file
    table, and the vnode [open_namev] handed out, if any, has been put
    back.  [do_open] always returns, unless [open_namev] reports success
    without a vnode, which stops the kernel in [KASSERT(result)]. *)
Theorem do_open_failure_releases (filename : string) (oflags : Z)
  (st : kstate V) :
  match do_open filename oflags st with
  | Ret ret st' =>
      ret < 0 ->
      exists x, st' = with_vfs (fun _ => x) st
                /\ namev_undone filename oflags (vfs st) x
  | Panic _ => exists v', open_namev filename oflags (vfs st) = (0, None, v')
  | Timeout => False
  end.
Proof.
  pose proof errno_EMFILE_pos as Hpos.
  assert (Hsame : exists x, st = with_vfs (fun _ => x) st
                            /\ namev_undone filename oflags (vfs st) x).
  { exists (vfs st). split; [now rewrite with_vfs_same | now left]. }
  unfold do_open, kbind at 1, kget.
  destruct (get_empty_fd_from_spec NFILES 0 (p_files (curproc st)))
    as [Hfull | [Hfd Hslot]]; [lia | |]; fold (get_empty_fd (curproc st)) in *.
  { rewrite Hfull, Z.eqb_refl. now intros _. }
  destruct (get_empty_fd (curproc st) =? - EMFILE) eqn:Efd; [now intros _ |].
  set (fd := get_empty_fd (curproc st)) in *.
  unfold kbind at 1, fget. simpl.
  destruct (file_slab_free st) as [| n] eqn:Hslab; [now intros _ |].
  set (a := fresh (dom (files st))).
  assert (Hfree : files st !! a = None)
    by (apply not_elem_of_dom, is_fresh).
  unfold kbind at 1, store_p_files, kmodify.
  change (with_curproc _ (with_file_slab_free _ (with_files _ st)))
    with (opened st a fd 0 n).
  destruct (open_mode oflags) as [m |].
  - unfold kbind at 1. rewrite store_f_mode_opened.
    unfold kbind at 1.
    destruct (has_flag oflags O_APPEND).
    + unfold kbind at 1, kget. rewrite file_mode_opened, store_f_mode_opened.
      apply do_open_resolve_opened; (assumption || lia).
    + unfold kret at 1.
      apply do_open_resolve_opened; (assumption || lia).
  - unfold kbind. rewrite do_close_opened by (assumption || lia).
    now intros _.
Qed.

End open_facts.

(** A name that does not resolve: [-ENOENT], and the state is as before. *)
Lemma do_open_failure_releases_witness :
  - ENOENT < 0
  /\ exists x, example_kstate = with_vfs (fun _ => x) example_kstate
               /\ namev_undone "/missing" 0 (vfs example_kstate) x.
Proof.
  split; [reflexivity |].
  pose proof (do_open_failure_releases "/missing" 0 example_kstate) as W.
  assert (E : do_open "/missing" 0 example_kstate
              = Ret (- ENOENT) example_kstate)
    by (vm_compute; reflexivity).
  rewrite E in W. apply W. reflexivity.
Defined.

(** The three failures after the slot is taken, run on the example: flags
    that are no access mode, a name that does not resolve, the directory
    [/] opened for writing.  Each time the state is as before the call. *)
Example do_open_failures_run :
  do_open "/etc/passwd" 3 example_kstate = Ret (- EINVAL) example_kstate
  /\ do_open "/missing" 0 example_kstate = Ret (- ENOENT) example_kstate
  /\ do_open "/" 1 example_kstate = Ret (- EISDIR) example_kstate
  /\ exists st', do_open "/etc/passwd" 2 example_kstate = Ret 1 st'
                 /\ p_files (curproc st') !! 1%nat = Some (Some 4%nat)
                 /\ files st' !! 4%nat = Some (mk_file 3 0 1 (Some 8%nat)).
Proof.
  repeat split; try (vm_compute; reflexivity).
  eexists. split; [vm_compute; reflexivity |].
  split; vm_compute; reflexivity.
Qed.

(** ** [do_fork] *)

Section fork_facts.
Context {V : Type} `{!Vnode V, !Errno, !FileH, !Mman, !KthreadH}.

(** The loop starts at the link its guard compares with: the guard
    [link != curproc->p_vmmap->vmm_list.l_next] is false on entry. *)
Lemma fork_shadow_loop_at_first_link fuel child link2 (k : kstate V) :
  fork_shadow_loop fuel child
    (l_next (length (p_vmmap (curproc k))) O) link2 k = Ret tt k.
Proof.
  destruct fuel; simpl; now rewrite Nat.eqb_refl.
Qed.

(** So the loop of [do_fork] runs its body for no area of no address
    space. *)
Lemma fork_shadow_objects_noop fuel child (k : kstate V) :
  fork_shadow_objects fuel child k = Ret tt k.
Proof. apply fork_shadow_loop_at_first_link. Qed.

Lemma do_fork_fuel_irrelevant fuel regs (k : kstate V) :
  do_fork fuel regs k = do_fork O regs k.
Proof.
  unfold do_fork.
  apply kbind_ext; intros [new_proc |] s1; [| reflexivity].
  apply kbind_ext; intros cur s2.
  apply kbind_ext; intros m s3.
  apply kbind_ext; intros [d |] s4; [| reflexivity].
  do 3 (apply kbind_ext; intros ? ?).
  apply kbind_head. now rewrite !fork_shadow_objects_noop.
Qed.

(** Whenever [do_fork] returns, it returns 0. *)
Lemma do_fork_returns_zero fuel regs (k k' : kstate V) r :
  do_fork fuel regs k = Ret r k' -> r = 0.
Proof.
  unfold do_fork. intros E.
  repeat first
    [ apply kbind_Ret in E as (? & ? & _ & E)
    | match type of E with
      | match ?x with _ => _ end _ = _ => destruct x; try discriminate E
      end ].
  now inversion E.
Qed.

End fork_facts.

(** C1 fails on the code.  The process of the example has one area, which
    is private, on the anonymous object at address 10.  [do_fork] succeeds;
    afterwards that area of the parent and its copy in the child (pid 2)
    still sit directly on object 10, there is no shadow object at all, and
    object 10 has gained the one reference of [vmmap_clone] only. *)
Theorem do_fork_interposes_no_shadow (fuel : nat) :
  exists st' child,
    do_fork fuel example_regs example_fork_kstate = Ret 0 st'
    /\ procs st' !! 2 = Some child
    /\ has_flag (vma_flags example_area) MAP_PRIVATE = true
    /\ vma_obj example_area = Some 10%nat
    /\ p_vmmap (curproc st') = [example_area]
    /\ p_vmmap child = [example_area]
    /\ mmobjs example_fork_kstate = {[ 10%nat := mk_mmobj mmo_anon 1 None ]}
    /\ mmobjs st' = {[ 10%nat := mk_mmobj mmo_anon 2 None ]}.
Proof.
  rewrite do_fork_fuel_irrelevant.
  eexists _, _. split; [vm_compute; reflexivity |].
  split; [vm_compute; reflexivity |].
  repeat split.
Qed.

(** C2 fails on the code.  In the example the child gets pid 2, but the
    value [do_fork] returns to the parent is 0; and the registers the child
    enters user mode with are the caller's as they were, so the child sees
    in [eax] the 7 the parent had there, not 0. *)
Theorem do_fork_returns_zero_to_parent (fuel : nat) :
  exists st' child thr,
    do_fork fuel example_regs example_fork_kstate = Ret 0 st'
    /\ procs st' !! 2 = Some child
    /\ p_pid child = 2
    /\ p_threads child = [2%nat]
    /\ threads st' !! 2%nat = Some thr
    /\ kt_proc thr = 2
    /\ first_user_eax thr = Some (r_eax example_regs)
    /\ r_eax example_regs = 7.
Proof.
  rewrite do_fork_fuel_irrelevant.
  eexists _, _, _. split; [vm_compute; reflexivity |].
  split; [vm_compute; reflexivity |].
  split; [reflexivity |]. split; [reflexivity |].
  split; [vm_compute; reflexivity |].
  split; [reflexivity |]. split; vm_compute; reflexivity.
Qed.

(** ** The S5FS vnode operations *)

Section s5fs_facts.
Context {V : Type}.
Context `{!Vnode V, !Kmutex V, !S5Subr V, !Blockdev V}.
Context `{!Errno, !StatH, !Mman, !S5fsH}.

(** C10.  With a name longer than [S5_NAME_LEN], each of the seven
    operations that take a name returns [-ENAMETOOLONG] and hands back the
    very state it was given: nothing below it has been called, whatever the
    mutex, the vnode cache and the subroutines are, so no mutex was taken
    and nothing was looked at or changed. *)
Theorem s5fs_name_too_long (s : V) (namelen : Z) (name : string)
  (dir src : nat) (mode devid : Z) (fuel : nat) (junk : dirent_t) :
  S5_NAME_LEN < namelen ->
  s5fs_create dir name namelen s = Ret (- ENAMETOOLONG, None) s
  /\ s5fs_mknod dir name namelen mode devid s = Ret (- ENAMETOOLONG) s
  /\ s5fs_lookup dir name namelen s = Ret (- ENAMETOOLONG, None) s
  /\ s5fs_link src dir name namelen s = Ret (- ENAMETOOLONG) s
  /\ s5fs_unlink dir name namelen s = Ret (- ENAMETOOLONG) s
  /\ s5fs_mkdir dir name namelen s = Ret (- ENAMETOOLONG) s
  /\ s5fs_rmdir fuel junk dir name namelen s = Ret (- ENAMETOOLONG) s.
Proof.
  intros Hlong.
  assert (Hchk : (S5_NAME_LEN <? namelen) = true) by lia.
  unfold s5fs_create, s5fs_mknod, s5fs_lookup, s5fs_link, s5fs_unlink,
    s5fs_mkdir, s5fs_rmdir.
  rewrite Hchk. repeat split.
Qed.

Lemma memset_whole_page (page : list byte) :
  Z.of_nat (length page) = PAGE_SIZE ->
  memset page x00 S5_BLOCK_SIZE = replicate (length page) x00.
Proof.
  intros Hlen. unfold memset. rewrite s5_block_is_page, <- Hlen, Nat2Z.id.
  rewrite Nat.min_id, drop_all. apply app_nil_r.
Qed.

(** C7.  [s5fs_fillpage] on a page buffer (page aligned, one page long),
    once it holds the mutex of the vnode, asks [s5_seek_to_block] for the
    block of the offset with [alloc = 0]; a negative answer is returned as
    it is and the page buffer is untouched; on 0, a hole, the whole page
    buffer is filled with zero bytes and 0 is returned; on a block number
    the buffer and the status are those of [read_block] for one block at
    that number.  The mutex is released on each path. *)
Theorem s5fs_fillpage_cases (vnode : nat) (offset : Z) (pagebuf : Z)
  (page : list byte) (s s1 s2 : V) (block_no : Z) :
  pagebuf mod PAGE_SIZE = 0 ->
  Z.of_nat (length page) = PAGE_SIZE ->
  kmutex_lock vnode s = Some s1 ->
  s5_seek_to_block vnode offset 0 s1 = (block_no, s2) ->
  (block_no < 0 ->
   s5fs_fillpage vnode offset pagebuf page s
   = Ret (block_no, page) (kmutex_unlock vnode s2))
  /\ (block_no = 0 ->
      s5fs_fillpage vnode offset pagebuf page s
      = Ret (0, replicate (length page) x00) (kmutex_unlock vnode s2))
  /\ (0 < block_no ->
      forall status buf s3,
        read_block vnode page block_no 1 s2 = (status, buf, s3) ->
        s5fs_fillpage vnode offset pagebuf page s
        = Ret (status, buf) (kmutex_unlock vnode s3)).
Proof.
  intros Halign Hlen Hlock Hseek.
  unfold s5fs_fillpage, KASSERT, PAGE_ALIGNED.
  rewrite Halign, Z.eqb_refl.
  unfold kbind, lock, unlock, klift, kmodify, kret.
  rewrite Hlock, Hseek.
  split; [| split].
  - intros Hneg. now replace (block_no <? 0) with true by lia.
  - intros ->. simpl. now rewrite memset_whole_page.
  - intros Hpos status buf s3 Hread.
    replace (block_no <? 0) with false by lia.
    replace (truthy block_no) with true by (unfold truthy; lia).
    now rewrite Hread.
Qed.

(** Over a hole [s5fs_dirtypage] returns 0 after the look-up alone:
    [s5_seek_to_block] is never asked to allocate. *)
Lemma s5fs_dirtypage_hole (vnode : nat) (offset : Z) (s s1 s2 : V) :
  kmutex_lock vnode s = Some s1 ->
  s5_seek_to_block vnode offset 0 s1 = (0, s2) ->
  s5fs_dirtypage vnode offset s = Ret 0 (kmutex_unlock vnode s2).
Proof.
  intros Hlock Hseek.
  unfold s5fs_dirtypage, kbind, lock, unlock, klift, kmodify, kret.
  now rewrite Hlock, Hseek.
Qed.

(** Where a block is there already, it is the second look-up that is
    returned: a block number, not 0. *)
Lemma s5fs_dirtypage_allocated (vnode : nat) (offset : Z) (s s1 s2 s3 : V)
  (b b' : Z) :
  kmutex_lock vnode s = Some s1 ->
  s5_seek_to_block vnode offset 0 s1 = (b, s2) ->
  0 < b ->
  s5_seek_to_block vnode offset 1 s2 = (b', s3) ->
  s5fs_dirtypage vnode offset s = Ret b' (kmutex_unlock vnode s3).
Proof.
  intros Hlock Hseek Hpos Hseek'.
  unfold s5fs_dirtypage, kbind, lock, unlock, klift, kmodify, kret.
  rewrite Hlock, Hseek. replace (b <=? 0) with false by lia.
  now rewrite Hseek'.
Qed.

(** Once the entry in hand is [.], [..] or a free one and re-reading at
    [offset] gives the same entry again, the loop of [s5fs_rmdir] never
    ends. *)
Lemma s5fs_rmdir_scan_stuck (P : V -> Prop) (parent vn : nat) (offset : Z)
  (entry : dirent_t) :
  offset <> 0 ->
  d_name entry = "." \/ d_name entry = ".." \/ d_name entry = "" ->
  (forall s, P s ->
     s5fs_readdir vn offset entry s = Timeout
     \/ exists status s', s5fs_readdir vn offset entry s
                          = Ret (status, entry) s' /\ P s') ->
  forall fuel s, P s ->
    s5fs_rmdir_scan fuel parent vn offset entry s = Timeout.
Proof.
  intros Hoff Hname Hread fuel.
  assert (Htruthy : truthy offset = true) by (unfold truthy; lia).
  induction fuel as [| fuel IH]; intros s Hs; simpl; rewrite Htruthy;
    [reflexivity |].
  assert (Hagain :
    (r <- s5fs_readdir vn offset entry;;
     s5fs_rmdir_scan fuel parent vn offset (snd r))%kern s = Timeout).
  { destruct (Hread s Hs) as [T | (status & s' & R & Hs')].
    - now apply kbind_Timeout.
    - rewrite (kbind_step _ _ _ _ _ R). simpl. now apply IH. }
  destruct Hname as [-> | [-> | ->]]; simpl; exact Hagain.
Qed.

End s5fs_facts.

(** A name of 29 characters in the root directory of the example. *)
Lemma s5fs_name_too_long_witness :
  S5_NAME_LEN < 29
  /\ s5fs_create 1 example_long_name 29 (example_s5fs [])
     = Ret (- ENAMETOOLONG, None) (example_s5fs [])
  /\ s5fs_mknod 1 example_long_name 29 S_IFCHR 0 (example_s5fs [])
     = Ret (- ENAMETOOLONG) (example_s5fs [])
  /\ s5fs_lookup 1 example_long_name 29 (example_s5fs [])
     = Ret (- ENAMETOOLONG, None) (example_s5fs [])
  /\ s5fs_link 2 1 example_long_name 29 (example_s5fs [])
     = Ret (- ENAMETOOLONG) (example_s5fs [])
  /\ s5fs_unlink 1 example_long_name 29 (example_s5fs [])
     = Ret (- ENAMETOOLONG) (example_s5fs [])
  /\ s5fs_mkdir 1 example_long_name 29 (example_s5fs [])
     = Ret (- ENAMETOOLONG) (example_s5fs [])
  /\ s5fs_rmdir 8 example_junk 1 example_long_name 29 (example_s5fs [])
     = Ret (- ENAMETOOLONG) (example_s5fs []).
Proof.
  assert (L : S5_NAME_LEN < 29) by reflexivity.
  split; [exact L |].
  exact (s5fs_name_too_long (example_s5fs []) 29 example_long_name 1 2
           S_IFCHR 0 8 example_junk L).
Defined.

(** The second block of the file [f] of the example is a hole: the page
    comes back zeroed. *)
Lemma s5fs_fillpage_cases_witness :
  s5fs_fillpage 3 4096 0xc1000000 example_page (example_s5fs [])
  = Ret (0, replicate (length example_page) x00)
      (kmutex_unlock 3 example_s5fs_locked_3).
Proof.
  refine (proj1 (proj2
            (s5fs_fillpage_cases 3 4096 0xc1000000 example_page
               (example_s5fs []) example_s5fs_locked_3 example_s5fs_locked_3
               0 _ _ _ _))
            eq_refl); reflexivity.
Defined.

(** C3 fails on the code.  In the file [f] of the example (vnode 3) the
    second block is a hole and the first is disk block 7.  Over the hole
    [s5fs_dirtypage] returns 0 and has done nothing but take and release
    the mutex: the free list still holds both of its blocks and the offset
    still resolves to no block.  Over the block that is there it returns
    the block number, 7, where 0 is due. *)
Theorem s5fs_dirtypage_keeps_hole :
  s5_seek_to_block 3 4096 0 (example_s5fs []) = (0, example_s5fs [])
  /\ s5_free_blocks (example_s5fs []) = [20; 21]
  /\ s5fs_dirtypage 3 4096 (example_s5fs [])
     = Ret 0 (example_s5fs [ev_lock 3; ev_unlock 3])
  /\ s5_seek_to_block 3 4096 0 (example_s5fs [ev_lock 3; ev_unlock 3])
     = (0, example_s5fs [ev_lock 3; ev_unlock 3])
  /\ s5fs_dirtypage 3 0 (example_s5fs [])
     = Ret 7 (example_s5fs [ev_lock 3; ev_unlock 3]).
Proof. repeat split; vm_compute; reflexivity. Qed.

(** The model at work: [d] is found in the root directory, and its vnode
    comes back with one reference. *)
Example s5fs_lookup_run :
  exists s', s5fs_lookup 1 "d" 1 (example_s5fs []) = Ret (0, Some 2%nat) s'
             /\ vn_refcount 2 s' = 1
             /\ s5_lock_log s' = [ev_lock 1; ev_unlock 1].
Proof. eexists. repeat split; vm_compute; reflexivity. Qed.

(** What the subroutine does when it is asked to allocate: the hole gets
    the first free block. *)
Example s5_seek_to_block_alloc_run :
  fst (s5_seek_to_block 3 4096 1 (example_s5fs [])) = 20.
Proof. vm_compute. reflexivity. Qed.

Lemma readdir_second_entry_again (entry : dirent_t) (log : list lock_event) :
  s5fs_readdir 2 32 entry (example_s5fs_in_rmdir log)
  = Ret (32, mk_dirent 1 0 "..")
      (example_s5fs_in_rmdir ((log ++ [ev_lock 2]) ++ [ev_unlock 2])).
Proof. vm_compute. reflexivity. Qed.

Lemma readdir_second_entry_again_empty_d (entry : dirent_t)
  (log : list lock_event) :
  s5fs_readdir 2 32 entry (example_s5fs_empty_d_in_rmdir log)
  = Ret (32, mk_dirent 1 0 "..")
      (example_s5fs_empty_d_in_rmdir ((log ++ [ev_lock 2]) ++ [ev_unlock 2])).
Proof. vm_compute. reflexivity. Qed.

Lemma rmdir_scan_example (fuel : nat) (log : list lock_event) :
  s5fs_rmdir_scan fuel 1 2 32 (mk_dirent 1 0 "..") (example_s5fs_in_rmdir log)
  = Timeout.
Proof.
  apply (s5fs_rmdir_scan_stuck
           (fun s => exists l, s = example_s5fs_in_rmdir l)).
  - discriminate.
  - right. left. reflexivity.
  - intros s [l ->]. right. eexists _, _. split.
    + apply readdir_second_entry_again.
    + eauto.
  - eauto.
Qed.

Lemma rmdir_scan_example_empty_d (fuel : nat) (log : list lock_event) :
  s5fs_rmdir_scan fuel 1 2 32 (mk_dirent 1 0 "..")
    (example_s5fs_empty_d_in_rmdir log)
  = Timeout.
Proof.
  apply (s5fs_rmdir_scan_stuck
           (fun s => exists l, s = example_s5fs_empty_d_in_rmdir l)).
  - discriminate.
  - right. left. reflexivity.
  - intros s [l ->]. right. eexists _, _. split.
    + apply readdir_second_entry_again_empty_d.
    + eauto.
  - eauto.
Qed.

(** Runs [s5fs_rmdir] of [d] up to its loop and through the first round
    of it, which leaves the entry [..] in hand. *)
Ltac rmdir_into_loop fuel :=
  unfold s5fs_rmdir;
  eval_if; do 3 kstep; eval_if; do 2 kstep; eval_if; kstep;
  apply kbind_Timeout; cbv beta iota delta [fst snd];
  destruct fuel as [| fuel]; [reflexivity |];
  change (s5fs_rmdir_scan (S fuel) 1 2 32 ?e)
    with (r <- s5fs_readdir 2 32 e;;
          s5fs_rmdir_scan fuel 1 2 32 (snd r))%kern;
  kstep; cbv beta iota delta [fst snd].

(** C4 fails on the code.  [s5fs_rmdir] of the directory [d] of the
    example, which holds the file [f] next to [.] and [..], does not fail:
    it does not return at all, however long it runs.  Its loop reads the
    first entry, then the second one over and over, since the offset it
    reads at never moves.  The same happens when [d] holds nothing but [.]
    and [..]: an empty directory is not removed either. *)
Theorem s5fs_rmdir_never_returns (fuel : nat) :
  s5fs_rmdir fuel example_junk 1 "d" 1 (example_s5fs []) = Timeout
  /\ s5fs_rmdir fuel example_junk 1 "d" 1 (example_s5fs_empty_d []) = Timeout.
Proof.
  split.
  - rmdir_into_loop fuel.
    apply (rmdir_scan_example fuel
             [ev_lock 1; ev_lock 2; ev_unlock 2; ev_lock 2; ev_unlock 2]).
  - rmdir_into_loop fuel.
    apply (rmdir_scan_example_empty_d fuel
             [ev_lock 1; ev_lock 2; ev_unlock 2; ev_lock 2; ev_unlock 2]).
Qed.

(** * More of the code

    ** [get_empty_fd] and [do_open] *)

Section open_more.
Context {V : Type} `{!Vnode V, !Namev V, !StatH, !Errno, !FileH}.

Lemma get_empty_fd_from_lowest n fd tbl :
  0 <= fd ->
  (get_empty_fd_from n fd tbl = - EMFILE
   /\ forall i, (Z.to_nat fd <= i < Z.to_nat fd + n)%nat -> tbl !! i <> Some None)
  \/ (fd <= get_empty_fd_from n fd tbl < fd + Z.of_nat n
      /\ tbl !! Z.to_nat (get_empty_fd_from n fd tbl) = Some None
      /\ forall i, (Z.to_nat fd <= i < Z.to_nat (get_empty_fd_from n fd tbl))%nat ->
                   tbl !! i <> Some None).
Proof.
  revert fd. induction n as [| n IH]; intros fd Hfd; simpl.
  - left. split; [reflexivity | intros; lia].
  - assert (Hnext : Z.to_nat (fd + 1) = S (Z.to_nat fd)) by lia.
    destruct (tbl !! Z.to_nat fd) as [[a |] |] eqn:E.
    2:{ right. split; [lia |]. split; [assumption | intros; lia]. }
    all: destruct (IH (fd + 1)) as [[-> Hall] | (Hr & Hslot & Hall)]; [lia | ..];
      [ left; split; [reflexivity |]
      | right; split; [lia |]; split; [assumption |] ];
      intros i Hi; destruct (decide (i = Z.to_nat fd)) as [-> | Hne];
      try (rewrite E; discriminate); apply Hall; lia.
Qed.

(** X1: [get_empty_fd] returns the lowest empty slot of the descriptor
    table of the process: either [-EMFILE], and then none of the first
    [NFILES] slots is empty, or a descriptor in [0, NFILES) whose slot is
    empty while no slot below it is. *)
Theorem get_empty_fd_lowest (p : proc_t) :
  (get_empty_fd p = - EMFILE
   /\ forall i, (i < NFILES)%nat -> p_files p !! i <> Some None)
  \/ (0 <= get_empty_fd p < Z.of_nat NFILES
      /\ p_files p !! Z.to_nat (get_empty_fd p) = Some None
      /\ forall i, (i < Z.to_nat (get_empty_fd p))%nat ->
                   p_files p !! i <> Some None).
Proof.
  unfold get_empty_fd.
  destruct (get_empty_fd_from_lowest NFILES 0 (p_files p)) as [[E Hall] | (R & Sl & Hall)];
    [lia | left | right].
  - split; [assumption |]. intros i Hi. apply Hall. lia.
  - split; [lia |]. split; [assumption |]. intros i Hi. apply Hall. lia.
Qed.

Lemma get_empty_fd_free (p : proc_t) :
  get_empty_fd p <> - EMFILE ->
  0 <= get_empty_fd p < Z.of_nat NFILES
  /\ p_files p !! Z.to_nat (get_empty_fd p) = Some None.
Proof.
  intros Hne. destruct (get_empty_fd_lowest p) as [[E _] | (R & S & _)];
    [contradiction | now split].
Qed.

(** X2: once a file is stored in the slot [get_empty_fd] returned, the next
    [get_empty_fd] returns a greater descriptor, or [-EMFILE]. *)
Theorem get_empty_fd_after_store (p : proc_t) (a : nat) :
  get_empty_fd p <> - EMFILE ->
  let p' := set_p_files (<[Z.to_nat (get_empty_fd p) := Some a]> (p_files p)) p in
  get_empty_fd p' = - EMFILE \/ get_empty_fd p < get_empty_fd p'.
Proof.
  intros Hne p'.
  destruct (get_empty_fd_lowest p) as [[E _] | (R & Sl & Hall)];
    [contradiction |].
  destruct (get_empty_fd_lowest p') as [[E' _] | (R' & Sl' & _)];
    [now left | right].
  destruct (Z_lt_le_dec (get_empty_fd p) (get_empty_fd p')) as [Hlt | Hle];
    [assumption | exfalso].
  assert (Hp' : p_files p'
                = <[Z.to_nat (get_empty_fd p) := Some a]> (p_files p))
    by reflexivity.
  rewrite Hp' in Sl'.
  destruct (decide (Z.to_nat (get_empty_fd p') = Z.to_nat (get_empty_fd p)))
    as [Heq | Hneq].
  - rewrite Heq in Sl'. rewrite list_lookup_insert_eq in Sl'; [discriminate |].
    apply lookup_lt_Some in Sl. exact Sl.
  - rewrite list_lookup_insert_ne in Sl' by congruence.
    apply (Hall (Z.to_nat (get_empty_fd p'))); [lia | assumption].
Qed.


(** X3: [do_open] on success.  With an empty slot, an object left in the
    slab, access flags that are valid, a name that resolves to [vn], and
    not a directory asked for writing, [do_open] returns the lowest empty
    descriptor; the slot holds a new [file_t] (at an address no file had)
    with the mode of the flags, position 0, one reference and the vnode;
    the slab has one object less; below the file table only [open_namev]
    acted. *)
Theorem do_open_success (filename : string) (oflags : Z) (st : kstate V)
  (m : Z) (n : nat) (vn : nat) (v' : V) :
  get_empty_fd (curproc st) <> - EMFILE ->
  file_slab_free st = S n ->
  open_mode oflags = Some m ->
  open_namev filename oflags (vfs st) = (0, Some vn, v') ->
  S_ISDIR (vn_mode vn v')
  && has_flag (open_file_mode oflags m) FMODE_WRITE = false ->
  exists st',
    do_open filename oflags st = Ret (get_empty_fd (curproc st)) st'
    /\ 0 <= get_empty_fd (curproc st) < Z.of_nat NFILES
    /\ files st !! fresh (dom (files st)) = None
    /\ p_files (curproc st')
       = <[Z.to_nat (get_empty_fd (curproc st)) := Some (fresh (dom (files st)))]>
           (p_files (curproc st))
    /\ files st'
       = <[fresh (dom (files st)) :=
             mk_file (open_file_mode oflags m) 0 1 (Some vn)]>
           (files st)
    /\ file_slab_free st' = n
    /\ vfs st' = v'.
Proof.
  intros Hfd Hslab Hmode Hnamev Hdir.
  destruct (get_empty_fd_free _ Hfd) as [Hrange Hslot].
  set (fd := get_empty_fd (curproc st)) in *.
  set (a := fresh (dom (files st))).
  assert (Hfree : files st !! a = None) by (apply not_elem_of_dom, is_fresh).
  unfold do_open, kbind at 1, kget. fold fd.
  replace (fd =? - EMFILE) with false by lia.
  unfold kbind at 1, fget. simpl. rewrite Hslab.
  unfold kbind at 1, store_p_files, kmodify.
  change (with_curproc _ (with_file_slab_free _ (with_files _ st)))
    with (opened st a fd 0 n).
  rewrite Hmode.
  unfold kbind at 1. rewrite store_f_mode_opened.
  assert (Hresolve : forall m',
    S_ISDIR (vn_mode vn v') && has_flag m' FMODE_WRITE = false ->
    do_open_resolve filename oflags fd a (opened st a fd m' n)
    = Ret fd (with_files (alter (set_f_vnode (Some vn)) a)
                (with_vfs (fun _ => v') (opened st a fd m' n)))).
  { intros m' Hd. unfold do_open_resolve, kbind at 1, klift.
    change (vfs (opened st a fd m' n)) with (vfs st). rewrite Hnamev.
    simpl. unfold kbind at 1, kget. unfold kbind at 1.
    rewrite with_vfs_opened, file_mode_opened. simpl. rewrite Hd.
    reflexivity. }
  unfold kbind at 1. unfold open_file_mode in *.
  destruct (has_flag oflags O_APPEND) eqn:Happ.
  - unfold kbind at 1, kget. rewrite file_mode_opened, store_f_mode_opened.
    rewrite Hresolve by assumption.
    eexists. split; [reflexivity |]. simpl.
    rewrite alter_insert_eq. repeat split; try assumption; lia.
  - unfold kret at 1. rewrite Hresolve by assumption.
    eexists. split; [reflexivity |]. simpl.
    rewrite alter_insert_eq. repeat split; try assumption; lia.
Qed.


(** X4: the early failures of [do_open] leave the kernel state as it was:
    [-EMFILE] when the table has no empty slot, [-ENOMEM] when the slab
    has no [file_t] left, [-EINVAL] (after [do_close] of the new
    descriptor, as the design document describes it) when the access flags
    are not valid. *)
Theorem do_open_early_errors (filename : string) (oflags : Z) (st : kstate V) :
  (get_empty_fd (curproc st) = - EMFILE ->
   do_open filename oflags st = Ret (- EMFILE) st)
  /\ (get_empty_fd (curproc st) <> - EMFILE -> file_slab_free st = O ->
      do_open filename oflags st = Ret (- ENOMEM) st)
  /\ (get_empty_fd (curproc st) <> - EMFILE -> file_slab_free st <> O ->
      open_mode oflags = None ->
      do_open filename oflags st = Ret (- EINVAL) st).
Proof.
  split; [| split]; unfold do_open, kbind at 1, kget.
  - intros ->. now rewrite Z.eqb_refl.
  - intros Hfd Hslab.
    apply Z.eqb_neq in Hfd. rewrite Hfd.
    unfold kbind at 1, fget. simpl. now rewrite Hslab.
  - intros Hfd Hslab Hmode.
    destruct (get_empty_fd_free _ Hfd) as [Hrange Hslot].
    apply Z.eqb_neq in Hfd. rewrite Hfd.
    unfold kbind at 1, fget. simpl.
    destruct (file_slab_free st) as [| n] eqn:E; [contradiction |].
    unfold kbind at 1, store_p_files, kmodify. rewrite Hmode.
    change (with_curproc _ (with_file_slab_free _ (with_files _ st)))
      with (opened st (fresh (dom (files st))) (get_empty_fd (curproc st)) 0 n).
    unfold kbind. rewrite do_close_opened; try assumption; [reflexivity |].
    apply not_elem_of_dom, is_fresh.
Qed.


(** X5: the late failures of [do_open].  When [open_namev] fails, its
    status is returned; when the name is that of a directory and the mode
    has [FMODE_WRITE], [-EISDIR] is returned and the vnode is put back.
    Either way the slot and the [file_t] are released through [do_close]
    (as the design document describes it), so that only the layer below
    the file table may differ from the state before the call. *)
Theorem do_open_resolution_errors (filename : string) (oflags : Z)
  (st : kstate V) (m status : Z) (result : option nat) (v' : V) :
  get_empty_fd (curproc st) <> - EMFILE ->
  file_slab_free st <> O ->
  open_mode oflags = Some m ->
  open_namev filename oflags (vfs st) = (status, result, v') ->
  (status <> 0 ->
   do_open filename oflags st = Ret status (with_vfs (fun _ => v') st))
  /\ (status = 0 ->
      forall vn, result = Some vn ->
      S_ISDIR (vn_mode vn v')
      && has_flag (open_file_mode oflags m) FMODE_WRITE = true ->
      do_open filename oflags st
      = Ret (- EISDIR) (with_vfs (fun _ => vput vn v') st)).
Proof.
  intros Hfd Hslab Hmode Hnamev.
  destruct (get_empty_fd_free _ Hfd) as [Hrange Hslot].
  set (fd := get_empty_fd (curproc st)) in *.
  set (a := fresh (dom (files st))).
  assert (Hfree : files st !! a = None) by (apply not_elem_of_dom, is_fresh).
  destruct (file_slab_free st) as [| n] eqn:En; [contradiction |].
  assert (Hstart : do_open filename oflags st
            = do_open_resolve filename oflags fd a
                (opened st a fd (open_file_mode oflags m) n)).
  { unfold do_open, kbind at 1, kget. fold fd.
    replace (fd =? - EMFILE) with false by lia.
    unfold kbind at 1, fget. simpl. rewrite En.
    unfold kbind at 1, store_p_files, kmodify.
    change (with_curproc _ (with_file_slab_free _ (with_files _ st)))
      with (opened st a fd 0 n).
    rewrite Hmode. unfold kbind at 1. rewrite store_f_mode_opened.
    unfold kbind at 1, open_file_mode.
    destruct (has_flag oflags O_APPEND).
    - unfold kbind at 1, kget.
      now rewrite file_mode_opened, store_f_mode_opened.
    - reflexivity. }
  rewrite Hstart.
  split; [intros Hst | intros -> vn -> Hdir];
    unfold do_open_resolve, kbind at 1, klift;
    change (vfs (opened st a fd (open_file_mode oflags m) n)) with (vfs st);
    rewrite Hnamev, with_vfs_opened.
  - replace (truthy status) with true by (unfold truthy; lia).
    unfold kbind. rewrite do_close_opened by assumption.
    unfold store_p_files, kmodify, kret. f_equal.
    unfold with_curproc, set_p_files, with_vfs. simpl.
    rewrite list_insert_id by assumption.
    now destruct st as [[] ? ? ? ? ? ? ? ? ? ? ?].
  - change (truthy 0) with false. cbv beta iota.
    unfold kbind at 1, kget. unfold kbind at 1.
    rewrite file_mode_opened. simpl. rewrite Hdir.
    unfold kbind. rewrite do_close_opened by assumption.
    reflexivity.
Qed.



End open_more.

Lemma get_empty_fd_after_store_witness :
  get_empty_fd example_init = 1
  /\ get_empty_fd
       (set_p_files (<[1%nat := Some 4%nat]> (p_files example_init))
          example_init) = 2.
Proof.
  split; [reflexivity |].
  destruct (get_empty_fd_after_store example_init 4%nat) as [E | Hlt];
    [discriminate | discriminate E | reflexivity].
Defined.

Lemma do_open_success_witness :
  exists st',
    do_open "/etc/passwd" 0 example_kstate = Ret 1 st'
    /\ p_files (curproc st') !! 1%nat = Some (Some 4%nat)
    /\ files st' !! 4%nat = Some (mk_file 1 0 1 (Some 8%nat))
    /\ file_slab_free st' = 3%nat.
Proof.
  destruct (do_open_success "/etc/passwd" 0 example_kstate 1 3 8
              (flat_ref 1 8 example_vfs))
    as (st' & R & _ & _ & Hslots & Hfiles & Hslab & _);
    [discriminate | reflexivity | reflexivity | reflexivity | reflexivity |].
  exists st'. split; [exact R |].
  split; [rewrite Hslots; reflexivity |].
  split; [rewrite Hfiles; reflexivity | exact Hslab].
Defined.

Lemma do_open_early_errors_witness :
  do_open "/" 3 example_kstate = Ret (- EINVAL) example_kstate.
Proof.
  apply (do_open_early_errors "/" 3 example_kstate);
    [discriminate | discriminate | reflexivity].
Defined.

Lemma do_open_resolution_errors_witness :
  do_open "/" 1 example_kstate
  = Ret (- EISDIR)
      (with_vfs (fun _ => vput 7%nat (flat_ref 1 7 example_vfs))
         example_kstate).
Proof.
  destruct (do_open_resolution_errors "/" 1 example_kstate 2 0 (Some 7%nat)
              (flat_ref 1 7 example_vfs)) as [_ W];
    [discriminate | discriminate | reflexivity | reflexivity |].
  apply W; reflexivity.
Defined.

(** ** [do_mmap] and [do_munmap] *)

Section mmap_more.
Context {V : Type} `{!Vnode V, !Vmmap V, !Errno, !FileH, !Mman}.

Lemma mmap_accepts_checks addr len off flags :
  ~ mmap_rejects addr len off flags ->
  mmap_misaligned addr len off = false
  /\ mmap_addr_outside addr = false
  /\ mmap_bad_sharing flags = false.
Proof.
  rewrite mmap_rejects_checks.
  destruct (mmap_misaligned addr len off), (mmap_addr_outside addr),
    (mmap_bad_sharing flags); simpl; intros Hn; repeat split; congruence.
Qed.

Lemma fput_fget_same (st : kstate V) (fd : Z) (a : nat) (fl : file_t) :
  0 <= fd < Z.of_nat NFILES ->
  p_files (curproc st) !! Z.to_nat fd = Some (Some a) ->
  files st !! a = Some fl ->
  0 < f_refcount fl ->
  fget fd st = Ret (Some a) (fref (Some a) st)
  /\ file_mode a (fref (Some a) st) = f_mode fl
  /\ fput a (fref (Some a) st) = st.
Proof.
  intros Hfd Hslot Hfile Hrc. split; [| split].
  - unfold fget. replace (fd =? -1) with false by lia.
    replace ((fd <? 0) || (Z.of_nat NFILES <=? fd)) with false by lia.
    now rewrite Hslot.
  - unfold file_mode, fref. simpl. rewrite lookup_alter_eq, Hfile. reflexivity.
  - unfold fput, fref. simpl. rewrite lookup_alter_eq, Hfile. simpl.
    replace (f_refcount fl + 1 - 1 =? 0) with false by lia.
    unfold with_files. simpl. rewrite insert_alter_eq.
    replace (f_refcount fl + 1 - 1) with (f_refcount fl) by lia.
    rewrite insert_id; [now destruct st | now destruct fl].
Qed.

Lemma fput_fget_fresh (st : kstate V) (n : nat) :
  file_slab_free st = S n ->
  exists a s1,
    fget (-1) st = Ret (Some a) s1
    /\ file_mode a s1 = 0
    /\ fput a s1 = st.
Proof.
  intros Hslab. unfold fget. simpl. rewrite Hslab.
  set (a := fresh (dom (files st))).
  assert (Hfree : files st !! a = None) by (apply not_elem_of_dom, is_fresh).
  eexists _, _. split; [reflexivity |]. split.
  - unfold file_mode. simpl. now rewrite lookup_insert_eq.
  - unfold fput. simpl. rewrite lookup_insert_eq. simpl.
    unfold with_file_slab_free, with_files. simpl.
    rewrite delete_insert_eq, delete_id by assumption.
    rewrite <- Hslab. now destruct st.
Qed.

(** X6: [do_mmap] of a file, with arguments that pass the checks, over
    [fget] and [fput] as the design document describes them.  A descriptor
    other than -1 that is negative, not below [NFILES] or not open gives
    [-EBADF]; an open file whose mode does not allow the mapping gives
    [-EACCES], and the reference [fget] took is given back.  For the
    descriptor -1 [fget] hands out a new [file_t], whose mode allows
    nothing: the result is [-EACCES] and the [file_t] is released, or
    [-EBADF] when there is none to hand out.  In every case nothing is
    stored through [ret] and the kernel state is as before the call. *)
Theorem do_mmap_file_errors (junk : option vmarea_t)
  (addr len prot flags fd off : Z) (st : kstate V) :
  ~ mmap_rejects addr len off flags ->
  has_flag flags MAP_ANON = false ->
  (fd <> -1 ->
   (fd < 0 \/ Z.of_nat NFILES <= fd
    \/ forall a, p_files (curproc st) !! Z.to_nat fd <> Some (Some a)) ->
   do_mmap junk addr len prot flags fd off st = Ret (- EBADF, None) st)
  /\ (forall a fl,
        0 <= fd < Z.of_nat NFILES ->
        p_files (curproc st) !! Z.to_nat fd = Some (Some a) ->
        files st !! a = Some fl ->
        0 < f_refcount fl ->
        mmap_file_denied (f_mode fl) prot flags = true ->
        do_mmap junk addr len prot flags fd off st = Ret (- EACCES, None) st)
  /\ (fd = -1 ->
      do_mmap junk addr len prot flags fd off st
      = Ret (match file_slab_free st with
             | O => - EBADF
             | S _ => - EACCES
             end, None) st).
Proof.
  intros Hok Hanon.
  destruct (mmap_accepts_checks _ _ _ _ Hok) as (C1 & C2 & C3).
  unfold do_mmap. rewrite C1, C2, C3, Hanon. split; [| split].
  - intros Hfd Hbad. unfold kbind, fget.
    replace (fd =? -1) with false by lia.
    destruct ((fd <? 0) || (Z.of_nat NFILES <=? fd)) eqn:Hr; [reflexivity |].
    destruct Hbad as [Hneg | [Hbig | Hnone]]; [lia | lia |].
    destruct (p_files (curproc st) !! Z.to_nat fd) as [[a |] |] eqn:Hslot;
      [now destruct (Hnone a) | reflexivity | reflexivity].
  - intros a fl Hr Hslot Hfile Hrc Hden.
    destruct (fput_fget_same st fd a fl) as (G & M & P);
      [lia | assumption ..|].
    unfold kbind at 1. rewrite G.
    unfold kbind at 1, kget. rewrite M, Hden.
    unfold kbind, kmodify, kret. now rewrite P.
  - intros ->. destruct (file_slab_free st) as [| n] eqn:Hslab.
    + unfold kbind, fget. simpl. now rewrite Hslab.
    + destruct (fput_fget_fresh st n Hslab) as (a & s1 & G & M & P).
      unfold kbind at 1. rewrite G.
      unfold kbind at 1, kget. rewrite M.
      assert (Hden : mmap_file_denied 0 prot flags = true) by reflexivity.
      rewrite Hden. unfold kbind, kmodify, kret. now rewrite P.
Qed.

(** X7: an anonymous [do_mmap], with arguments that pass the checks, never
    looks at [fd]: the status is that of [vmmap_map] for [len / PAGE_SIZE]
    pages at the page of [addr].  The pointer [new_area] is tested and
    followed without having been given a value: it is what [vmmap_map]
    stored through it, and when [vmmap_map] stored nothing, as a call that
    fails may, it is whatever the local held before.  When it is not null,
    [tlb_flush_range] is called on the [vma_start] found behind it,
    whatever the status, and on status 0 [*ret] is that [vma_start] as it
    stands, not converted; when it is null and the status is not 0, the
    status is returned and nothing else is done. *)
Theorem do_mmap_anon (junk : option vmarea_t)
  (addr len prot flags fd off : Z) (st : kstate V) :
  ~ mmap_rejects addr len off flags ->
  has_flag flags MAP_ANON = true ->
  forall status stored st',
    vmmap_map None (ADDR_TO_PN addr) (len / PAGE_SIZE) prot flags off
      VMMAP_DIR_HILO st = (status, stored, st') ->
    (forall a, default junk stored = Some a ->
       do_mmap junk addr len prot flags fd off st
       = Ret (status, if truthy status then None else Some (vma_start a))
           (with_mmu_log
              (fun l => l ++ [ev_tlb_flush_range (vma_start a)
                                (len / PAGE_SIZE)]) st'))
    /\ (default junk stored = None -> status <> 0 ->
        do_mmap junk addr len prot flags fd off st = Ret (status, None) st').
Proof.
  intros Hok Hanon status stored st' Hmap.
  destruct (mmap_accepts_checks _ _ _ _ Hok) as (C1 & C2 & C3).
  unfold do_mmap. rewrite C1, C2, C3, Hanon.
  unfold do_mmap_map, kbind, kget, klift. rewrite Hmap. split.
  - intros a ->. unfold tlb_flush_range, kmodify, kret.
    now destruct (truthy status).
  - intros -> Hst. replace (truthy status) with true by (unfold truthy; lia).
    reflexivity.
Qed.

(** X8: the status of [do_munmap].  It is [-EINVAL], with the state
    untouched, when [addr] or [len] is not page aligned, [len] is 0 or
    [addr] lies outside [USER_MEM_LOW, USER_MEM_HIGH); the end of the range
    is not looked at.  In every other case it is 0, and apart from the
    areas of the process and their memory objects the call only logs one
    [tlb_flush_range] of [len / PAGE_SIZE] pages at [(uint32_t) addr]. *)
Theorem do_munmap_status (addr len : Z) (st : kstate V) :
  (addr mod PAGE_SIZE <> 0 \/ len mod PAGE_SIZE <> 0 \/ len = 0
   \/ addr < USER_MEM_LOW \/ USER_MEM_HIGH <= addr ->
   do_munmap addr len st = Ret (- EINVAL) st)
  /\ (addr mod PAGE_SIZE = 0 -> len mod PAGE_SIZE = 0 -> len <> 0 ->
      USER_MEM_LOW <= addr < USER_MEM_HIGH ->
      exists st',
        do_munmap addr len st = Ret 0 st'
        /\ mmu_log st'
           = mmu_log st ++ [ev_tlb_flush_range (uint32 addr) (len / PAGE_SIZE)]
        /\ files st' = files st /\ procs st' = procs st
        /\ p_files (curproc st') = p_files (curproc st)
        /\ vfs st' = vfs st).
Proof.
  unfold do_munmap, PAGE_ALIGNED, truthy. split.
  - intros Hbad.
    destruct (negb (addr mod PAGE_SIZE =? 0) || negb (len mod PAGE_SIZE =? 0)
              || negb (negb (len =? 0))) eqn:E1; [reflexivity |].
    replace ((addr <? USER_MEM_LOW) || (USER_MEM_HIGH <=? addr)) with true
      by lia.
    reflexivity.
  - intros Ha Hl Hlen Hrange.
    replace (negb (addr mod PAGE_SIZE =? 0) || negb (len mod PAGE_SIZE =? 0)
             || negb (negb (len =? 0))) with false by lia.
    replace ((addr <? USER_MEM_LOW) || (USER_MEM_HIGH <=? addr)) with false
      by lia.
    unfold kbind, vmmap_remove, tlb_flush_range, kmodify, kret.
    destruct (vmmap_remove_areas _ _ _ _) as [m1 o1].
    eexists. split; [reflexivity |]. repeat split.
Qed.



End mmap_more.

Lemma do_mmap_file_errors_witness :
  do_mmap None 0 4096 2 1 0 0 example_kstate
  = Ret (- EACCES, None) example_kstate.
Proof.
  destruct (do_mmap_file_errors None 0 4096 2 1 0 0 example_kstate)
    as (_ & W & _); [| reflexivity |].
  { unfold mmap_rejects. vm_compute. intuition congruence. }
  apply (W 3%nat (mk_file 1 0 1 (Some 7%nat)));
    [split; [discriminate | reflexivity] | reflexivity ..].
Defined.

(** [mmap(USER_MEM_HIGH - PAGE_SIZE, 2 * PAGE_SIZE, PROT_READ,
    MAP_PRIVATE | MAP_ANON, -1, 0)] with a stale pointer in [new_area]:
    [vmmap_map] turns the range down and stores nothing, and the flush is
    of the two pages at what the stale pointer leads to. *)
Lemma do_mmap_anon_witness :
  do_mmap (Some example_junk_area) (0xc0000000 - 4096) 8192 1 10 (-1) 0
    example_kstate
  = Ret (- EINVAL, None)
      (with_mmu_log (fun l => l ++ [ev_tlb_flush_range 0xdecaf 2])
         example_kstate).
Proof.
  destruct (do_mmap_anon (Some example_junk_area) (0xc0000000 - 4096) 8192 1
              10 (-1) 0 example_kstate) with (status := - EINVAL)
    (stored := @None (option vmarea_t)) (st' := example_kstate) as [W _];
    [| reflexivity | reflexivity |].
  { unfold mmap_rejects. vm_compute. intuition congruence. }
  exact (W example_junk_area eq_refl).
Defined.

Lemma do_munmap_status_witness :
  exists st',
    do_munmap 0xbffff000 0x10000000 example_kstate = Ret 0 st'
    /\ mmu_log st' = [ev_tlb_flush_range 0xbffff000 0x10000].
Proof.
  destruct (proj2 (do_munmap_status 0xbffff000 0x10000000 example_kstate))
    as (st' & R & Hlog & _);
    [reflexivity | reflexivity | discriminate
    | split; [discriminate | reflexivity] |].
  exists st'. split; [exact R | exact Hlog].
Defined.

Lemma do_munmap_keeps_user_areas_witness :
  exists st',
    do_munmap 0x400000 0x4000 example_kstate = Ret 0 st'
    /\ p_vmmap (curproc st') = [example_area].
Proof.
  assert (E : exists st', do_munmap 0x400000 0x4000 example_kstate = Ret 0 st')
    by (vm_compute; eexists; reflexivity).
  destruct E as [st' E]. exists st'. split; [exact E |].
  apply (do_munmap_keeps_user_areas 0x400000 0x4000 example_kstate st' 0);
    [discriminate | discriminate | | discriminate | reflexivity | exact E].
  repeat constructor; discriminate.
Defined.

(** ** [fork_setup_stack] and [do_fork] *)

Section fork_more.
Context {V : Type} `{!Vnode V, !Errno, !FileH, !Mman, !KthreadH}.

Lemma foldl_fref_state (l : list (option nat)) (k : kstate V) :
  foldl (fun k f => fref f k) k l = with_files (fref_all l) k.
Proof.
  revert k. induction l as [| f l IH]; intros k; simpl.
  - now destruct k.
  - rewrite IH. destruct f, k; reflexivity.
Qed.

Lemma fref_only_files (f : option nat) (k : kstate V) :
  fref f k = with_files (fun _ => files (fref f k)) k.
Proof. destruct f, k; reflexivity. Qed.

Lemma foldl_fref_only_files (l : list (option nat)) (k : kstate V) :
  foldl (fun k f => fref f k) k l
  = with_files (fun _ => files (foldl (fun k f => fref f k) k l)) k.
Proof.
  revert k. induction l as [| f l IH]; intros k; simpl.
  - now destruct k.
  - rewrite IH at 1. rewrite (fref_only_files f k) at 1. reflexivity.
Qed.

Lemma fork_fref_files_only_files (tbl : list (option nat)) (k : kstate V) :
  fork_fref_files tbl k
  = with_files (fun _ => files (fork_fref_files tbl k)) k.
Proof. apply foldl_fref_only_files. Qed.

Lemma do_fork_runs fuel regs (k : kstate V) th v :
  threads k !! curthr k = Some th ->
  p_cwd (curproc k) = Some v ->
  exists k',
    do_fork fuel regs k = Ret 0 k'
    /\ curproc k' = curproc k
    /\ curthr k' = curthr k
    /\ procs k' = <[fresh_pid k := forked_proc k (fresh (dom (threads k)))]> (procs k)
    /\ threads k' = <[fresh (dom (threads k)) := forked_thread k regs]> (threads k)
    /\ runq k' = runq k ++ [fresh (dom (threads k))]
    /\ mmobjs k' = foldl (fun o a => mmobj_ref (vma_obj a) o) (mmobjs k) (p_vmmap (curproc k))
    /\ mmu_log k' = mmu_log k ++ [ev_pt_unmap_range (p_pagedir (curproc k)) USER_MEM_LOW USER_MEM_HIGH; ev_tlb_flush_all]
    /\ vfs k' = vref v (vfs k)
    /\ files k' = fref_all (take NFILES (p_files (curproc k))) (files k)
    /\ file_slab_free k' = file_slab_free k.
Proof.
  intros Hthr Hcwd.
  rewrite do_fork_fuel_irrelevant.
  unfold do_fork, proc_create, pt_create_pagedir, vmmap_clone, new_proc_update,
    new_thr_update, kbind, kget, kmodify, kret. simpl.
  rewrite Hcwd. simpl.
  rewrite fork_shadow_objects_noop. simpl.
  unfold kthread_clone, fork_fref_files. rewrite foldl_fref_state. simpl.
  rewrite Hthr. simpl.
  eexists. split; [reflexivity |]. simpl.
  rewrite !alter_insert_eq. unfold forked_proc, forked_thread. simpl.
  rewrite Hcwd. repeat split.
Qed.

Lemma uint32_plus4_plus8 (x : Z) : uint32 (x + 4) <> uint32 (x + 8).
Proof.
  unfold uint32. change (2 ^ 32) with 4294967296.
  pose proof (Z.div_mod (x + 4) 4294967296).
  pose proof (Z.div_mod (x + 8) 4294967296).
  lia.
Qed.

(** X10: the frame [fork_setup_stack] builds.  The word above the (unused)
    return address points at the copy of the registers, which starts eight
    bytes above the returned stack pointer.  For a stack that does not wrap
    around the address space, the frame starts inside the stack, the copy
    of the registers ends four bytes below its top, and nothing is written
    outside the bytes from [esp + 4] to the end of that copy. *)
Theorem fork_setup_stack_frame (regs : regs_t) (kstack : Z)
  (mem : gmap Z stack_cell) (esp : Z) (mem' : gmap Z stack_cell) :
  fork_setup_stack regs kstack mem = (esp, mem') ->
  mem' !! uint32 (esp + 4) = Some (cell_word (uint32 (esp + 8)))
  /\ mem' !! uint32 (esp + 8) = Some (cell_regs regs)
  /\ (0 <= kstack -> kstack + DEFAULT_STACK_SIZE < 2 ^ 32 ->
      0 < sizeof_regs_t -> sizeof_regs_t + 12 <= DEFAULT_STACK_SIZE ->
      kstack <= esp
      /\ esp + 8 + sizeof_regs_t + 4 = kstack + DEFAULT_STACK_SIZE
      /\ forall x, x < esp + 4 \/ esp + 8 + sizeof_regs_t <= x ->
                   mem' !! x = mem !! x).
Proof.
  unfold fork_setup_stack. intros E. inversion E as [[Hesp Hmem]]. clear E.
  rewrite Hesp. pose proof (uint32_plus4_plus8 esp) as Hne.
  split; [| split].
  - rewrite lookup_insert_ne by congruence. apply lookup_insert_eq.
  - apply lookup_insert_eq.
  - intros Hk Htop Hsz Hfit.
    assert (Hval : esp = kstack + DEFAULT_STACK_SIZE - (sizeof_regs_t + 12)).
    { subst esp. unfold uint32.
      rewrite (Z.mod_small kstack) by lia.
      rewrite (Z.mod_small (kstack + DEFAULT_STACK_SIZE)) by lia.
      rewrite (Z.mod_small (sizeof_regs_t + 12)) by lia.
      rewrite Z.mod_small by lia. lia. }
    split; [lia |]. split; [lia |].
    intros x Hx.
    assert (H4 : uint32 (esp + 4) = esp + 4)
      by (unfold uint32; apply Z.mod_small; lia).
    assert (H8 : uint32 (esp + 8) = esp + 8)
      by (unfold uint32; apply Z.mod_small; lia).
    rewrite H4, H8.
    rewrite lookup_insert_ne by lia.
    now rewrite lookup_insert_ne by lia.
Qed.

Lemma first_user_eax_forked (k : kstate V) (regs : regs_t) :
  first_user_eax (forked_thread k regs) = Some (r_eax regs).
Proof.
  unfold forked_thread.
  destruct (fork_setup_stack regs (next_kstack k) ∅) as [esp mem] eqn:E.
  destruct (fork_setup_stack_frame _ _ _ _ _ E) as (H4 & H8 & _).
  unfold first_user_eax. simpl. now rewrite H4, H8.
Qed.

Lemma mmobj_refs_keep_shape (m : list vmarea_t) (objs : gmap nat mmobj_t)
  (a : nat) :
  (fun o => (mmo_kind o, mmo_shadowed o))
    <$> foldl (fun o v => mmobj_ref (vma_obj v) o) objs m !! a
  = (fun o => (mmo_kind o, mmo_shadowed o)) <$> objs !! a.
Proof.
  revert objs. induction m as [| v m IH]; intros objs; simpl; [reflexivity |].
  rewrite IH. unfold mmobj_ref. destruct (vma_obj v) as [b |]; [| reflexivity].
  destruct (decide (b = a)) as [-> | Hne].
  - rewrite lookup_alter_eq. now destruct (objs !! a).
  - now rewrite lookup_alter_ne.
Qed.

(** X11: [do_fork], called by a process with a working directory, returns
    leaving the caller the current process, on its thread; the memory
    objects keep their kind and what they shadow (only reference counts
    move); the user range of the caller's page table is unmapped and the
    TLB flushed, once each. *)
Theorem do_fork_parent_untouched (fuel : nat) (regs : regs_t) (k : kstate V)
  (th : kthread_t) (v : nat) :
  threads k !! curthr k = Some th ->
  p_cwd (curproc k) = Some v ->
  exists k',
    do_fork fuel regs k = Ret 0 k'
    /\ curproc k' = curproc k
    /\ curthr k' = curthr k
    /\ (forall a, (fun o => (mmo_kind o, mmo_shadowed o)) <$> mmobjs k' !! a
                  = (fun o => (mmo_kind o, mmo_shadowed o)) <$> mmobjs k !! a)
    /\ mmu_log k'
       = mmu_log k ++ [ev_pt_unmap_range (p_pagedir (curproc k))
                         USER_MEM_LOW USER_MEM_HIGH; ev_tlb_flush_all].
Proof.
  intros Hthr Hcwd.
  destruct (do_fork_runs fuel regs k th v Hthr Hcwd)
    as (k' & R & Hcur & Hct & _ & _ & _ & Hobjs & Hlog & _).
  exists k'. repeat split; try assumption.
  intros a. rewrite Hobjs. apply mmobj_refs_keep_shape.
Qed.

(** X12: the descriptors [do_fork] hands on.  With every slot of the
    caller's table open and a working directory, the slots of the new
    process are those of the caller, its name, status and state are the
    caller's, each open file has gained one reference for each slot that
    holds it, and the vnode of the working directory has gained one.
    (The [memcpy] of the table is counted for its [NFILES] slots; what it
    writes behind them is not part of this statement.) *)
Theorem do_fork_child (fuel : nat) (regs : regs_t) (k : kstate V)
  (th : kthread_t) (v : nat) :
  threads k !! curthr k = Some th ->
  p_cwd (curproc k) = Some v ->
  length (p_files (curproc k)) = NFILES ->
  Forall (fun f => exists a, f = Some a) (p_files (curproc k)) ->
  exists k' child,
    do_fork fuel regs k = Ret 0 k'
    /\ procs k' !! fresh_pid k = Some child
    /\ p_comm child = p_comm (curproc k)
    /\ p_status child = p_status (curproc k)
    /\ p_state child = p_state (curproc k)
    /\ p_files child = p_files (curproc k)
    /\ files k' = fref_all (p_files (curproc k)) (files k)
    /\ vfs k' = vref v (vfs k).
Proof.
  intros Hthr Hcwd Hlen _.
  destruct (do_fork_runs fuel regs k th v Hthr Hcwd)
    as (k' & R & _ & _ & Hprocs & _ & _ & _ & _ & Hvfs & Hfiles & _).
  exists k', (forked_proc k (fresh (dom (threads k)))).
  split; [assumption |].
  split; [rewrite Hprocs; apply lookup_insert_eq |].
  rewrite <- Hlen, firstn_all in Hfiles.
  repeat split; assumption.
Qed.

(** X13: the thread [do_fork] makes.  It is a new thread, the only one of
    the new process and the last of the run queue; it runs on a new kernel
    stack of [DEFAULT_STACK_SIZE] bytes, in the page directory of the new
    process, from [userland_entry], and the registers it enters user mode
    with have the caller's [eax]. *)
Theorem do_fork_thread (fuel : nat) (regs : regs_t) (k : kstate V)
  (th : kthread_t) (v : nat) :
  threads k !! curthr k = Some th ->
  p_cwd (curproc k) = Some v ->
  exists k' child thr t,
    do_fork fuel regs k = Ret 0 k'
    /\ threads k !! t = None
    /\ threads k' = <[t := thr]> (threads k)
    /\ runq k' = runq k ++ [t]
    /\ procs k' !! fresh_pid k = Some child
    /\ p_threads child = [t]
    /\ kt_proc thr = fresh_pid k
    /\ kt_kstack thr = next_kstack k
    /\ c_eip (kt_ctx thr) = userland_entry
    /\ c_pdptr (kt_ctx thr) = p_pagedir child
    /\ c_kstacksz (kt_ctx thr) = DEFAULT_STACK_SIZE
    /\ first_user_eax thr = Some (r_eax regs).
Proof.
  intros Hthr Hcwd.
  destruct (do_fork_runs fuel regs k th v Hthr Hcwd)
    as (k' & R & _ & _ & Hprocs & Hthreads & Hrunq & _).
  exists k', (forked_proc k (fresh (dom (threads k)))),
    (forked_thread k regs), (fresh (dom (threads k))).
  split; [assumption |].
  split; [apply not_elem_of_dom, is_fresh |].
  split; [assumption |]. split; [assumption |].
  split; [rewrite Hprocs; apply lookup_insert_eq |].
  split; [reflexivity |].
  pose proof (first_user_eax_forked k regs) as Heax.
  unfold forked_thread in *.
  destruct (fork_setup_stack regs (next_kstack k) ∅) as [esp mem].
  repeat split. exact Heax.
Qed.

End fork_more.

Lemma fork_setup_stack_frame_witness :
  exists esp mem',
    fork_setup_stack example_regs 0xc0400000 ∅ = (esp, mem')
    /\ mem' !! uint32 (esp + 8) = Some (cell_regs example_regs)
    /\ esp + 8 + sizeof_regs_t + 4 = 0xc0400000 + DEFAULT_STACK_SIZE
    /\ mem' !! esp = None.
Proof.
  destruct (fork_setup_stack example_regs 0xc0400000 ∅) as [esp mem'] eqn:E.
  destruct (fork_setup_stack_frame example_regs 0xc0400000 ∅ esp mem' E)
    as (_ & Hregs & Hfit).
  destruct Hfit as (_ & Htop & Hrest);
    [discriminate | reflexivity | reflexivity | discriminate |].
  exists esp, mem'. split; [reflexivity |]. split; [exact Hregs |].
  split; [exact Htop |].
  rewrite Hrest; [reflexivity | left; lia].
Defined.

Lemma do_fork_parent_untouched_witness :
  exists k',
    do_fork 0 example_regs example_fork_kstate = Ret 0 k'
    /\ curproc k' = curproc example_fork_kstate.
Proof.
  destruct (do_fork_parent_untouched 0 example_regs example_fork_kstate
              (example_thread 1 0xc0300000) 7)
    as (k' & R & Hcur & _); [reflexivity | reflexivity |].
  exists k'. split; [exact R | exact Hcur].
Defined.

Lemma do_fork_child_witness :
  exists k' child,
    do_fork 0 example_regs example_fork_kstate = Ret 0 k'
    /\ procs k' !! fresh_pid example_fork_kstate = Some child
    /\ p_files child = replicate 32 (Some 3%nat)
    /\ f_refcount <$> files k' !! 3%nat = Some 64.
Proof.
  destruct (do_fork_child 0 example_regs example_fork_kstate
              (example_thread 1 0xc0300000) 7)
    as (k' & child & R & Hproc & _ & _ & _ & Hslots & Hfiles & _);
    [reflexivity | reflexivity | reflexivity | |].
  { repeat constructor; eexists; reflexivity. }
  exists k', child. split; [exact R |]. split; [exact Hproc |].
  split; [exact Hslots |]. rewrite Hfiles. vm_compute. reflexivity.
Defined.

Lemma do_fork_thread_witness :
  exists k' thr t,
    do_fork 0 example_regs example_fork_kstate = Ret 0 k'
    /\ threads k' !! t = Some thr
    /\ first_user_eax thr = Some 7.
Proof.
  destruct (do_fork_thread 0 example_regs example_fork_kstate
              (example_thread 1 0xc0300000) 7)
    as (k' & child & thr & t & R & _ & Hthreads & _ & _ & _ & _ & _ & _ & _
        & _ & Heax); [reflexivity | reflexivity |].
  exists k', thr, t. split; [exact R |].
  split; [rewrite Hthreads; apply lookup_insert_eq | exact Heax].
Defined.


(** ** The mutexes of [s5fs.c]

    A small logic of the held mutexes: [triple P m Q] with one rule for each
    action of the monad and each call the entry points make. *)

Section mutex_logic.
Context {V : Type}.
Context `{!Vnode V, !Kmutex V, !S5Subr V, !Blockdev V, !MutexDiscipline V}.
Context `{!Errno, !StatH, !Mman, !S5fsH}.

Lemma triple_bind {A B} P (m : kern V A) Q (k : A -> kern V B) R :
  triple P m Q -> (forall a, triple (Q a) (k a) R) -> triple P (kbind m k) R.
Proof.
  intros Hm Hk s HP. unfold kbind. specialize (Hm s HP).
  destruct (m s) as [a s' | |]; [| exact I ..]. now apply Hk.
Qed.

Lemma triple_ret {A} (P : gset nat -> Prop) (a : A) (R : A -> gset nat -> Prop) :
  (forall h, P h -> R a h) -> triple P (kret a) R.
Proof. intros HR s HP. now apply HR. Qed.

Lemma triple_panic {A} P why (R : A -> gset nat -> Prop) :
  triple P (kpanic why) R.
Proof. intros s HP. exact I. Qed.

Lemma triple_lock P vn :
  triple P (lock vn)
    (fun _ h => exists h0, P h0 /\ (vn ∉ h0) /\ h = {[vn]} ∪ h0).
Proof.
  intros s HP. unfold lock.
  destruct (kmutex_lock vn s) as [s' |] eqn:E; [| exact I].
  apply held_lock in E as [Hn ->]. eauto.
Qed.

Lemma triple_unlock P vn :
  triple P (unlock vn) (fun _ h => exists h0, P h0 /\ h = h0 ∖ {[vn]}).
Proof.
  intros s HP. unfold unlock, kmodify. rewrite held_unlock. eauto.
Qed.

Lemma triple_klift {A} P (f : V -> A * V) :
  (forall s, held (f s).2 = held s) -> triple P (klift f) (fun _ => P).
Proof.
  intros Hf s HP. unfold klift. specialize (Hf s).
  destruct (f s) as [a s']. simpl in Hf. now rewrite Hf.
Qed.

Lemma triple_kget {A} P (f : V -> A) : triple P (kget f) (fun _ => P).
Proof. intros s HP. exact HP. Qed.

Lemma triple_vput P vn : triple P (kmodify (vput vn)) (fun _ => P).
Proof. intros s HP. unfold kmodify. now rewrite held_vput. Qed.

Lemma triple_KASSERT P b why : triple P (KASSERT (S:=V) b why) (fun _ => P).
Proof. intros s HP. now destruct b. Qed.

Lemma triple_conseq {A} P (m : kern V A) (Q R : A -> gset nat -> Prop) :
  triple P m Q -> (forall a h, Q a h -> R a h) -> triple P m R.
Proof.
  intros Hm HQ s HP. specialize (Hm s HP).
  destruct (m s); [now apply HQ | exact I ..].
Qed.

Lemma triple_ret_keep {A} (P : gset nat -> Prop) (a : A) :
  triple P (kret a) (fun _ => P).
Proof. intros s HP. exact HP. Qed.

Lemma triple_keeps_held {A} (m : kern V A) (s : V) :
  triple (eq (held s)) m (fun _ h => h = held s) -> keeps_held m s.
Proof.
  intros T. unfold keeps_held. specialize (T s eq_refl).
  now destruct (m s).
Qed.

Lemma triple_s5fs_readdir P vnode offset d :
  triple P (s5fs_readdir vnode offset d)
    (fun _ h => exists h0, P h0 /\ (vnode ∉ h0) /\ h = h0).
Proof.
  unfold s5fs_readdir.
  eapply triple_bind; [apply triple_lock | intros ?].
  eapply triple_bind.
  { apply triple_klift. intros s.
    pose proof (held_read_file vnode offset d sizeof_dirent_t s) as Hr.
    now destruct (s5_read_file vnode offset d sizeof_dirent_t s) as [[? ?] ?]. }
  intros r.
  eapply triple_bind; [apply triple_unlock | intros ?].
  apply triple_ret. intros h (h1 & (h0 & HP & Hn & ->) & ->).
  exists h0. split; [assumption |]. split; [assumption |].
  apply set_eq. intros x. rewrite elem_of_difference, elem_of_union,
    elem_of_singleton. split; [tauto |]. intros Hx. split; [tauto |].
  now intros ->.
Qed.

Lemma triple_s5fs_rmdir_scan fuel P parent vn offset entry :
  triple P (s5fs_rmdir_scan fuel parent vn offset entry)
    (fun found h =>
       match found with
       | Some _ => exists h0, P h0 /\ h = h0 ∖ {[parent]}
       | None => P h
       end).
Proof.
  revert entry.
  induction fuel as [| fuel IH]; intros entry; simpl;
    destruct (truthy offset);
    try (apply triple_ret; intros; assumption);
    try (intros s HP; exact I).
  assert (Hstep : triple P
            (r <- s5fs_readdir vn offset entry;;
             s5fs_rmdir_scan fuel parent vn offset r.2)%kern
            (fun found h =>
               match found with
               | Some _ => exists h0, P h0 /\ h = h0 ∖ {[parent]}
               | None => P h
               end)).
  { eapply triple_bind; [apply triple_s5fs_readdir | intros r].
    intros s (h0 & HP & _ & E). apply IH. now rewrite E. }
  destruct (_ || _); [exact Hstep |].
  destruct (negb _); [| exact Hstep].
  eapply triple_bind; [apply triple_vput | intros ?].
  eapply triple_bind; [apply triple_unlock | intros ?].
  apply triple_ret. intros h Hh. exact Hh.
Qed.

End mutex_logic.

(** One step of a sequence: the rule of the first action, then on with the
    rest. *)
Ltac triple_subr :=
  apply triple_klift; intros;
  first
    [ apply held_vget | apply held_seek | apply held_alloc_inode
    | apply held_link | apply held_find_dirent | apply held_remove_dirent
    | apply held_write_block
    | match goal with
      | |- context [read_block ?a ?b ?c ?d ?s] =>
          let H := fresh in
          pose proof (held_read_block a b c d s) as H;
          destruct (read_block a b c d s) as [[? ?] ?]; exact H
      end ].

Ltac triple_head :=
  first
    [ apply triple_lock
    | apply triple_unlock
    | apply triple_s5fs_readdir
    | apply triple_s5fs_rmdir_scan
    | apply triple_kget
    | apply triple_vput
    | apply triple_KASSERT
    | triple_subr
    | repeat match goal with
             | |- triple _ (if ?c then _ else _) _ => destruct c
             end;
      first [apply triple_ret_keep | apply triple_panic | triple_subr] ].

Ltac triple_leaf :=
  first
    [ apply triple_panic
    | apply triple_ret; intros ? ?;
      repeat match goal with
             | H : exists _, _ |- _ => destruct H
             | H : _ /\ _ |- _ => destruct H
             end;
      simplify_eq; set_solver ].

Ltac triple_go :=
  repeat first
    [ triple_leaf
    | eapply triple_bind; [triple_head | intros ?]
    | match goal with
      | |- triple _ (if ?c then _ else _) _ => destruct c
      | |- triple _ (match ?c with _ => _ end) _ => destruct c
      end ].

#[local] Set Warnings "-clear-no-such-hyp".

Section mutex_balance.
Context {V : Type}.
Context `{!Vnode V, !Kmutex V, !S5Subr V, !Blockdev V, !MutexDiscipline V}.
Context `{!Errno, !StatH, !Mman, !S5fsH}.

(** X14: the name-space entry points of [s5fs.c], [s5fs_create],
    [s5fs_mknod], [s5fs_lookup], [s5fs_link], [s5fs_unlink], [s5fs_mkdir]
    and [s5fs_rmdir], release every mutex they take: on every return, with
    whatever status, the vnode mutexes that are held are those held at the
    call, as long as the subroutines below leave the mutexes alone. *)
Theorem s5fs_namespace_ops_release_mutexes (s : V) (dir src : nat)
  (name : string) (namelen mode devid : Z) (fuel : nat) (junk : dirent_t) :
  keeps_held (s5fs_create dir name namelen) s
  /\ keeps_held (s5fs_mknod dir name namelen mode devid) s
  /\ keeps_held (s5fs_lookup dir name namelen) s
  /\ keeps_held (s5fs_link src dir name namelen) s
  /\ keeps_held (s5fs_unlink dir name namelen) s
  /\ keeps_held (s5fs_mkdir dir name namelen) s
  /\ keeps_held (s5fs_rmdir fuel junk dir name namelen) s.
Proof.
  repeat split; apply triple_keeps_held.
  - unfold s5fs_create. triple_go.
  - unfold s5fs_mknod. triple_go.
  - unfold s5fs_lookup. triple_go.
  - unfold s5fs_link. triple_go.
  - unfold s5fs_unlink. triple_go.
  - unfold s5fs_mkdir. triple_go.
  - unfold s5fs_rmdir. triple_go.
Qed.

(** X15: so do [s5fs_readdir] and the page hooks [s5fs_fillpage],
    [s5fs_dirtypage] and [s5fs_cleanpage], on the error returns as well. *)
Theorem s5fs_page_ops_release_mutexes (s : V) (vnode : nat)
  (offset pagebuf : Z) (page : list byte) (d : dirent_t) :
  keeps_held (s5fs_readdir vnode offset d) s
  /\ keeps_held (s5fs_fillpage vnode offset pagebuf page) s
  /\ keeps_held (s5fs_dirtypage vnode offset) s
  /\ keeps_held (s5fs_cleanpage vnode offset pagebuf page) s.
Proof.
  repeat split; apply triple_keeps_held.
  - eapply triple_conseq; [apply triple_s5fs_readdir |].
    intros r h (h0 & E & _ & ->). now rewrite E.
  - unfold s5fs_fillpage. triple_go.
  - unfold s5fs_dirtypage. triple_go.
  - unfold s5fs_cleanpage. triple_go.
Qed.

(** X16: the loop of [s5fs_rmdir] over the entries of the directory, once
    entered with a non-zero offset, is left in one way only, the return of
    [-ENOTEMPTY]: it never falls through to the removal of the
    directory. *)
Theorem s5fs_rmdir_scan_exit (fuel : nat) (parent vn : nat) (offset : Z)
  (entry : dirent_t) (s s' : V) (found : option Z) :
  offset <> 0 ->
  s5fs_rmdir_scan fuel parent vn offset entry s = Ret found s' ->
  found = Some (- ENOTEMPTY).
Proof.
  intros Hoff. assert (Ht : truthy offset = true) by (unfold truthy; lia).
  revert entry s.
  induction fuel as [| fuel IH]; intros entry s; simpl; rewrite Ht;
    [discriminate |].
  assert (Hstep :
    (r <- s5fs_readdir vn offset entry;;
     s5fs_rmdir_scan fuel parent vn offset r.2)%kern s = Ret found s' ->
    found = Some (- ENOTEMPTY)).
  { intros E. apply kbind_Ret in E as (r & s1 & _ & E). eapply IH, E. }
  destruct (_ || _); [exact Hstep |].
  destruct (negb _); [| exact Hstep].
  unfold kbind, kmodify, kret. now intros [= <- _].
Qed.

End mutex_balance.

Lemma s5fs_namespace_ops_release_mutexes_witness :
  exists r s',
    s5fs_lookup 1 "d" 1 (example_s5fs []) = Ret r s'
    /\ held s' = held (example_s5fs []).
Proof.
  assert (E : exists r s', s5fs_lookup 1 "d" 1 (example_s5fs []) = Ret r s')
    by (vm_compute; do 2 eexists; reflexivity).
  destruct E as (r & s' & E). exists r, s'. split; [exact E |].
  pose proof (s5fs_namespace_ops_release_mutexes (example_s5fs []) 1 1 "d" 1
                0 0 0 example_junk) as (_ & _ & W & _).
  unfold keeps_held in W. rewrite E in W. exact W.
Defined.

Lemma s5fs_page_ops_release_mutexes_witness :
  exists r s',
    s5fs_cleanpage 3 0 0 example_page (example_s5fs []) = Ret r s'
    /\ held s' = held (example_s5fs []).
Proof.
  assert (E : exists r s',
            s5fs_cleanpage 3 0 0 example_page (example_s5fs []) = Ret r s')
    by (vm_compute; do 2 eexists; reflexivity).
  destruct E as (r & s' & E). exists r, s'. split; [exact E |].
  pose proof (s5fs_page_ops_release_mutexes (example_s5fs []) 3 0 0
                example_page example_junk) as (_ & _ & _ & W).
  unfold keeps_held in W. rewrite E in W. exact W.
Defined.

Lemma s5fs_rmdir_scan_exit_witness :
  exists s',
    s5fs_rmdir_scan 1 1 2 32 (mk_dirent 3 0 "f") (example_s5fs_in_rmdir [])
    = Ret (Some (- ENOTEMPTY)) s'.
Proof.
  assert (E : exists found s',
            s5fs_rmdir_scan 1 1 2 32 (mk_dirent 3 0 "f")
              (example_s5fs_in_rmdir []) = Ret found s')
    by (vm_compute; do 2 eexists; reflexivity).
  destruct E as (found & s' & E). exists s'.
  pose proof (s5fs_rmdir_scan_exit 1 1 2 32 _ _ s' found
                ltac:(discriminate) E) as Hfound.
  rewrite Hfound in E. exact E.
Defined.


(** ** [s5_check_super] and [s5fs_stat] *)

Section more_s5fs_facts.
Context `{!S5SuperH}.

(** X17: [s5_check_super] answers 0 or -1, and 0 exactly for a superblock
    with the magic number and the version of the format, a root inode
    below the number of inodes, and a free-inode head that is below it too
    or is [(uint32_t) -1], the end of the list; a superblock it accepts has
    at least one inode. *)
Theorem s5_check_super_accepts (super : s5_super_t) :
  0 <= s5s_root_inode super ->
  (s5_check_super super = 0 \/ s5_check_super super = -1)
  /\ (s5_check_super super = 0 <->
      s5s_magic super = S5_MAGIC
      /\ s5s_version super = S5_CURRENT_VERSION
      /\ s5s_root_inode super < s5s_num_inodes super
      /\ (s5s_free_inode super < s5s_num_inodes super
          \/ s5s_free_inode super = 2 ^ 32 - 1))
  /\ (s5_check_super super = 0 -> 0 < s5s_num_inodes super).
Proof.
  intros Hroot. unfold s5_check_super.
  change (uint32 (-1)) with (2 ^ 32 - 1).
  destruct (s5s_magic super =? S5_MAGIC) eqn:E1;
    destruct (s5s_free_inode super <? s5s_num_inodes super) eqn:E2;
    destruct (s5s_free_inode super =? 2 ^ 32 - 1) eqn:E3;
    destruct (s5s_root_inode super <? s5s_num_inodes super) eqn:E4;
    destruct (s5s_version super =? S5_CURRENT_VERSION) eqn:E5;
    simpl; repeat split; try (left; reflexivity); try (right; reflexivity);
    try discriminate; intros; lia.
Qed.

End more_s5fs_facts.

Section s5fs_stat_facts.
Context {V : Type} `{!Vnode V, !Kmutex V, !S5Stat V, !Mman, !S5fsH}.

(** X18: [s5fs_stat] returns [-EFAULT] for a null [ss] without taking the
    mutex.  Otherwise it returns 0 with the mutex released, and of the
    [struct stat] it sets four fields: [st_mode] and [st_ino] both to the
    mode of the vnode, [st_blksize] to the block size, [st_blocks] to
    [s5_inode_blocks]; [st_nlink] and [st_size] are what the caller had
    there. *)
Theorem s5fs_stat_fields (vnode : nat) (s : V) :
  s5fs_stat vnode None s = Ret (- EFAULT, None) s
  /\ forall st s1,
       kmutex_lock vnode s = Some s1 ->
       exists st',
         s5fs_stat vnode (Some st) s = Ret (0, Some st') (kmutex_unlock vnode s1)
         /\ st_mode st' = vn_mode vnode s1
         /\ st_ino st' = vn_mode vnode s1
         /\ st_nlink st' = st_nlink st
         /\ st_size st' = st_size st
         /\ st_blksize st' = S5_BLOCK_SIZE
         /\ st_blocks st' = s5_inode_blocks vnode s1.
Proof.
  split; [reflexivity |].
  intros st s1 Hlock.
  unfold s5fs_stat, kbind, lock, unlock, kget, kmodify, kret.
  rewrite Hlock. eexists. split; [reflexivity |]. repeat split.
Qed.

End s5fs_stat_facts.

Lemma s5_check_super_accepts_witness :
  s5_check_super example_super = 0 /\ 0 < s5s_num_inodes example_super.
Proof.
  destruct (s5_check_super_accepts example_super) as (_ & Hiff & Hpos);
    [discriminate |].
  assert (E : s5_check_super example_super = 0).
  { apply Hiff. repeat split; try reflexivity. right. reflexivity. }
  split; [exact E | exact (Hpos E)].
Defined.

Lemma s5fs_stat_fields_witness :
  exists st' s',
    s5fs_stat 3 (Some example_stat) (example_s5fs []) = Ret (0, Some st') s'
    /\ st_ino st' = st_mode st'
    /\ st_nlink st' = 5 /\ st_size st' = 77 /\ st_blocks st' = 1.
Proof.
  edestruct (proj2 (s5fs_stat_fields 3 (example_s5fs [])) example_stat)
    as (st' & R & Hm & Hi & Hn & Hs & _ & Hb); [reflexivity |].
  exists st'. eexists. split; [exact R |].
  split; [now rewrite Hm, Hi |].
  split; [exact Hn |]. split; [exact Hs |].
  rewrite Hb. reflexivity.
Defined.
